(** * STOMP / META: a shallow embedding of the queue simulator and the DAG manager

    The development follows the two source files:
    - [stomp.py]: classes [Task], [Server], [BaseSchedulingPolicy], [STOMP];
    - [meta.py]:  [read_matrix], classes [MetaTask], [DAG], [META].

    Python objects become records, attribute updates become record updates,
    exceptions become the [Raise] branch of [result], the two dictionaries
    that are only looked up ([dag_dict], the statistics tables) become
    [gmap]s, Python lists stay lists.  The scheduling policy is an abstract
    class in the source and a type class here; NumPy's random generator is
    a second type class, so that concrete runs can be evaluated. *)

From Stdlib Require Import ZArith Lia.
From stdpp Require Import base option list gmap strings pretty sorting.

Local Open Scope Z_scope.

(** ** Exceptions and the error monad *)

Inductive exn : Type :=
| AssertionError
| AttributeError
| IndexError
| KeyError
| OverflowError
| TypeError
| ValueError
| ZeroDivisionError
| DanglingServer. (* a server reference outside the pool; no Python counterpart *)

Inductive result (A : Type) : Type :=
| Ok (a : A)
| Raise (e : exn).
Arguments Ok {A} a.
Arguments Raise {A} e.

Definition rbind {A B : Type} (r : result A) (k : A -> result B) : result B :=
  match r with
  | Ok a => k a
  | Raise e => Raise e
  end.

Definition of_option {A : Type} (e : exn) (o : option A) : result A :=
  match o with
  | Some a => Ok a
  | None => Raise e
  end.

Definition to_option {A : Type} (r : result A) : option A :=
  match r with
  | Ok a => Some a
  | Raise _ => None
  end.

#[global] Instance result_ret : MRet result := fun A a => Ok a.
#[global] Instance result_bind : MBind result := fun A B k r => rbind r k.

(** ** Python values shared by both files *)

(** A time that is either a Python [int] or [float("inf")]. *)
Inductive etime : Type :=
| Fin (t : Z)
| Inf.

#[global] Instance etime_eq_dec : EqDecision etime.
Proof. solve_decision. Defined.

Definition etime_leb (a b : etime) : bool :=
  match a, b with
  | _, Inf => true
  | Inf, Fin _ => false
  | Fin x, Fin y => x <=? y
  end.

Definition etime_ltb (a b : etime) : bool :=
  match a, b with
  | Inf, _ => false
  | Fin _, Inf => true
  | Fin x, Fin y => x <? y
  end.

(** The two comparisons as propositions. *)
Definition etime_le (a b : etime) : Prop := etime_leb a b = true.
Definition etime_lt (a b : etime) : Prop := etime_ltb a b = true.

(** The position that a Python index [i] denotes in a sequence of length
    [n]: negative indices count from the end, anything else is out of range. *)
Definition py_pos (n : nat) (i : Z) : option nat :=
  if (0 <=? i) && (i <? Z.of_nat n) then Some (Z.to_nat i)
  else if (i <? 0) && (0 <=? Z.of_nat n + i) then Some (Z.to_nat (Z.of_nat n + i))
  else None.

(** [l[i]]; [None] stands for [IndexError]. *)
Definition py_index {A : Type} (l : list A) (i : Z) : option A :=
  p ← py_pos (length l) i; l !! p.

(** [d[k]] for a dictionary kept in key order. *)
Fixpoint assoc {A : Type} (k : string) (d : list (string * A)) : option A :=
  match d with
  | [] => None
  | (k', v) :: d' => if decide (k = k') then Some v else assoc k d'
  end.

(** [hash(n)] of a Python [int] on a 64-bit build: reduction modulo the
    Mersenne prime [2^61 - 1], sign kept, and [-1] replaced by [-2]. *)
Definition py_hash_modulus : Z := 2 ^ 61 - 1.

Definition py_hash_int (n : Z) : Z :=
  let h := Z.sgn n * (Z.abs n mod py_hash_modulus) in
  if h =? -1 then -2 else h.

Fixpoint sum_list_Z (l : list Z) : Z :=
  match l with
  | [] => 0
  | x :: l' => x + sum_list_Z l'
  end.

(** ** stomp.py *)

Module Task.

(** [class Task].  The two [sorted(...items())] lists of the constructor
    are derived from the dictionaries and read nowhere in the two files;
    they are left out. *)
Record t : Type := mk {
  type : string;
  mean_service_time_dict : gmap string Z;
  stdev_service_time_dict : gmap string Z;
  arrival_time : Z;
  departure_time : option Z;
  total_task_time : option Z;
  trace_id : option Z;
  wpower : option Z;
  current_time : Z
}.

(** [params['simulation']['tasks'][task]] *)
Record params : Type := mk_params {
  mean_service_time : gmap string Z;
  stdev_service_time : gmap string Z
}.

(** [Task.__init__(sim_time, type, params)] *)
Definition init (sim_time : Z) (ty : string) (p : params) : t :=
  {| type := ty;
     mean_service_time_dict := mean_service_time p;
     stdev_service_time_dict := stdev_service_time p;
     arrival_time := sim_time;
     departure_time := None;
     total_task_time := None;
     trace_id := None;
     wpower := None;
     current_time := 0 |}.

Definition set_total_task_time (v : Z) (k : t) : t :=
  {| type := type k;
     mean_service_time_dict := mean_service_time_dict k;
     stdev_service_time_dict := stdev_service_time_dict k;
     arrival_time := arrival_time k;
     departure_time := departure_time k;
     total_task_time := Some v;
     trace_id := trace_id k;
     wpower := wpower k;
     current_time := current_time k |}.

End Task.

(** NumPy's global generator, threaded explicitly.  Each operation is the
    whole source expression around the draw, so no float is needed:
    - [normal_service_time g loc scale] is
      [int(round(numpy.random.normal(loc=loc, scale=scale, size=1)))];
    - [exponential_arrival g now scale] is
      [int(round(now + numpy.random.exponential(scale=scale, size=1)))];
    - [choice g l] is [numpy.random.choice(l)] for a non-empty [l]. *)
Class RandomSource : Type := {
  rng : Type;
  normal_service_time : rng -> Z -> Z -> Z * rng;
  exponential_arrival : rng -> Z -> Z -> Z * rng;
  choice : rng -> list string -> string * rng
}.

Module Server.

(** [class Server]; [pmode] is [None] throughout and left out. *)
Record t : Type := mk {
  id : Z;
  type : string;
  num_reqs : Z;
  last_stopped_at : Z;
  busy_time : Z;
  busy : bool;
  curr_service_time : option Z;
  curr_job_start_time : option Z;
  curr_job_end_time : option Z;
  curr_job_end_time_estimated : option Z;
  last_usage_started_at : option Z;
  task : option Task.t
}.

(** [Server.reset]: [curr_job_end_time_estimated] is not among the
    attributes it clears. *)
Definition reset (s : t) : t :=
  {| id := id s;
     type := type s;
     num_reqs := num_reqs s;
     last_stopped_at := last_stopped_at s;
     busy_time := busy_time s;
     busy := false;
     curr_service_time := None;
     curr_job_start_time := None;
     curr_job_end_time := None;
     curr_job_end_time_estimated := curr_job_end_time_estimated s;
     last_usage_started_at := None;
     task := None |}.

(** [Server.__init__(id, type)] *)
Definition init (i : Z) (ty : string) : t :=
  reset
    {| id := i;
       type := ty;
       num_reqs := 0;
       last_stopped_at := 0;
       busy_time := 0;
       busy := false;
       curr_service_time := None;
       curr_job_start_time := None;
       curr_job_end_time := None;
       curr_job_end_time_estimated := None;
       last_usage_started_at := None;
       task := None |}.

Definition set_last_stopped_at (v : Z) (s : t) : t :=
  {| id := id s;
     type := type s;
     num_reqs := num_reqs s;
     last_stopped_at := v;
     busy_time := busy_time s;
     busy := busy s;
     curr_service_time := curr_service_time s;
     curr_job_start_time := curr_job_start_time s;
     curr_job_end_time := curr_job_end_time s;
     curr_job_end_time_estimated := curr_job_end_time_estimated s;
     last_usage_started_at := last_usage_started_at s;
     task := task s |}.

(** [Server.assign_task(sim_time, task)]: a missing dictionary entry
    raises [KeyError]. *)
Definition assign_task `{RandomSource} (s : t) (sim_time : Z) (k : Task.t) (g : rng)
  : result (t * rng) :=
  mean ← of_option KeyError (Task.mean_service_time_dict k !! type s);
  stdev ← of_option KeyError (Task.stdev_service_time_dict k !! type s);
  let '(service_time, g') := normal_service_time g mean stdev in
  let k' := Task.set_total_task_time service_time k in
  Ok ({| id := id s;
         type := type s;
         num_reqs := num_reqs s + 1;
         last_stopped_at := last_stopped_at s;
         busy_time := busy_time s + service_time;
         busy := true;
         curr_service_time := Some service_time;
         curr_job_start_time := Some sim_time;
         curr_job_end_time := Some (sim_time + service_time);
         curr_job_end_time_estimated := Some (sim_time + mean);
         last_usage_started_at := Some sim_time;
         task := Some k' |}, g').

End Server.

(** The configuration read by the simulator, [params['simulation']].  The
    two tables [servers] and [tasks] are dictionaries that the source
    iterates, so they are kept in key order as association lists. *)
Record Params : Type := mk_Params {
  power_mgmt_enabled : bool;
  max_tasks_simulated : Z;
  max_queue_size : Z;
  mean_arrival_time : Z;
  servers_count : list (string * Z);        (* ['servers'][type]['count'] *)
  tasks_params : list (string * Task.params)  (* ['tasks'][type] *)
}.

(** [self.stats]; one field per key. *)
Record Stats : Type := mk_Stats {
  Running_Tasks : Z;
  Busy_Servers : Z;
  Available_Servers : gmap string Z;
  Tasks_Generated : Z;
  Tasks_Serviced : Z;
  Tasks_Serviced_per_Type : gmap string Z;
  Avg_Resp_Time : Z;
  Avg_Resp_Time_per_Type : gmap string Z;
  Queue_Size_Histogram : list Z
}.

Definition set_Running_Tasks (v : Z) (st : Stats) : Stats :=
  {| Running_Tasks := v;
     Busy_Servers := Busy_Servers st;
     Available_Servers := Available_Servers st;
     Tasks_Generated := Tasks_Generated st;
     Tasks_Serviced := Tasks_Serviced st;
     Tasks_Serviced_per_Type := Tasks_Serviced_per_Type st;
     Avg_Resp_Time := Avg_Resp_Time st;
     Avg_Resp_Time_per_Type := Avg_Resp_Time_per_Type st;
     Queue_Size_Histogram := Queue_Size_Histogram st |}.

Definition set_Busy_Servers (v : Z) (st : Stats) : Stats :=
  {| Running_Tasks := Running_Tasks st;
     Busy_Servers := v;
     Available_Servers := Available_Servers st;
     Tasks_Generated := Tasks_Generated st;
     Tasks_Serviced := Tasks_Serviced st;
     Tasks_Serviced_per_Type := Tasks_Serviced_per_Type st;
     Avg_Resp_Time := Avg_Resp_Time st;
     Avg_Resp_Time_per_Type := Avg_Resp_Time_per_Type st;
     Queue_Size_Histogram := Queue_Size_Histogram st |}.

Definition set_Available_Servers (v : gmap string Z) (st : Stats) : Stats :=
  {| Running_Tasks := Running_Tasks st;
     Busy_Servers := Busy_Servers st;
     Available_Servers := v;
     Tasks_Generated := Tasks_Generated st;
     Tasks_Serviced := Tasks_Serviced st;
     Tasks_Serviced_per_Type := Tasks_Serviced_per_Type st;
     Avg_Resp_Time := Avg_Resp_Time st;
     Avg_Resp_Time_per_Type := Avg_Resp_Time_per_Type st;
     Queue_Size_Histogram := Queue_Size_Histogram st |}.

Definition set_Tasks_Generated (v : Z) (st : Stats) : Stats :=
  {| Running_Tasks := Running_Tasks st;
     Busy_Servers := Busy_Servers st;
     Available_Servers := Available_Servers st;
     Tasks_Generated := v;
     Tasks_Serviced := Tasks_Serviced st;
     Tasks_Serviced_per_Type := Tasks_Serviced_per_Type st;
     Avg_Resp_Time := Avg_Resp_Time st;
     Avg_Resp_Time_per_Type := Avg_Resp_Time_per_Type st;
     Queue_Size_Histogram := Queue_Size_Histogram st |}.

Definition set_Tasks_Serviced (v : Z) (st : Stats) : Stats :=
  {| Running_Tasks := Running_Tasks st;
     Busy_Servers := Busy_Servers st;
     Available_Servers := Available_Servers st;
     Tasks_Generated := Tasks_Generated st;
     Tasks_Serviced := v;
     Tasks_Serviced_per_Type := Tasks_Serviced_per_Type st;
     Avg_Resp_Time := Avg_Resp_Time st;
     Avg_Resp_Time_per_Type := Avg_Resp_Time_per_Type st;
     Queue_Size_Histogram := Queue_Size_Histogram st |}.

Definition set_Tasks_Serviced_per_Type (v : gmap string Z) (st : Stats) : Stats :=
  {| Running_Tasks := Running_Tasks st;
     Busy_Servers := Busy_Servers st;
     Available_Servers := Available_Servers st;
     Tasks_Generated := Tasks_Generated st;
     Tasks_Serviced := Tasks_Serviced st;
     Tasks_Serviced_per_Type := v;
     Avg_Resp_Time := Avg_Resp_Time st;
     Avg_Resp_Time_per_Type := Avg_Resp_Time_per_Type st;
     Queue_Size_Histogram := Queue_Size_Histogram st |}.

Definition set_Avg_Resp_Time (v : Z) (st : Stats) : Stats :=
  {| Running_Tasks := Running_Tasks st;
     Busy_Servers := Busy_Servers st;
     Available_Servers := Available_Servers st;
     Tasks_Generated := Tasks_Generated st;
     Tasks_Serviced := Tasks_Serviced st;
     Tasks_Serviced_per_Type := Tasks_Serviced_per_Type st;
     Avg_Resp_Time := v;
     Avg_Resp_Time_per_Type := Avg_Resp_Time_per_Type st;
     Queue_Size_Histogram := Queue_Size_Histogram st |}.

Definition set_Avg_Resp_Time_per_Type (v : gmap string Z) (st : Stats) : Stats :=
  {| Running_Tasks := Running_Tasks st;
     Busy_Servers := Busy_Servers st;
     Available_Servers := Available_Servers st;
     Tasks_Generated := Tasks_Generated st;
     Tasks_Serviced := Tasks_Serviced st;
     Tasks_Serviced_per_Type := Tasks_Serviced_per_Type st;
     Avg_Resp_Time := Avg_Resp_Time st;
     Avg_Resp_Time_per_Type := v;
     Queue_Size_Histogram := Queue_Size_Histogram st |}.

Definition set_Queue_Size_Histogram (v : list Z) (st : Stats) : Stats :=
  {| Running_Tasks := Running_Tasks st;
     Busy_Servers := Busy_Servers st;
     Available_Servers := Available_Servers st;
     Tasks_Generated := Tasks_Generated st;
     Tasks_Serviced := Tasks_Serviced st;
     Tasks_Serviced_per_Type := Tasks_Serviced_per_Type st;
     Avg_Resp_Time := Avg_Resp_Time st;
     Avg_Resp_Time_per_Type := Avg_Resp_Time_per_Type st;
     Queue_Size_Histogram := v |}.

(** [class BaseSchedulingPolicy].  The policy object keeps the reference to
    [self.servers] it is given by [init] and receives the queue [tasks] on
    every call; both are lists it may mutate, so [assign_task_to_server]
    returns them.  The server it returns is a reference into the pool,
    written here as its position in [self.servers]. *)
Class SchedulingPolicy `{RandomSource} : Type := {
  policy : Type;
  policy_init : policy -> list Server.t -> Stats -> Params -> policy;
  assign_task_to_server :
    policy -> Z -> list Task.t -> list Server.t -> rng ->
    result (option nat * policy * list Task.t * list Server.t * rng);
  remove_task_from_server : policy -> Z -> Server.t -> policy
}.

Module STOMP.

Inductive event : Type :=
| E_PWR_MGMT
| E_TASK_ARRIVAL
| E_SERVER_FINISHES
| E_NOTHING.

(** What [logging.info] and [logging.warning] receive; the [debug] lines
    only format counters and are left out. *)
Inductive log_record : Type :=
| Info_no_empty_queue_slot (sim_time : Z)
| Warning_power_mgmt_not_supported (sim_time : Z).

(** A line ['%ld\t%.1f' % (sim_time, total / count)] of a trace file, kept
    as the three integers it is printed from. *)
Definition trace_line : Type := Z * Z * Z.

Definition bin_size : Z := 1.

Section Simulator.
Context `{SchedulingPolicy}.

(** The attributes of a [STOMP] object. *)
Record t : Type := mk {
  params : Params;
  sched_policy : policy;
  random : rng;
  tasks : list Task.t;
  servers : list Server.t;
  sim_time : Z;
  stats : Stats;
  last_size_change_time : Z;
  task_trace_files : gmap string (list trace_line);
  task_trace_file : list trace_line;
  next_cust_arrival_time : Z;
  next_power_mgmt_time : etime;
  next_serv_end_time : etime;
  next_serv_end : option nat;
  log : list log_record
}.

Definition set_sched_policy (v : policy) (s : t) : t :=
  mk (params s) v (random s) (tasks s) (servers s) (sim_time s) (stats s)
     (last_size_change_time s) (task_trace_files s) (task_trace_file s)
     (next_cust_arrival_time s) (next_power_mgmt_time s) (next_serv_end_time s)
     (next_serv_end s) (log s).

Definition set_random (v : rng) (s : t) : t :=
  mk (params s) (sched_policy s) v (tasks s) (servers s) (sim_time s) (stats s)
     (last_size_change_time s) (task_trace_files s) (task_trace_file s)
     (next_cust_arrival_time s) (next_power_mgmt_time s) (next_serv_end_time s)
     (next_serv_end s) (log s).

Definition set_tasks (v : list Task.t) (s : t) : t :=
  mk (params s) (sched_policy s) (random s) v (servers s) (sim_time s) (stats s)
     (last_size_change_time s) (task_trace_files s) (task_trace_file s)
     (next_cust_arrival_time s) (next_power_mgmt_time s) (next_serv_end_time s)
     (next_serv_end s) (log s).

Definition set_servers (v : list Server.t) (s : t) : t :=
  mk (params s) (sched_policy s) (random s) (tasks s) v (sim_time s) (stats s)
     (last_size_change_time s) (task_trace_files s) (task_trace_file s)
     (next_cust_arrival_time s) (next_power_mgmt_time s) (next_serv_end_time s)
     (next_serv_end s) (log s).

Definition set_sim_time (v : Z) (s : t) : t :=
  mk (params s) (sched_policy s) (random s) (tasks s) (servers s) v (stats s)
     (last_size_change_time s) (task_trace_files s) (task_trace_file s)
     (next_cust_arrival_time s) (next_power_mgmt_time s) (next_serv_end_time s)
     (next_serv_end s) (log s).

Definition set_stats (v : Stats) (s : t) : t :=
  mk (params s) (sched_policy s) (random s) (tasks s) (servers s) (sim_time s) v
     (last_size_change_time s) (task_trace_files s) (task_trace_file s)
     (next_cust_arrival_time s) (next_power_mgmt_time s) (next_serv_end_time s)
     (next_serv_end s) (log s).

Definition set_last_size_change_time (v : Z) (s : t) : t :=
  mk (params s) (sched_policy s) (random s) (tasks s) (servers s) (sim_time s) (stats s)
     v (task_trace_files s) (task_trace_file s)
     (next_cust_arrival_time s) (next_power_mgmt_time s) (next_serv_end_time s)
     (next_serv_end s) (log s).

Definition set_task_trace_files (v : gmap string (list trace_line)) (s : t) : t :=
  mk (params s) (sched_policy s) (random s) (tasks s) (servers s) (sim_time s) (stats s)
     (last_size_change_time s) v (task_trace_file s)
     (next_cust_arrival_time s) (next_power_mgmt_time s) (next_serv_end_time s)
     (next_serv_end s) (log s).

Definition set_task_trace_file (v : list trace_line) (s : t) : t :=
  mk (params s) (sched_policy s) (random s) (tasks s) (servers s) (sim_time s) (stats s)
     (last_size_change_time s) (task_trace_files s) v
     (next_cust_arrival_time s) (next_power_mgmt_time s) (next_serv_end_time s)
     (next_serv_end s) (log s).

Definition set_next_cust_arrival_time (v : Z) (s : t) : t :=
  mk (params s) (sched_policy s) (random s) (tasks s) (servers s) (sim_time s) (stats s)
     (last_size_change_time s) (task_trace_files s) (task_trace_file s)
     v (next_power_mgmt_time s) (next_serv_end_time s)
     (next_serv_end s) (log s).

Definition set_next_power_mgmt_time (v : etime) (s : t) : t :=
  mk (params s) (sched_policy s) (random s) (tasks s) (servers s) (sim_time s) (stats s)
     (last_size_change_time s) (task_trace_files s) (task_trace_file s)
     (next_cust_arrival_time s) v (next_serv_end_time s)
     (next_serv_end s) (log s).

(** The two attributes of the cached earliest-ending server are always
    written together. *)
Definition set_next_serv_end (v : etime) (r : option nat) (s : t) : t :=
  mk (params s) (sched_policy s) (random s) (tasks s) (servers s) (sim_time s) (stats s)
     (last_size_change_time s) (task_trace_files s) (task_trace_file s)
     (next_cust_arrival_time s) (next_power_mgmt_time s) v r (log s).

Definition add_log (v : log_record) (s : t) : t :=
  mk (params s) (sched_policy s) (random s) (tasks s) (servers s) (sim_time s) (stats s)
     (last_size_change_time s) (task_trace_files s) (task_trace_file s)
     (next_cust_arrival_time s) (next_power_mgmt_time s) (next_serv_end_time s)
     (next_serv_end s) (log s ++ [v]).


(** *** [STOMP.__init__] and [STOMP.init_servers] *)

Fixpoint new_servers (n : nat) (id : Z) (server_type : string) : list Server.t :=
  match n with
  | O => []
  | S n' => Server.init id server_type :: new_servers n' (id + 1) server_type
  end.

(** The loop of [init_servers]: [id] is the next free identifier, [avail]
    is [stats['Available Servers']], [acc] is [self.servers]. *)
Fixpoint init_servers (cfg : list (string * Z)) (id : Z)
    (avail : gmap string Z) (acc : list Server.t) : gmap string Z * list Server.t :=
  match cfg with
  | [] => (avail, acc)
  | (server_type, server_count) :: cfg' =>
      let avail' :=
        match avail !! server_type with
        | Some _ => avail
        | None => <[server_type := server_count]> avail
        end in
      let n := Z.to_nat server_count in
      init_servers cfg' (id + Z.of_nat n) avail'
                   (acc ++ new_servers n id server_type)
  end.

(** [STOMP(stomp_params, sched_policy)], with [g] the generator seeded by
    [numpy.random.seed].  The three [next_...] attributes and
    [next_serv_end] only exist once [run] has set them; they are given
    the values [run] starts from. *)
Definition init (p : Params) (pol : policy) (g : rng) : t :=
  let '(avail, srv) := init_servers (servers_count p) 0 ∅ [] in
  {| params := p;
     sched_policy := pol;
     random := g;
     tasks := [];
     servers := srv;
     sim_time := 0;
     stats := {| Running_Tasks := 0;
                 Busy_Servers := 0;
                 Available_Servers := avail;
                 Tasks_Generated := 0;
                 Tasks_Serviced := 0;
                 Tasks_Serviced_per_Type := ∅;
                 Avg_Resp_Time := 0;
                 Avg_Resp_Time_per_Type := ∅;
                 Queue_Size_Histogram := replicate 10 0 |};
     last_size_change_time := 0;
     task_trace_files := ∅;
     task_trace_file := [];
     next_cust_arrival_time := 0;
     next_power_mgmt_time := Inf;
     next_serv_end_time := Inf;
     next_serv_end := None;
     log := [] |}.

(** *** The queue-size histogram

    The source repeats these lines in [generate_n_enqueue_new_task], in
    [print_stats] and in step 3 of [run]; they differ in [queue_size] only.
    The bins are a NumPy [int] array; they are kept as unbounded integers. *)
Definition update_histogram (queue_size : Z) (s : t) : result t :=
  let hist := Queue_Size_Histogram (stats s) in
  let bin := Z.quot queue_size bin_size in
  let time_period := sim_time s - last_size_change_time s in
  let bin := if Z.of_nat (length hist) <=? bin then Z.of_nat (length hist) - 1 else bin in
  p ← of_option IndexError (py_pos (length hist) bin);
  old ← of_option IndexError (hist !! p);
  let hist' := <[p := old + time_period]> hist in
  Ok (set_last_size_change_time (sim_time s)
        (set_stats (set_Queue_Size_Histogram hist' (stats s)) s)).

(** *** [generate_n_enqueue_new_task] *)
Definition generate_n_enqueue_new_task (s : t) : result (bool * t) :=
  if Z.of_nat (length (tasks s)) =? max_queue_size (params s) then
    Ok (false, add_log (Info_no_empty_queue_slot (sim_time s)) s)
  else
    s1 ← update_histogram (Z.of_nat (length (tasks s))) s;
    let names := (tasks_params (params s)).*1 in
    if bool_decide (names = []) then Raise ValueError
    else
      let '(task, g) := choice (random s1) names in
      task_params ← of_option KeyError (assoc task (tasks_params (params s)));
      let s2 := set_random g s1 in
      let s3 := set_tasks (tasks s2 ++ [Task.init (sim_time s2) task task_params]) s2 in
      let st := stats s3 in
      let st := set_Tasks_Generated (Tasks_Generated st + 1) st in
      let s4 := set_stats st s3 in
      match Avg_Resp_Time_per_Type st !! task with
      | Some _ => Ok (true, s4)
      | None =>
          let st := set_Avg_Resp_Time_per_Type (<[task := 0]> (Avg_Resp_Time_per_Type st)) st in
          let st := set_Tasks_Serviced_per_Type (<[task := 0]> (Tasks_Serviced_per_Type st)) st in
          Ok (true, set_task_trace_files (<[task := []]> (task_trace_files s4))
                      (set_stats st s4))
      end.

(** *** [release_server] *)

(** "Determine next server end time": the loop over [self.servers], with
    [i] the position of the head of [l] in the pool and [(t, r)] the
    current [next_serv_end_time] and [next_serv_end].  Comparing the [None]
    end time of a server with a number is a [TypeError] (Python 3). *)
Fixpoint scan_servers (l : list Server.t) (i : nat) (t : etime) (r : option nat)
  : result (etime * option nat) :=
  match l with
  | [] => Ok (t, r)
  | server :: l' =>
      if Server.busy server then
        match Server.curr_job_end_time server with
        | None => Raise TypeError
        | Some e =>
            if etime_leb (Fin e) t
            then scan_servers l' (S i) (Fin e) (Some i)
            else scan_servers l' (S i) t r
        end
      else scan_servers l' (S i) t r
  end.

Definition release_server (i : nat) (s : t) : result t :=
  server ← of_option DanglingServer (servers s !! i);
  task ← of_option AttributeError (Server.task server);
  let task_type := Task.type task in
  let resp_time := sim_time s - Task.arrival_time task in
  let st := stats s in
  let st := set_Avg_Resp_Time (Avg_Resp_Time st + resp_time) st in
  total ← of_option KeyError (Avg_Resp_Time_per_Type st !! task_type);
  let st := set_Avg_Resp_Time_per_Type
              (<[task_type := total + resp_time]> (Avg_Resp_Time_per_Type st)) st in
  let st := set_Tasks_Serviced (Tasks_Serviced st + 1) st in
  count ← of_option KeyError (Tasks_Serviced_per_Type st !! task_type);
  let st := set_Tasks_Serviced_per_Type
              (<[task_type := count + 1]> (Tasks_Serviced_per_Type st)) st in
  let st := set_Busy_Servers (Busy_Servers st - 1) st in
  avail ← of_option KeyError (Available_Servers st !! Server.type server);
  let st := set_Available_Servers
              (<[Server.type server := avail + 1]> (Available_Servers st)) st in
  let s := set_next_serv_end Inf None (set_stats st s) in
  if Tasks_Serviced st =? 0 then Raise ZeroDivisionError
  else
    let s := set_task_trace_file
               (task_trace_file s ++ [(sim_time s, Avg_Resp_Time st, Tasks_Serviced st)]) s in
    if count + 1 =? 0 then Raise ZeroDivisionError
    else
      file ← of_option KeyError (task_trace_files s !! task_type);
      let s := set_task_trace_files
                 (<[task_type := file ++ [(sim_time s, total + resp_time, count + 1)]]>
                    (task_trace_files s)) s in
      let s := set_sched_policy
                 (remove_task_from_server (sched_policy s) (sim_time s) server) s in
      let s := set_servers
                 (<[i := Server.set_last_stopped_at (sim_time s) (Server.reset server)]>
                    (servers s)) s in
      '(t, r) ← scan_servers (servers s) 0 Inf None;
      Ok (set_next_serv_end t r s).

(** *** [print_stats], up to the normalisation of the histogram

    Returns the state after the final histogram update, the average
    response time as the pair it is the quotient of, and [total_time]. *)
Definition print_stats (s : t) : result (t * (Z * Z) * Z) :=
  if Tasks_Serviced (stats s) =? 0 then Raise ZeroDivisionError
  else
    let avg := (Avg_Resp_Time (stats s), Tasks_Serviced (stats s)) in
    s' ← update_histogram (Z.of_nat (length (tasks s))) s;
    Ok (s', avg, sum_list_Z (Queue_Size_Histogram (stats s'))).

(** *** [run] *)

(** The statements of [run] before the main loop. *)
Definition run_setup (s : t) : t :=
  let pol := policy_init (sched_policy s) (servers s) (stats s) (params s) in
  set_next_serv_end Inf None
    (set_next_power_mgmt_time Inf
       (set_next_cust_arrival_time (sim_time s)
          (set_sched_policy pol s))).

(** The condition of the [while]. *)
Definition keep_running (s : t) : bool :=
  (Tasks_Generated (stats s) <? max_tasks_simulated (params s))
  || (0 <? Z.of_nat (length (tasks s)))
  || (0 <? Busy_Servers (stats s)).

(** Step 1, "Determine next event to handle", as a function of the six
    values it reads; the two [assert]s of the last branch are kept. *)
Definition select_event (pm_enabled : bool) (generated max_simulated : Z)
    (pm arrival serv_end : etime) : result event :=
  if pm_enabled
     && (etime_leb pm arrival || (max_simulated <=? generated))
     && etime_leb pm serv_end
  then Ok E_PWR_MGMT
  else if (generated <? max_simulated)
          && (etime_leb arrival pm || negb pm_enabled)
          && (etime_leb arrival serv_end || (max_simulated <=? generated))
  then Ok E_TASK_ARRIVAL
  else if negb (etime_leb serv_end pm || negb pm_enabled) then Raise AssertionError
  else if negb (etime_leb serv_end arrival || (max_simulated <=? generated))
  then Raise AssertionError
  else Ok E_SERVER_FINISHES.

Definition next_event (s : t) : result event :=
  select_event (power_mgmt_enabled (params s))
               (Tasks_Generated (stats s)) (max_tasks_simulated (params s))
               (next_power_mgmt_time s) (Fin (next_cust_arrival_time s))
               (next_serv_end_time s).

(** Step 2, "Handle the event".  [sim_time] is an [int] here: where the
    source would store [float("inf")] in it, the handler raises before it
    returns (formatting ['%10ld' % inf] is an [OverflowError]; the [assert]
    on [next_serv_end]; the ['%ld'] of the trace line in
    [release_server]). *)
Definition handle_event (ev : event) (s : t) : result t :=
  match ev with
  | E_PWR_MGMT =>
      match next_power_mgmt_time s with
      | Inf => Raise OverflowError
      | Fin now =>
          let s := set_sim_time now s in
          Ok (add_log (Warning_power_mgmt_not_supported (sim_time s)) s)
      end
  | E_TASK_ARRIVAL =>
      let s := set_sim_time (next_cust_arrival_time s) s in
      '(enqueued, s) ← generate_n_enqueue_new_task s;
      if enqueued : bool then
        let '(next, g) :=
          exponential_arrival (random s) (sim_time s) (mean_arrival_time (params s)) in
        Ok (set_next_cust_arrival_time next (set_random g s))
      else Ok s
  | E_SERVER_FINISHES =>
      match next_serv_end_time s, next_serv_end s with
      | _, None => Raise AssertionError
      | Inf, Some _ => Raise OverflowError
      | Fin now, Some i =>
          let s := set_sim_time now s in
          s ← release_server i s;
          Ok (set_stats (set_Running_Tasks (Running_Tasks (stats s) - 1) (stats s)) s)
      end
  | E_NOTHING => Ok s
  end.

(** Step 3, "Make scheduling decisions": one call of the policy, and the
    bookkeeping under [if server is not None]. *)
Definition make_scheduling_decisions (s : t) : result t :=
  '(r, pol, queue, pool, g) ←
     assign_task_to_server (sched_policy s) (sim_time s) (tasks s) (servers s) (random s);
  let s := set_random g (set_servers pool (set_tasks queue (set_sched_policy pol s))) in
  match r with
  | None => Ok s
  | Some i =>
      server ← of_option DanglingServer (servers s !! i);
      e ← of_option TypeError (Server.curr_job_end_time server);
      let s := if etime_ltb (Fin e) (next_serv_end_time s)
               then set_next_serv_end (Fin e) (Some i) s else s in
      let st := stats s in
      let st := set_Running_Tasks (Running_Tasks st + 1) st in
      let st := set_Busy_Servers (Busy_Servers st + 1) st in
      avail ← of_option KeyError (Available_Servers st !! Server.type server);
      let st := set_Available_Servers
                  (<[Server.type server := avail - 1]> (Available_Servers st)) st in
      update_histogram (Z.of_nat (length (tasks s)) + 1) (set_stats st s)
  end.

(** The body of the main loop. *)
Definition iteration (s : t) : result t :=
  ev ← next_event s;
  s ← handle_event ev s;
  make_scheduling_decisions s.

Inductive outcome : Type :=
| Finished (s : t)      (* the [while] condition became false *)
| Raised (e : exn)      (* an exception left [run] *)
| Unfinished (s : t).   (* still looping after [fuel] iterations *)

Fixpoint main_loop (fuel : nat) (s : t) : outcome :=
  if keep_running s then
    match fuel with
    | O => Unfinished s
    | S fuel' =>
        match iteration s with
        | Ok s' => main_loop fuel' s'
        | Raise e => Raised e
        end
    end
  else Finished s.

Definition run (fuel : nat) (s : t) : outcome := main_loop fuel (run_setup s).

(** *** Two invariants of a run *)

(** The bins have the length of the array and add up to the time of the
    last update. *)
Definition histogram_inv (s : t) : Prop :=
  length (Queue_Size_Histogram (stats s)) = 10%nat /\
  sum_list_Z (Queue_Size_Histogram (stats s)) = last_size_change_time s.

(** The identifiers of a pool are the positions of its servers. *)
Definition ids_are_positions (l : list Server.t) : Prop :=
  Server.id <$> l = Z.of_nat <$> seq 0 (length l).

End Simulator.
End STOMP.

(** ** meta.py *)

(** [l.sort(key=key)] and [sorted(l, key=key)] for integer keys: Python's
    sort is stable, which determines its result; it is written here as an
    insertion sort that never moves an element past an equal key. *)
Section PySort.
Context {A : Type} (key : A -> Z).

Fixpoint py_insert (x : A) (l : list A) : list A :=
  match l with
  | [] => [x]
  | y :: l' => if key x <=? key y then x :: l else y :: py_insert x l'
  end.

Fixpoint py_sort (l : list A) : list A :=
  match l with
  | [] => []
  | x :: l' => py_insert x (py_sort l')
  end.

(** The order that the sort establishes. *)
Definition key_le (a b : A) : Prop := key a <= key b.

End PySort.

(** [l.remove(x)]: drops the first occurrence, [ValueError] without one. *)
Fixpoint py_remove (x : Z) (l : list Z) : result (list Z) :=
  match l with
  | [] => Raise ValueError
  | y :: l' => if x =? y then Ok l' else l'' ← py_remove x l'; Ok (y :: l'')
  end.

Module MetaTask.

(** [class MetaTask] *)
Record t : Type := mk {
  tid : Z;
  rank : Z;
  processor : Z;
  ast : Z;
  aft : Z;
  scheduled : Z
}.

(** [MetaTask(tid)], with [tid] already converted by [int]. *)
Definition init (tid : Z) : t :=
  {| tid := tid; rank := -1; processor := -1; ast := 0; aft := 0; scheduled := 0 |}.

(** [__hash__], and [__eq__], [__lt__], [__le__] on two [MetaTask]s (the
    [isinstance] test succeeds). *)
Definition hash (a : t) : Z := py_hash_int (tid a).
Definition eq (a b : t) : bool := tid a =? tid b.
Definition lt (a b : t) : bool := tid a <? tid b.
Definition le (a b : t) : bool := tid a <=? tid b.

Definition set_scheduled (v : Z) (a : t) : t :=
  {| tid := tid a; rank := rank a; processor := processor a;
     ast := ast a; aft := aft a; scheduled := v |}.

End MetaTask.

Module DiGraph.

(** The part of [networkx.DiGraph] that [meta.py] uses.  A graph keeps its
    nodes in a dictionary, so they are found through [__hash__] and
    [__eq__] and iterated in insertion order; an edge is the pair of the
    [tid]s of its ends. *)
Record t : Type := mk {
  node_list : list MetaTask.t;
  edge_list : list (Z * Z)
}.

(** [g.nodes()] *)
Definition nodes (g : t) : list MetaTask.t := node_list g.

(** The number of nodes with an edge into [n]. *)
Definition in_degree_of (g : t) (n : MetaTask.t) : Z :=
  Z.of_nat (length (remove_dups
    (filter (fun e => e.2 = MetaTask.tid n) (edge_list g)).*1)).

(** [g.in_degree()] *)
Definition in_degree (g : t) : list (MetaTask.t * Z) :=
  map (fun n => (n, in_degree_of g n)) (node_list g).

(** [g.remove_node(n)] for a node of [g]: the key equal to [n] goes, with
    the edges at it. *)
Definition remove_node (n : MetaTask.t) (g : t) : t :=
  {| node_list := filter (fun m => MetaTask.eq m n = false) (node_list g);
     edge_list := filter (fun e => e.1 ≠ MetaTask.tid n ∧ e.2 ≠ MetaTask.tid n)
                         (edge_list g) |}.

(** [g.add_node(n)] and [g.add_edge(u, v)], from which a loaded graph is
    built: a key that is already present stays. *)
Definition add_node (n : MetaTask.t) (g : t) : t :=
  if bool_decide (MetaTask.tid n ∈ MetaTask.tid <$> node_list g) then g
  else {| node_list := node_list g ++ [n]; edge_list := edge_list g |}.

Definition add_edge (u v : Z) (g : t) : t :=
  let g := add_node (MetaTask.init v) (add_node (MetaTask.init u) g) in
  if bool_decide ((u, v) ∈ edge_list g) then g
  else {| node_list := node_list g; edge_list := edge_list g ++ [(u, v)] |}.

Definition empty : t := {| node_list := []; edge_list := [] |}.

(** The keys of the node dictionary are pairwise different. *)
Definition wf (g : t) : Prop := NoDup (MetaTask.tid <$> node_list g).

End DiGraph.

Module DAG.

(** [class DAG]; [comp] is what [read_matrix] returns, the rows of the
    compute-time file after its header, every cell a [str].
    [completed_peid] is an empty dictionary that is never used. *)
Record t : Type := mk {
  id : Z;
  graph : DiGraph.t;
  comp : list (list string);
  arrival_time : Z;
  resp_time : Z;
  ready_time : Z;
  dag_type : string
}.

(** [DAG(dag_id, graph, comp, atime, dag_type)] *)
Definition init (dag_id : Z) (g : DiGraph.t) (comp : list (list string))
    (atime : Z) (dag_type : string) : t :=
  {| id := dag_id; graph := g; comp := comp; arrival_time := atime;
     resp_time := 0; ready_time := atime; dag_type := dag_type |}.

Definition set_graph (g : DiGraph.t) (d : t) : t :=
  {| id := id d; graph := g; comp := comp d; arrival_time := arrival_time d;
     resp_time := resp_time d; ready_time := ready_time d; dag_type := dag_type d |}.

End DAG.

Module META.

(** A line [arrival_time,dag_id,dag_type] of the arrival trace, after
    [strip], [split] and the two [int] conversions. *)
Record arrival : Type := mk_arrival {
  trace_atime : Z;
  trace_dag_id : Z;
  trace_dag_type : string
}.

(** A task that the simulator has put on [tasks_completed]; the manager
    reads four attributes of it. *)
Record completed : Type := mk_completed {
  dag_id : Z;
  tid : Z;
  arrival_time : Z;
  task_lifetime : Z
}.

(** An element of [temp_task_trace] and of [global_task_trace]: the list
    [[(atime, task, dag_id, tid), stimes]]. *)
Record task_entry : Type := mk_task_entry {
  entry_atime : Z;
  entry_task : string;
  entry_dag_id : Z;
  entry_tid : Z;
  entry_stimes : list (string * string)
}.

(** [self.server_types] *)
Definition server_types : list string := ["cpu_core"; "gpu"; "accel"]%string.

(** The state that [run] owns: two attributes of the [META] object and the
    locals [end_list] and [dags_completed]. *)
Record t : Type := mk {
  dag_dict : gmap Z DAG.t;
  dag_id_list : list Z;
  end_list : list (Z * string * Z);
  dags_completed : Z
}.

(** The attributes of the simulator object that [run] reads and writes
    ([self.stomp....]). *)
Record bridge : Type := mk_bridge {
  tasks_completed : list completed;
  global_task_trace : list task_entry;
  next_cust_arrival_time : etime;
  task_completed_flag : Z;
  E_META_START : Z;
  E_META_DONE : Z;
  Tasks_Generated_by_META : Z
}.

(** *** Reading the input DAGs

    [inputs dag_type] stands for the two files named after [dag_type]:
    the graph that [nx.read_graphml] builds and the matrix that
    [read_matrix] returns.  [scale] is [arrival_time_scale], an integer. *)
Definition read_dag (scale : Z) (inputs : string -> DiGraph.t * list (list string))
    (m : t) (line : arrival) : t :=
  let atime := trace_atime line * scale in
  let dag_id := trace_dag_id line in
  let dag_type := trace_dag_type line in
  let '(graph, comp) := inputs dag_type in
  let the_dag_trace := DAG.init dag_id graph comp atime dag_type in
  {| dag_dict := <[dag_id := the_dag_trace]> (dag_dict m);
     dag_id_list := dag_id_list m ++ [dag_id];
     end_list := end_list m;
     dags_completed := dags_completed m |}.

Definition initial : t :=
  {| dag_dict := ∅; dag_id_list := []; end_list := []; dags_completed := 0 |}.

Definition load (scale : Z) (inputs : string -> DiGraph.t * list (list string))
    (trace : list arrival) : t :=
  foldl (read_dag scale inputs) initial trace.

(** *** Update based on completed tasks *)

(** The [for node in dag_completed.graph.nodes()] loop with its [break]. *)
Definition retire_node (c : completed) (dag : DAG.t) : DAG.t :=
  match list_find (fun node => MetaTask.tid node = tid c) (DiGraph.nodes (DAG.graph dag)) with
  | Some (_, node) =>
      let ready_time := arrival_time c + task_lifetime c in
      {| DAG.id := DAG.id dag;
         DAG.graph := DiGraph.remove_node node (DAG.graph dag);
         DAG.comp := DAG.comp dag;
         DAG.arrival_time := DAG.arrival_time dag;
         DAG.resp_time := ready_time - DAG.arrival_time dag;
         DAG.ready_time := ready_time;
         DAG.dag_type := DAG.dag_type dag |}
  | None => dag
  end.

(** The body of [while (len(completed_list))] for one completed task. *)
Definition task_completed (c : completed) (m : t) : result t :=
  let dag_id_completed := dag_id c in
  match dag_dict m !! dag_id_completed with
  | None => Ok m
  | Some dag_completed =>
      let dag_completed := retire_node c dag_completed in
      if Z.of_nat (length (DiGraph.nodes (DAG.graph dag_completed))) =? 0 then
        let end_entry :=
          (dag_id_completed, DAG.dag_type dag_completed, DAG.resp_time dag_completed) in
        l ← py_remove dag_id_completed (dag_id_list m);
        Ok {| dag_dict := delete dag_id_completed (dag_dict m);
              dag_id_list := l;
              end_list := end_list m ++ [end_entry];
              dags_completed := dags_completed m + 1 |}
      else
        Ok {| dag_dict := <[dag_id_completed := dag_completed]> (dag_dict m);
              dag_id_list := dag_id_list m;
              end_list := end_list m;
              dags_completed := dags_completed m |}
  end.

Fixpoint update_completed (completed_list : list completed) (m : t) : result t :=
  match completed_list with
  | [] => Ok m
  | c :: rest => m' ← task_completed c m; update_completed rest m'
  end.

(** *** Ready task submission *)

(** The loop of [process_comp_time] over a row, [count] being its counter. *)
Fixpoint comp_times (row : list string) (count : Z) : result (list (string * string)) :=
  match row with
  | [] => Ok []
  | comp_time :: row' =>
      if count <=? 1 then comp_times row' (count + 1)
      else
        server_type ← of_option IndexError (py_index server_types (count - 2));
        stimes ← comp_times row' (count + 1);
        Ok ((server_type, comp_time) :: stimes)
  end.

Definition process_comp_time (dag : DAG.t) (tid : Z) : result (list (string * string)) :=
  row ← of_option IndexError (py_index (DAG.comp dag) tid);
  comp_times row 0.

(** The test [deg == 0 and node.scheduled == 0]. *)
Definition is_ready (g : DiGraph.t) (node : MetaTask.t) : bool :=
  (DiGraph.in_degree_of g node =? 0) && (MetaTask.scheduled node =? 0).

(** The entry built for a ready node. *)
Definition ready_entry (dag_id : Z) (the_dag_sched : DAG.t) (node : MetaTask.t)
  : result task_entry :=
  let atime := if MetaTask.tid node =? 0 then DAG.arrival_time the_dag_sched
               else DAG.ready_time the_dag_sched in
  row ← of_option IndexError (py_index (DAG.comp the_dag_sched) (MetaTask.tid node));
  task ← of_option IndexError (py_index row 0);
  stimes ← process_comp_time the_dag_sched (MetaTask.tid node);
  Ok {| entry_atime := atime; entry_task := task; entry_dag_id := dag_id;
        entry_tid := MetaTask.tid node; entry_stimes := stimes |}.

(** [for node, deg in the_dag_sched.graph.in_degree()]: returns the
    entries appended to [temp_task_trace] and the nodes as the loop leaves
    them ([node.scheduled = 1] writes to the node object in the graph). *)
Fixpoint push_ready_nodes (dag_id : Z) (the_dag_sched : DAG.t) (l : list MetaTask.t)
  : result (list task_entry * list MetaTask.t) :=
  match l with
  | [] => Ok ([], [])
  | node :: l' =>
      if is_ready (DAG.graph the_dag_sched) node then
        task_entry ← ready_entry dag_id the_dag_sched node;
        '(entries, l'') ← push_ready_nodes dag_id the_dag_sched l';
        Ok (task_entry :: entries, MetaTask.set_scheduled 1 node :: l'')
      else
        '(entries, l'') ← push_ready_nodes dag_id the_dag_sched l';
        Ok (entries, node :: l'')
  end.

Definition push_ready_dag (dag_id : Z) (the_dag_sched : DAG.t)
  : result (list task_entry * DAG.t) :=
  let g := DAG.graph the_dag_sched in
  '(entries, l) ← push_ready_nodes dag_id the_dag_sched (DiGraph.nodes g);
  Ok (entries,
      DAG.set_graph {| DiGraph.node_list := l; DiGraph.edge_list := DiGraph.edge_list g |}
                    the_dag_sched).

(** [for dag_id in self.dag_id_list]: [ids] is the part of the list still
    to visit, [d] the dictionary, whose DAGs the loop marks. *)
Fixpoint push_ready (ids : list Z) (d : gmap Z DAG.t)
  : result (list task_entry * gmap Z DAG.t) :=
  match ids with
  | [] => Ok ([], d)
  | dag_id :: ids' =>
      the_dag_sched ← of_option KeyError (d !! dag_id);
      '(entries, dag) ← push_ready_dag dag_id the_dag_sched;
      '(entries', d') ← push_ready ids' (<[dag_id := dag]> d);
      Ok (entries ++ entries', d')
  end.

(** One pass of [while(self.dag_id_list)] on the state the manager owns:
    [completed_list] is what was drained from [tasks_completed], the
    result carries [temp_task_trace]. *)
Definition iteration (completed_list : list completed) (m : t)
  : result (t * list task_entry) :=
  m ← update_completed completed_list m;
  '(temp_task_trace, d) ← push_ready (dag_id_list m) (dag_dict m);
  Ok ({| dag_dict := d; dag_id_list := dag_id_list m;
         end_list := end_list m; dags_completed := dags_completed m |},
      temp_task_trace).

(** *** The manager's side of the shared queues *)

(** The first critical section: [tasks_completed] is emptied into
    [completed_list]. *)
Definition drain (b : bridge) : list completed * bridge :=
  (tasks_completed b,
   {| tasks_completed := [];
      global_task_trace := global_task_trace b;
      next_cust_arrival_time := next_cust_arrival_time b;
      task_completed_flag := task_completed_flag b;
      E_META_START := E_META_START b;
      E_META_DONE := E_META_DONE b;
      Tasks_Generated_by_META := Tasks_Generated_by_META b |}).

(** [while (len(temp_task_trace))]: append one entry, sort the queue. *)
Fixpoint append_and_sort (temp_task_trace : list task_entry) (queue : list task_entry)
  : list task_entry :=
  match temp_task_trace with
  | [] => queue
  | e :: rest => append_and_sort rest (py_sort entry_atime (queue ++ [e]))
  end.

(** The second critical section, from [lock.acquire()] to the two
    assignments after [lock.release()]. *)
Definition submit (temp_task_trace : list task_entry) (b : bridge) : bridge :=
  let queue := append_and_sort temp_task_trace (global_task_trace b) in
  let next :=
    match queue with
    | e :: _ =>
        if bool_decide (next_cust_arrival_time b ≠ Fin (entry_atime e))
        then Fin (entry_atime e) else next_cust_arrival_time b
    | [] => next_cust_arrival_time b
    end in
  let flag :=
    if (task_completed_flag b =? 1) && (Z.of_nat (length (tasks_completed b)) =? 0)
    then 0 else task_completed_flag b in
  {| tasks_completed := tasks_completed b;
     global_task_trace := queue;
     next_cust_arrival_time := next;
     task_completed_flag := flag;
     E_META_START := 1;
     E_META_DONE := E_META_DONE b;
     Tasks_Generated_by_META := 1 |}.

(** *** The manager loop and [out.csv]

    The manager runs next to the simulator; what it owns evolves by
    [iteration] alone, so a run is determined by the batches of completed
    tasks that its successive drains find ([batches], empty batches
    included).  [emitted] collects the [temp_task_trace] of every pass. *)
Inductive outcome : Type :=
| Finished (m : t) (emitted : list (list task_entry))
| Raised (e : exn)
| Unfinished (m : t) (emitted : list (list task_entry)).

Fixpoint manager_loop (batches : list (list completed)) (m : t)
    (emitted : list (list task_entry)) : outcome :=
  match dag_id_list m with
  | [] => Finished m emitted
  | _ :: _ =>
      match batches with
      | [] => Unfinished m emitted
      | completed_list :: batches' =>
          match iteration completed_list m with
          | Ok (m', temp_task_trace) =>
              manager_loop batches' m' (emitted ++ [temp_task_trace])
          | Raise e => Raised e
          end
      end
  end.

Definition header : string := "DAG ID,DAG Type,Response Time".

(** A line of [out.csv], without its newline. *)
Definition row (end_entry : Z * string * Z) : string :=
  pretty end_entry.1.1 +:+ "," +:+ end_entry.1.2 +:+ "," +:+ pretty end_entry.2.

(** The lines written to [out.csv]. *)
Definition out_csv (m : t) : list string :=
  header :: (row <$> py_sort (fun end_entry => end_entry.1.1) (end_list m)).

(** [META.run]: the lines of [out.csv] when the loop ends. *)
Definition run (scale : Z) (inputs : string -> DiGraph.t * list (list string))
    (trace : list arrival) (batches : list (list completed)) : result (option (list string)) :=
  match manager_loop batches (load scale inputs trace) [] with
  | Finished m _ => Ok (Some (out_csv m))
  | Raised e => Raise e
  | Unfinished _ _ => Ok None
  end.

(** *** Predicates on the manager's state

    They are used to state what the passes preserve. *)

(** The identifiers still active and the identifiers retired are together
    those of the trace. *)
Definition accounts_for (ids : list Z) (m : t) : Prop :=
  Permutation (dag_id_list m ++ (end_list m).*1.*1) ids.

(** What the ready pass does to a node. *)
Definition mark (g : DiGraph.t) (node : MetaTask.t) : MetaTask.t :=
  if is_ready g node then MetaTask.set_scheduled 1 node else node.

(** The entry of a ready node, field by field. *)
Definition describes (dag_id : Z) (dag : DAG.t) (node : MetaTask.t) (e : task_entry) : Prop :=
  entry_atime e = (if MetaTask.tid node =? 0 then DAG.arrival_time dag
                   else DAG.ready_time dag) /\
  entry_dag_id e = dag_id /\
  entry_tid e = MetaTask.tid node /\
  exists row,
    py_index (DAG.comp dag) (MetaTask.tid node) = Some row /\
    py_index row 0 = Some (entry_task e) /\
    entry_stimes e = zip server_types (drop 2 row).

(** The node that an entry stands for. *)
Definition entry_key (e : task_entry) : Z * Z := (entry_dag_id e, entry_tid e).

(** [keys] are the nodes emitted so far: no node twice, and the ones still
    in a graph of the dictionary carry the flag; the graphs stay
    dictionaries of nodes. *)
Definition emitted_inv (d : gmap Z DAG.t) (keys : list (Z * Z)) : Prop :=
  NoDup keys /\
  (forall id dag, d !! id = Some dag -> DiGraph.wf (DAG.graph dag)) /\
  (forall id dag node,
     d !! id = Some dag -> node ∈ DiGraph.nodes (DAG.graph dag) ->
     (id, MetaTask.tid node) ∈ keys -> MetaTask.scheduled node ≠ 0).

(** What a run has emitted when it stops, or so far. *)
Definition emitted_by (o : outcome) : list task_entry :=
  match o with
  | Finished _ emitted | Unfinished _ emitted => concat emitted
  | Raised _ => []
  end.

End META.

(** ** Instances on which runs are evaluated *)

Module Scripted.

(** A generator that replays recorded draws: the service times, the gaps
    between arrivals and the task types, in the order in which the run asks
    for them.  Once a recording is used up, a draw is its mean (or the
    first element of the list). *)
Record script : Type := mk {
  service_times : list Z;
  arrival_gaps : list Z;
  task_types : list string
}.

Definition next_service_time (g : script) (loc scale : Z) : Z * script :=
  match service_times g with
  | [] => (loc, g)
  | x :: l => (x, {| service_times := l; arrival_gaps := arrival_gaps g;
                     task_types := task_types g |})
  end.

Definition next_arrival (g : script) (now scale : Z) : Z * script :=
  match arrival_gaps g with
  | [] => (now + scale, g)
  | x :: l => (now + x, {| service_times := service_times g; arrival_gaps := l;
                           task_types := task_types g |})
  end.

Definition next_choice (g : script) (names : list string) : string * script :=
  match task_types g with
  | [] => (default ""%string (head names), g)
  | x :: l => (x, {| service_times := service_times g; arrival_gaps := arrival_gaps g;
                     task_types := l |})
  end.

#[global] Instance random_source : RandomSource :=
  {| rng := script;
     normal_service_time := next_service_time;
     exponential_arrival := next_arrival;
     choice := next_choice |}.

End Scripted.

Module FirstFit.

(** Modelled from the spec: the scheduling policy modules are not under
    src/; this is the deterministic policy of the spec's end-to-end
    scenarios, "bind to first idle server of first listed type that can run
    the task": the task at the head of the queue goes to the first server of
    the pool that is idle and whose type the task has a service time for;
    without such a server nothing is assigned. *)
Definition can_run (task : Task.t) (server : Server.t) : Prop :=
  Server.busy server = false ∧
  is_Some (Task.mean_service_time_dict task !! Server.type server).

#[global] Instance can_run_dec task server : Decision (can_run task server).
Proof. unfold can_run. apply _. Defined.

Definition assign `{RandomSource} (pol : unit) (sim_time : Z) (tasks : list Task.t)
    (servers : list Server.t) (g : rng)
  : result (option nat * unit * list Task.t * list Server.t * rng) :=
  match tasks with
  | [] => Ok (None, pol, tasks, servers, g)
  | task :: rest =>
      match list_find (can_run task) servers with
      | None => Ok (None, pol, tasks, servers, g)
      | Some (i, server) =>
          '(server', g') ← Server.assign_task server sim_time task g;
          Ok (Some i, pol, rest, <[i := server']> servers, g')
      end
  end.

#[global] Instance scheduling_policy `{RandomSource} : SchedulingPolicy :=
  {| policy := unit;
     policy_init := fun pol _ _ _ => pol;
     assign_task_to_server := assign;
     remove_task_from_server := fun pol _ _ => pol |}.

End FirstFit.

Module Scenario.
Import Scripted FirstFit.
Local Open Scope string_scope.

Definition runs_on (l : list (string * Z)) : Task.params :=
  {| Task.mean_service_time := list_to_map l;
     Task.stdev_service_time := list_to_map ((fun p => (p.1, 0)) <$> l) |}.

(** Three CPU cores, one task type, three tasks. *)
Definition three_cores : Params :=
  {| power_mgmt_enabled := false;
     max_tasks_simulated := 3;
     max_queue_size := 10;
     mean_arrival_time := 1;
     servers_count := [("cpu_core", 3)];
     tasks_params := [("fft", runs_on [("cpu_core", 8)])] |}.

Definition three_cores_script : script :=
  {| service_times := [5; 9; 8]; arrival_gaps := [1; 1; 1]; task_types := [] |}.

Definition three_cores_init : STOMP.t :=
  STOMP.init three_cores tt three_cores_script.

Definition three_cores_start : STOMP.t := STOMP.run_setup three_cores_init.

(** One CPU core and one GPU; [cnn] tasks run on the GPU only, [fft] tasks
    on the CPU only; two [cnn] tasks arrive before one [fft] task. *)
Definition two_types : Params :=
  {| power_mgmt_enabled := false;
     max_tasks_simulated := 3;
     max_queue_size := 10;
     mean_arrival_time := 1;
     servers_count := [("cpu_core", 1); ("gpu", 1)];
     tasks_params := [("fft", runs_on [("cpu_core", 8)]);
                      ("cnn", runs_on [("gpu", 10)])] |}.

Definition two_types_script : script :=
  {| service_times := [10; 10; 8]; arrival_gaps := [1; 1; 1];
     task_types := ["cnn"; "cnn"; "fft"] |}.

Definition two_types_start : STOMP.t :=
  STOMP.run_setup (STOMP.init two_types tt two_types_script).

(** One CPU core and a queue of one slot. *)
Definition one_slot : Params :=
  {| power_mgmt_enabled := false;
     max_tasks_simulated := 3;
     max_queue_size := 1;
     mean_arrival_time := 1;
     servers_count := [("cpu_core", 1)];
     tasks_params := [("fft", runs_on [("cpu_core", 8)])] |}.

Definition one_slot_script : script :=
  {| service_times := [10; 10; 10]; arrival_gaps := [1; 1; 1]; task_types := [] |}.

Definition one_slot_start : STOMP.t :=
  STOMP.run_setup (STOMP.init one_slot tt one_slot_script).

(** The state a run is in after [n] iterations of the main loop. *)
Definition after (n : nat) (s : STOMP.t) : option STOMP.t :=
  match STOMP.main_loop n s with
  | STOMP.Unfinished s' => Some s'
  | _ => None
  end.

(** The server, if any, that the policy would bind in state [s]. *)
Definition would_pick (s : STOMP.t) : result (option nat) :=
  '(r, _, _, _, _) ← assign_task_to_server (STOMP.sched_policy s) (STOMP.sim_time s)
                        (STOMP.tasks s) (STOMP.servers s) (STOMP.random s);
  Ok r.

End Scenario.

Module MetaScenario.
Import META.
Local Open Scope string_scope.

(** A DAG of one task and a chain of two tasks. *)
Definition single : DiGraph.t := DiGraph.add_node (MetaTask.init 0) DiGraph.empty.
Definition chain : DiGraph.t := DiGraph.add_edge 0 1 DiGraph.empty.

Definition inputs (dag_type : string) : DiGraph.t * list (list string) :=
  if decide (dag_type = "a")
  then (single, [["fft"; "0"; "10"; "4"; "2"]])
  else (chain, [["fft"; "0"; "5"; "3"; "1"]; ["decoder"; "0"; "5"; "2"; "1"]]).

(** Two DAGs with different identifiers, and the completions of their
    three tasks. *)
Definition two_dags : list arrival :=
  [mk_arrival 0 7 "a"; mk_arrival 2 3 "b"].

Definition two_dags_batches : list (list completed) :=
  [[]; [mk_completed 7 0 0 10]; [mk_completed 3 0 2 5]; [mk_completed 3 1 7 5]].

(** Two lines of the trace with the same identifier. *)
Definition same_id : list arrival :=
  [mk_arrival 0 5 "a"; mk_arrival 1 5 "a"].

End MetaScenario.

(** ** Runs and what they keep *)

Module StompRun.
Import STOMP.

Section Simulator.
Context `{SchedulingPolicy}.

(** *** The states of a run

    [reaches s s'] holds when the main loop, entered in state [s], is at
    the top of the [while] in state [s'] some iterations later. *)
Inductive reaches : t -> t -> Prop :=
| reaches_here (s : t) : reaches s s
| reaches_next (s s1 s2 : t) :
    keep_running s = true -> iteration s = Ok s1 -> reaches s1 s2 -> reaches s s2.

(** The two attributes of the cached earliest-ending server agree: both
    unset, or an end time with its server. *)
Definition cache_inv (s : t) : Prop :=
  (next_serv_end_time s = Inf /\ next_serv_end s = None) \/
  (exists e i, next_serv_end_time s = Fin e /\ next_serv_end s = Some i).

(** What the counters of [self.stats] and the trace files keep in a run. *)
Definition stats_inv (s : t) : Prop :=
  Running_Tasks (stats s) = Busy_Servers (stats s) /\
  0 <= Tasks_Generated (stats s) <= Z.max 0 (max_tasks_simulated (params s)) /\
  Tasks_Serviced (stats s) = Z.of_nat (length (task_trace_file s)) /\
  dom (Tasks_Serviced_per_Type (stats s)) = dom (Avg_Resp_Time_per_Type (stats s)) /\
  dom (task_trace_files s) = dom (Avg_Resp_Time_per_Type (stats s)).

End Simulator.

End StompRun.

Module MetaRun.
Import META.

(** The DAG that the loader builds from a line of the trace. *)
Definition dag_of_line (scale : Z) (inputs : string -> DiGraph.t * list (list string))
    (line : arrival) : DAG.t :=
  DAG.init (trace_dag_id line) (inputs (trace_dag_type line)).1
           (inputs (trace_dag_type line)).2 (trace_atime line * scale)
           (trace_dag_type line).

(** The [tid]s of the nodes of a graph. *)
Definition tids (g : DiGraph.t) : list Z := MetaTask.tid <$> DiGraph.nodes g.

(** Every edge of a graph joins two of its nodes. *)
Definition closed (g : DiGraph.t) : Prop :=
  Forall (fun e => e.1 ∈ tids g /\ e.2 ∈ tids g) (DiGraph.edge_list g).

(** The active list names a [dag_id] that can no longer be retired: it is
    there twice, or it is there without a DAG in the dictionary. *)
Definition stuck (m : t) : Prop :=
  ~ NoDup (dag_id_list m) \/ exists d, d ∈ dag_id_list m /\ dag_dict m !! d = None.

(** What a DAG under key [d] keeps of the line of the trace it was loaded
    from: its attributes, and of the loaded graph the nodes not yet retired
    with the edges between them. *)
Definition dag_inv (scale : Z) (inputs : string -> DiGraph.t * list (list string))
    (trace : list arrival) (d : Z) (dag : DAG.t) : Prop :=
  exists line,
    line ∈ trace /\ trace_dag_id line = d /\
    DAG.id dag = d /\
    DAG.dag_type dag = trace_dag_type line /\
    DAG.comp dag = (inputs (trace_dag_type line)).2 /\
    DAG.arrival_time dag = trace_atime line * scale /\
    DAG.resp_time dag = DAG.ready_time dag - DAG.arrival_time dag /\
    tids (DAG.graph dag) `sublist_of` tids (inputs (trace_dag_type line)).1 /\
    (closed (inputs (trace_dag_type line)).1 ->
     DiGraph.edge_list (DAG.graph dag)
     = filter (fun e => e.1 ∈ tids (DAG.graph dag) /\ e.2 ∈ tids (DAG.graph dag))
              (DiGraph.edge_list (inputs (trace_dag_type line)).1)).

(** The invariant of the manager's state for a trace. *)
Definition registry_inv (scale : Z) (inputs : string -> DiGraph.t * list (list string))
    (trace : list arrival) (m : t) : Prop :=
  (forall d dag, dag_dict m !! d = Some dag -> dag_inv scale inputs trace d dag) /\
  (forall entry, entry ∈ end_list m ->
     exists line, line ∈ trace /\ trace_dag_id line = entry.1.1 /\
                  trace_dag_type line = entry.1.2) /\
  dags_completed m = Z.of_nat (length (end_list m)).

(** Every node that has left the graph of the DAG under key [d] was named
    by one of the completed tasks [done]. *)
Definition retired_by (inputs : string -> DiGraph.t * list (list string))
    (done : list completed) (d : Z) (dag : DAG.t) : Prop :=
  forall u, u ∈ tids (inputs (DAG.dag_type dag)).1 -> u ∉ tids (DAG.graph dag) ->
    exists c, c ∈ done /\ dag_id c = d /\ tid c = u.

(** The entry [e] stands for a node of a DAG of the trace, and every
    predecessor of this node in the loaded graph was named by one of the
    completed tasks [done]. *)
Definition after_predecessors (inputs : string -> DiGraph.t * list (list string))
    (trace : list arrival) (done : list completed) (e : task_entry) : Prop :=
  exists line,
    line ∈ trace /\ trace_dag_id line = entry_dag_id e /\
    forall u, (u, entry_tid e) ∈ DiGraph.edge_list (inputs (trace_dag_type line)).1 ->
      exists c, c ∈ done /\ dag_id c = entry_dag_id e /\ tid c = u.

End MetaRun.

Module EdgeScenario.
Import Scripted FirstFit Scenario.
Local Open Scope string_scope.

(** A pool without servers: one task arrives and can never be bound. *)
Definition no_server : Params :=
  {| power_mgmt_enabled := false;
     max_tasks_simulated := 1;
     max_queue_size := 10;
     mean_arrival_time := 1;
     servers_count := [("cpu_core", 0)];
     tasks_params := [("fft", runs_on [("cpu_core", 8)])] |}.

Definition no_server_script : script :=
  {| service_times := []; arrival_gaps := [1]; task_types := [] |}.

Definition no_server_start : STOMP.t :=
  STOMP.run_setup (STOMP.init no_server tt no_server_script).

(** A simulation of no task. *)
Definition no_task : Params :=
  {| power_mgmt_enabled := false;
     max_tasks_simulated := 0;
     max_queue_size := 10;
     mean_arrival_time := 1;
     servers_count := [("cpu_core", 1)];
     tasks_params := [("fft", runs_on [("cpu_core", 8)])] |}.

End EdgeScenario.

(** * Properties *)

(** ** Generic facts *)

Lemma rbind_Ok {A B : Type} (r : result A) (k : A -> result B) (b : B) :
  r ≫= k = Ok b -> exists a, r = Ok a /\ k a = Ok b.
Proof. destruct r as [a|e]; simpl; [eauto | discriminate]. Qed.

Lemma of_option_Ok {A : Type} (e : exn) (o : option A) (a : A) :
  of_option e o = Ok a -> o = Some a.
Proof. destruct o; simpl; congruence. Qed.

Lemma to_option_Some {A : Type} (r : result A) (a : A) :
  to_option r = Some a -> r = Ok a.
Proof. destruct r; simpl; congruence. Qed.

(** Splits a hypothesis [x ← r; k = Ok b] into its two halves. *)
Ltac bind_inv H :=
  let a := fresh "a" in
  let Ha := fresh "Ha" in
  apply rbind_Ok in H; destruct H as (a & Ha & H);
  try (apply of_option_Ok in Ha).

(** Takes a hypothesis [H : body = Ok x] of a monadic definition apart,
    branch by branch, leaving the equation of the last [Ok]. *)
Ltac unravel H :=
  repeat match type of H with
    | (_ ≫= _) = Ok _ => bind_inv H
    | Raise _ = Ok _ => discriminate H
    | (if ?c then _ else _) = Ok _ => destruct c eqn:?
    | (let '(_, _) := ?x in _) = Ok _ => destruct x eqn:?
    | match ?x with _ => _ end = Ok _ => destruct x eqn:?
    end.

Lemma etime_ltb_leb (a b : etime) : etime_ltb a b = negb (etime_leb b a).
Proof. destruct a, b; simpl; try reflexivity. apply Z.ltb_antisym. Qed.

Lemma sum_list_Z_insert (l : list Z) (p : nat) (old v : Z) :
  l !! p = Some old -> sum_list_Z (<[p := v]> l) = sum_list_Z l - old + v.
Proof.
  revert p; induction l as [|x l IH]; intros [|p] Hp; simpl in *; try discriminate.
  - injection Hp as ->. lia.
  - rewrite (IH p Hp). lia.
Qed.

Lemma py_pos_min (n : nat) (q : Z) (p : nat) :
  0 <= q ->
  py_pos n (if Z.of_nat n <=? q then Z.of_nat n - 1 else q) = Some p ->
  p = Z.to_nat (Z.min q (Z.of_nat n - 1)) /\ (p < n)%nat.
Proof.
  intros Hq. unfold py_pos.
  destruct (Z.leb_spec (Z.of_nat n) q) as [Hle|Hgt].
  - destruct (Z.leb_spec 0 (Z.of_nat n - 1)), (Z.ltb_spec (Z.of_nat n - 1) (Z.of_nat n));
      simpl; try lia.
    + intros [= <-]. rewrite Z.min_r by lia. lia.
    + destruct (Z.ltb_spec (Z.of_nat n - 1) 0); simpl; [|discriminate].
      destruct (Z.leb_spec 0 (Z.of_nat n + (Z.of_nat n - 1))); [lia | discriminate].
  - destruct (Z.leb_spec 0 q), (Z.ltb_spec q (Z.of_nat n)); simpl; try lia.
    intros [= <-]. rewrite Z.min_l by lia. lia.
Qed.

(** ** The model of Python's sort is a stable sort *)

Section PySortFacts.
Context {A : Type} (key : A -> Z).

Lemma py_insert_Permutation (x : A) (l : list A) :
  Permutation (py_insert key x l) (x :: l).
Proof.
  induction l as [|y l IH]; simpl; [reflexivity|].
  destruct (key x <=? key y); [reflexivity|].
  rewrite IH. apply perm_swap.
Qed.

Lemma py_sort_Permutation (l : list A) : Permutation (py_sort key l) l.
Proof.
  induction l as [|x l IH]; simpl; [reflexivity|].
  rewrite py_insert_Permutation, IH. reflexivity.
Qed.

Lemma py_insert_sorted (x : A) (l : list A) :
  StronglySorted (key_le key) l -> StronglySorted (key_le key) (py_insert key x l).
Proof.
  induction 1 as [|y l Hl IH Hy]; simpl; [repeat constructor|].
  destruct (Z.leb_spec (key x) (key y)) as [Hle|Hgt].
  - constructor; [constructor; assumption|].
    constructor; [exact Hle|].
    eapply Forall_impl; [exact Hy|]. intros z Hz. unfold key_le in *. lia.
  - constructor; [exact IH|].
    rewrite py_insert_Permutation. constructor; [unfold key_le; lia | exact Hy].
Qed.

Lemma py_sort_sorted (l : list A) : StronglySorted (key_le key) (py_sort key l).
Proof.
  induction l as [|x l IH]; simpl; [constructor | apply py_insert_sorted, IH].
Qed.

Lemma py_insert_stable (t : Z) (x : A) (l : list A) :
  filter (fun y => key y = t) (py_insert key x l) = filter (fun y => key y = t) (x :: l).
Proof.
  induction l as [|y l IH]; simpl; [reflexivity|].
  destruct (Z.leb_spec (key x) (key y)) as [Hle|Hgt]; [reflexivity|].
  rewrite filter_cons, IH, !filter_cons.
  destruct (decide (key y = t)), (decide (key x = t)); try reflexivity. lia.
Qed.

Lemma py_sort_stable (t : Z) (l : list A) :
  filter (fun y => key y = t) (py_sort key l) = filter (fun y => key y = t) l.
Proof.
  induction l as [|x l IH]; simpl; [reflexivity|].
  rewrite py_insert_stable, !filter_cons, IH. reflexivity.
Qed.

End PySortFacts.

Module StompSpec.
Import STOMP.

(** C3. Event selection: an event is always selected, it is one whose
    instant is enabled and no later than the other enabled instants, and
    equal instants go to PWR_MGMT before ARRIVAL before SERVER_FINISH:
    PWR_MGMT exactly when power management is on and its instant is at most
    the arrival instant (while tasks are still generated) and at most the
    server-end instant; ARRIVAL exactly when tasks are still generated and
    its instant is strictly before the power instant (when on) and at most
    the server-end instant; SERVER_FINISH exactly when its instant is
    strictly before the other enabled instants, so both asserts hold. *)
Theorem select_event_priority (pm_enabled : bool) (generated max_simulated : Z)
    (pm arrival serv_end : etime) :
  exists ev,
    select_event pm_enabled generated max_simulated pm arrival serv_end = Ok ev /\
    (ev = E_PWR_MGMT <->
       pm_enabled = true /\
       (generated < max_simulated -> etime_le pm arrival) /\
       etime_le pm serv_end) /\
    (ev = E_TASK_ARRIVAL <->
       generated < max_simulated /\
       (pm_enabled = true -> etime_lt arrival pm) /\
       etime_le arrival serv_end) /\
    (ev = E_SERVER_FINISHES <->
       (pm_enabled = true -> etime_lt serv_end pm) /\
       (generated < max_simulated -> etime_lt serv_end arrival)).
Proof.
  unfold select_event, etime_le, etime_lt.
  rewrite !etime_ltb_leb.
  destruct (Z.ltb_spec generated max_simulated) as [Hlt|Hge];
    [ rewrite (proj2 (Z.leb_gt max_simulated generated)) by lia
    | rewrite (proj2 (Z.leb_le max_simulated generated)) by lia ];
    destruct pm_enabled;
    destruct (etime_leb pm arrival) eqn:E1;
    destruct (etime_leb arrival pm) eqn:E2;
    destruct (etime_leb pm serv_end) eqn:E3;
    destruct (etime_leb serv_end pm) eqn:E4;
    destruct (etime_leb arrival serv_end) eqn:E5;
    destruct (etime_leb serv_end arrival) eqn:E6;
    simpl;
    try (eexists; split; [reflexivity|];
         repeat split; intros; try discriminate; try lia;
         intuition (try discriminate; try lia); fail);
    exfalso;
    destruct pm, arrival, serv_end; simpl in *; try discriminate; lia.
Qed.

Section WithPolicy.
Context `{SchedulingPolicy}.

(** *** The histogram update *)

Lemma update_histogram_Ok (queue_size : Z) (s s' : t) :
  0 <= queue_size ->
  update_histogram queue_size s = Ok s' ->
  let hist := Queue_Size_Histogram (stats s) in
  let p := Z.to_nat (Z.min (queue_size ÷ bin_size) (Z.of_nat (length hist) - 1)) in
  exists old,
    hist !! p = Some old /\
    s' = set_last_size_change_time (sim_time s)
           (set_stats (set_Queue_Size_Histogram
                         (<[p := old + (sim_time s - last_size_change_time s)]> hist)
                         (stats s)) s).
Proof.
  intros Hq Hs. unfold update_histogram in Hs.
  unravel Hs. injection Hs as <-.
  unfold bin_size in *. rewrite Z.quot_1_r in *.
  apply py_pos_min in Ha as [-> _]; [|exact Hq].
  eexists; split; [eassumption | reflexivity].
Qed.

Lemma update_histogram_inv (queue_size : Z) (s s' : t) :
  0 <= queue_size ->
  update_histogram queue_size s = Ok s' ->
  histogram_inv s ->
  histogram_inv s' /\ last_size_change_time s' = sim_time s /\ sim_time s' = sim_time s.
Proof.
  intros Hq Hs [Hlen Hsum].
  destruct (update_histogram_Ok _ _ _ Hq Hs) as (old & Hold & ->); simpl.
  unfold histogram_inv; simpl.
  rewrite length_insert, (sum_list_Z_insert _ _ _ _ Hold). repeat split; [assumption | lia].
Qed.

Lemma update_histogram_total (queue_size : Z) (s : t) :
  0 <= queue_size ->
  length (Queue_Size_Histogram (stats s)) = 10%nat ->
  exists s', update_histogram queue_size s = Ok s'.
Proof.
  intros Hq Hlen. unfold update_histogram. rewrite Hlen.
  unfold bin_size; rewrite Z.quot_1_r.
  set (bin := if Z.of_nat 10 <=? queue_size then Z.of_nat 10 - 1 else queue_size).
  assert (Hbin : 0 <= bin < 10) by (subst bin; destruct (Z.leb_spec (Z.of_nat 10) queue_size); lia).
  unfold py_pos.
  destruct (Z.leb_spec 0 bin), (Z.ltb_spec bin (Z.of_nat 10)); try lia; simpl.
  destruct (lookup_lt_is_Some_2 (Queue_Size_Histogram (stats s)) (Z.to_nat bin)) as [old Hold];
    [lia|].
  rewrite Hold; simpl. eauto.
Qed.

Lemma generate_n_enqueue_new_task_inv (s s' : t) (enqueued : bool) :
  generate_n_enqueue_new_task s = Ok (enqueued, s') ->
  histogram_inv s -> histogram_inv s' /\ sim_time s' = sim_time s.
Proof.
  intros Hs Hinv. unfold generate_n_enqueue_new_task in Hs.
  unravel Hs; injection Hs as <- <-;
    try (apply update_histogram_inv in Ha as (Ha & _ & Htime); [|lia|exact Hinv]);
    (split; [exact Ha || exact Hinv | simpl; congruence]).
Qed.

Lemma release_server_effects (i : nat) (s s' : t) :
  release_server i s = Ok s' ->
  Queue_Size_Histogram (stats s') = Queue_Size_Histogram (stats s) /\
  last_size_change_time s' = last_size_change_time s /\
  sim_time s' = sim_time s /\ tasks s' = tasks s /\
  scan_servers (servers s') 0 Inf None = Ok (next_serv_end_time s', next_serv_end s') /\
  exists server,
    servers s !! i = Some server /\
    servers s' = <[i := Server.set_last_stopped_at (sim_time s) (Server.reset server)]>
                   (servers s).
Proof.
  intros Hs. unfold release_server in Hs.
  unravel Hs. injection Hs as <-. simpl in *.
  repeat split; try reflexivity; try assumption.
  eexists; split; [eassumption | reflexivity].
Qed.

Lemma release_server_frame (i : nat) (s s' : t) :
  release_server i s = Ok s' ->
  Queue_Size_Histogram (stats s') = Queue_Size_Histogram (stats s) /\
  last_size_change_time s' = last_size_change_time s /\
  sim_time s' = sim_time s /\ tasks s' = tasks s.
Proof.
  intros Hs. apply release_server_effects in Hs as (? & ? & ? & ? & _). auto.
Qed.

Lemma handle_event_inv (ev : event) (s s' : t) :
  handle_event ev s = Ok s' -> histogram_inv s -> histogram_inv s'.
Proof.
  intros Hs Hinv. destruct ev; simpl in Hs.
  - unravel Hs. injection Hs as <-. exact Hinv.
  - unravel Hs; injection Hs as <-;
      apply generate_n_enqueue_new_task_inv in Ha as [Ha _]; (exact Ha || exact Hinv).
  - unravel Hs. injection Hs as <-.
    apply release_server_frame in Ha as (Hh & Hl & _).
    destruct Hinv as [Hlen Hsum]. unfold histogram_inv; simpl.
    rewrite Hh, Hl. auto.
  - injection Hs as <-. exact Hinv.
Qed.

Lemma make_scheduling_decisions_inv (s s' : t) :
  make_scheduling_decisions s = Ok s' -> histogram_inv s -> histogram_inv s'.
Proof.
  intros Hs Hinv. unfold make_scheduling_decisions in Hs.
  unravel Hs; try (injection Hs as <-; exact Hinv);
    (apply update_histogram_inv in Hs as [Hs _]; [exact Hs | lia |]).
  destruct (etime_ltb _ _); exact Hinv.
Qed.

Lemma iteration_inv (s s' : t) :
  iteration s = Ok s' -> histogram_inv s -> histogram_inv s'.
Proof.
  intros Hs Hinv. unfold iteration in Hs. unravel Hs.
  eapply make_scheduling_decisions_inv; [eassumption|].
  eapply handle_event_inv; eassumption.
Qed.

Lemma main_loop_inv (fuel : nat) (s s' : t) :
  main_loop fuel s = Finished s' -> histogram_inv s -> histogram_inv s'.
Proof.
  revert s; induction fuel as [|fuel IH]; intros s; simpl.
  - destruct (keep_running s); [discriminate|]. intros [= <-]. auto.
  - destruct (keep_running s); [|intros [= <-]; auto].
    destruct (iteration s) as [s1|e] eqn:Hit; [|discriminate].
    intros Hloop Hinv. eapply IH; [eassumption|]. eapply iteration_inv; eassumption.
Qed.

Lemma init_inv (p : Params) (pol : policy) (g : rng) : histogram_inv (init p pol g).
Proof.
  unfold init. destruct (init_servers (servers_count p) 0 ∅ []) as [avail srv].
  split; reflexivity.
Qed.

Lemma run_inv (fuel : nat) (s s' : t) :
  run fuel s = Finished s' -> histogram_inv s -> histogram_inv s'.
Proof. intros Hrun Hinv. eapply main_loop_inv; [exact Hrun|]. exact Hinv. Qed.


(** *** Arrival at a full queue *)


(** *** The scheduling step *)

(** C1 (amended). In an iteration of the main loop that does not raise,
    the policy is asked once, on the state that the event handler leaves,
    and the queue, the pool, the policy and the generator of the next
    iteration are the ones this one call returns.  Without a server the
    counters, the histogram and the cached earliest end stay as the handler
    left them; with a server, Running Tasks and Busy Servers grow by 1,
    Available Servers of its type shrinks by 1, the histogram bin of the
    queue size before the removal receives the time since the last update,
    and the cached earliest-ending server becomes the new one exactly when
    its end is strictly before the cached end. *)
Theorem iteration_asks_policy_once (s s' : t) :
  iteration s = Ok s' ->
  exists ev s1 r pol queue pool g,
    next_event s = Ok ev /\
    handle_event ev s = Ok s1 /\
    assign_task_to_server (sched_policy s1) (sim_time s1) (tasks s1) (servers s1)
                          (random s1) = Ok (r, pol, queue, pool, g) /\
    sched_policy s' = pol /\ tasks s' = queue /\ servers s' = pool /\ random s' = g /\
    match r with
    | None =>
        stats s' = stats s1 /\
        last_size_change_time s' = last_size_change_time s1 /\
        next_serv_end_time s' = next_serv_end_time s1 /\
        next_serv_end s' = next_serv_end s1
    | Some i =>
        exists server e avail old,
          pool !! i = Some server /\
          Server.curr_job_end_time server = Some e /\
          Available_Servers (stats s1) !! Server.type server = Some avail /\
          Running_Tasks (stats s') = Running_Tasks (stats s1) + 1 /\
          Busy_Servers (stats s') = Busy_Servers (stats s1) + 1 /\
          Available_Servers (stats s') =
            <[Server.type server := avail - 1]> (Available_Servers (stats s1)) /\
          (let hist := Queue_Size_Histogram (stats s1) in
           let bin := Z.to_nat (Z.min ((Z.of_nat (length queue) + 1) ÷ bin_size)
                                      (Z.of_nat (length hist) - 1)) in
           hist !! bin = Some old /\
           Queue_Size_Histogram (stats s') =
             <[bin := old + (sim_time s1 - last_size_change_time s1)]> hist) /\
          last_size_change_time s' = sim_time s1 /\
          (next_serv_end_time s', next_serv_end s') =
            (if etime_ltb (Fin e) (next_serv_end_time s1)
             then (Fin e, Some i)
             else (next_serv_end_time s1, next_serv_end s1))
    end.
Proof.
  intros Hit. unfold iteration in Hit.
  apply rbind_Ok in Hit as (ev & Hev & Hit).
  apply rbind_Ok in Hit as (s1 & Hs1 & Hit).
  unfold make_scheduling_decisions in Hit.
  apply rbind_Ok in Hit as ([[[[r pol] queue] pool] g] & Hpick & Hit).
  exists ev, s1, r, pol, queue, pool, g.
  split; [exact Hev|]. split; [exact Hs1|]. split; [exact Hpick|].
  destruct r as [i|].
  - apply rbind_Ok in Hit as (server & Hserver & Hit). apply of_option_Ok in Hserver.
    apply rbind_Ok in Hit as (e & He & Hit). apply of_option_Ok in He.
    apply rbind_Ok in Hit as (avail & Havail & Hit). apply of_option_Ok in Havail.
    apply update_histogram_Ok in Hit as (old & Hold & ->); [|simpl; lia].
    cbn -[etime_ltb Z.quot Z.min Z.of_nat Z.to_nat] in *.
    destruct (etime_ltb (Fin e) (next_serv_end_time s1)) eqn:Hlt;
      cbn -[etime_ltb Z.quot Z.min Z.of_nat Z.to_nat] in *;
      (repeat split; try reflexivity);
      exists server, e, avail, old; rewrite Hlt; repeat split; assumption.
  - injection Hit as <-. simpl. repeat split; reflexivity.
Qed.

(** *** The earliest-ending server *)

Lemma ids_are_positions_lookup (l : list Server.t) (k : nat) (server : Server.t) :
  ids_are_positions l -> l !! k = Some server -> Server.id server = Z.of_nat k.
Proof.
  intros Hids Hk. unfold ids_are_positions in Hids.
  assert (Hl : (Server.id <$> l) !! k = Some (Server.id server))
    by (rewrite list_lookup_fmap, Hk; reflexivity).
  rewrite Hids, list_lookup_fmap in Hl.
  rewrite lookup_seq_lt in Hl by (eapply lookup_lt_Some; eassumption).
  simpl in Hl. congruence.
Qed.

Lemma new_servers_ids (n : nat) (id : Z) (ty : string) :
  Server.id <$> new_servers n id ty = (fun k => id + Z.of_nat k) <$> seq 0 n.
Proof.
  revert id; induction n as [|n IH]; intros id; simpl; [reflexivity|].
  f_equal; [unfold Server.init; simpl; lia|].
  rewrite IH, <- fmap_S_seq, <- list_fmap_compose.
  apply list_fmap_ext. intros _ k _. simpl. lia.
Qed.

Lemma new_servers_length (n : nat) (id : Z) (ty : string) :
  length (new_servers n id ty) = n.
Proof. revert id; induction n as [|n IH]; intros id; simpl; [|rewrite IH]; reflexivity. Qed.

Lemma init_servers_ids (cfg : list (string * Z)) (id : Z) (avail : gmap string Z)
    (acc : list Server.t) :
  ids_are_positions acc -> id = Z.of_nat (length acc) ->
  ids_are_positions (init_servers cfg id avail acc).2.
Proof.
  revert id avail acc; induction cfg as [|[ty n] cfg IH]; intros id avail acc Hacc Hid;
    simpl; [exact Hacc|].
  apply IH.
  - unfold ids_are_positions in *.
    rewrite fmap_app, Hacc, new_servers_ids, length_app, new_servers_length, seq_app, fmap_app.
    f_equal. simpl.
    replace (seq (length acc) (Z.to_nat n))
      with (Nat.add (length acc) <$> seq 0 (Z.to_nat n))
      by (rewrite fmap_add_seq; f_equal; lia).
    rewrite <- list_fmap_compose.
    apply list_fmap_ext. intros _ k _. simpl. lia.
  - rewrite length_app, new_servers_length. lia.
Qed.

Lemma init_ids (p : Params) (pol : policy) (g : rng) :
  ids_are_positions (servers (init p pol g)).
Proof.
  unfold init.
  pose proof (init_servers_ids (servers_count p) 0 ∅ [] eq_refl eq_refl) as Hids.
  destruct (init_servers (servers_count p) 0 ∅ []) as [avail srv]. exact Hids.
Qed.

Lemma scan_servers_spec (l : list Server.t) (i : nat) (t t' : etime) (r r' : option nat) :
  scan_servers l i t r = Ok (t', r') ->
  etime_le t' t /\
  (forall k server,
     l !! k = Some server -> Server.busy server = true ->
     exists e, Server.curr_job_end_time server = Some e /\
               etime_le t' (Fin e) /\
               (t' = Fin e -> exists j, r' = Some j /\ (i + k <= j)%nat)) /\
  ((t' = t /\ r' = r) \/
   exists k server e,
     l !! k = Some server /\ Server.busy server = true /\
     Server.curr_job_end_time server = Some e /\ t' = Fin e /\ r' = Some (i + k)%nat).
Proof.
  revert i t r; induction l as [|server l IH]; intros i t r Hscan;
    cbn [scan_servers] in Hscan.
  - injection Hscan as <- <-. split; [destruct t; apply Z.leb_refl || reflexivity|].
    split; [intros k server Hk; discriminate | left; auto].
  - destruct (Server.busy server) eqn:Hbusy.
    + destruct (Server.curr_job_end_time server) as [e|] eqn:He; [|discriminate].
      destruct (etime_leb (Fin e) t) eqn:Hle.
      * apply IH in Hscan as (Hle' & Hall & Hsel).
        split; [|split].
        -- destruct t', t; simpl in *; try discriminate; try reflexivity.
           apply Z.leb_le in Hle, Hle'. apply Z.leb_le. lia.
        -- intros [|k] server' Hk Hb; simpl in Hk.
           ++ injection Hk as <-. exists e. split; [exact He|]. split; [exact Hle'|].
              intros ->. destruct Hsel as [[_ ->]|(k & s2 & e2 & _ & _ & _ & _ & ->)];
                eexists; (split; [reflexivity | lia]).
           ++ destruct (Hall k server' Hk Hb) as (e' & He' & Hle2 & Htie).
              exists e'. split; [exact He'|]. split; [exact Hle2|].
              intros Heq. destruct (Htie Heq) as (j & -> & Hj). exists j. split; [reflexivity|lia].
        -- right. destruct Hsel as [[-> ->]|(k & s2 & e2 & Hk & Hb & He2 & -> & ->)].
           ++ exists 0%nat, server, e. rewrite Nat.add_0_r. auto.
           ++ exists (S k), s2, e2. simpl. repeat split; try assumption. f_equal. lia.
      * apply IH in Hscan as (Hle' & Hall & Hsel).
        split; [exact Hle'|]. split.
        -- intros [|k] server' Hk Hb; simpl in Hk.
           ++ injection Hk as <-. exists e. split; [exact He|].
              assert (Hlt : etime_le t' (Fin e) /\ t' <> Fin e).
              { destruct t', t; simpl in *; try discriminate.
                apply Z.leb_le in Hle'. apply Z.leb_gt in Hle.
                split; [apply Z.leb_le; lia | intros [= ->]; lia]. }
              destruct Hlt as [Hlt Hne]. split; [exact Hlt|]. intros Heq. contradiction.
           ++ destruct (Hall k server' Hk Hb) as (e' & He' & Hle2 & Htie).
              exists e'. split; [exact He'|]. split; [exact Hle2|].
              intros Heq. destruct (Htie Heq) as (j & -> & Hj). exists j. split; [reflexivity|lia].
        -- destruct Hsel as [[-> ->]|(k & s2 & e2 & Hk & Hb & He2 & -> & ->)]; [left; auto|].
           right. exists (S k), s2, e2. simpl. repeat split; try assumption. f_equal. lia.
    + apply IH in Hscan as (Hle' & Hall & Hsel).
      split; [exact Hle'|]. split.
      * intros [|k] server' Hk Hb; simpl in Hk.
        -- injection Hk as <-. congruence.
        -- destruct (Hall k server' Hk Hb) as (e' & He' & Hle2 & Htie).
           exists e'. split; [exact He'|]. split; [exact Hle2|].
           intros Heq. destruct (Htie Heq) as (j & -> & Hj). exists j. split; [reflexivity|lia].
      * destruct Hsel as [[-> ->]|(k & s2 & e2 & Hk & Hb & He2 & -> & ->)]; [left; auto|].
        right. exists (S k), s2, e2. simpl. repeat split; try assumption. f_equal. lia.
Qed.

Lemma release_server_scan (i : nat) (s s' : t) :
  release_server i s = Ok s' ->
  scan_servers (servers s') 0 Inf None = Ok (next_serv_end_time s', next_serv_end s') /\
  exists server,
    servers s !! i = Some server /\
    servers s' = <[i := Server.set_last_stopped_at (sim_time s) (Server.reset server)]>
                   (servers s).
Proof.
  intros Hs. apply release_server_effects in Hs as (_ & _ & _ & _ & Hscan & Hsrv). auto.
Qed.

Lemma release_server_ids (i : nat) (s s' : t) :
  release_server i s = Ok s' ->
  ids_are_positions (servers s) -> ids_are_positions (servers s').
Proof.
  intros Hs Hids. apply release_server_scan in Hs as (_ & server & Hi & ->).
  unfold ids_are_positions in *.
  rewrite list_fmap_insert, length_insert. simpl.
  rewrite list_insert_id; [exact Hids|].
  rewrite list_lookup_fmap, Hi. reflexivity.
Qed.

(** C4 (amended). When [release_server] rescans the pool it caches a BUSY
    server with the smallest end time, and among the BUSY servers that
    share this smallest end time the one with the highest identifier (the
    last of them in the pool); with no BUSY server the cache is empty and
    the end time infinite.  The scheduling step then replaces the cached
    server only by a server that ends strictly earlier, so on equal end
    times the cached server stays. *)
Theorem release_server_caches_last_of_tied (i : nat) (s s' : t) :
  ids_are_positions (servers s) ->
  release_server i s = Ok s' ->
  match next_serv_end s' with
  | None =>
      next_serv_end_time s' = Inf /\
      forall server, server ∈ servers s' -> Server.busy server = false
  | Some j =>
      exists server e,
        servers s' !! j = Some server /\
        Server.busy server = true /\
        Server.curr_job_end_time server = Some e /\
        next_serv_end_time s' = Fin e /\
        forall server' e',
          server' ∈ servers s' ->
          Server.busy server' = true ->
          Server.curr_job_end_time server' = Some e' ->
          e <= e' /\ (e' = e -> Server.id server' <= Server.id server)
  end /\
  forall s1 s2 : t,
    make_scheduling_decisions s1 = Ok s2 ->
    (next_serv_end_time s2 = next_serv_end_time s1 /\ next_serv_end s2 = next_serv_end s1) \/
    exists k server e,
      next_serv_end s2 = Some k /\
      servers s2 !! k = Some server /\
      Server.curr_job_end_time server = Some e /\
      next_serv_end_time s2 = Fin e /\
      etime_lt (Fin e) (next_serv_end_time s1).
Proof.
  intros Hids Hrel. split.
  - pose proof (release_server_ids _ _ _ Hrel Hids) as Hids'.
    apply release_server_scan in Hrel as [Hscan _].
    apply scan_servers_spec in Hscan as (_ & Hall & Hsel).
    destruct Hsel as [[Ht Hr]|(j & server & e & Hj & Hb & He & Ht & Hr)];
      rewrite Hr; rewrite Ht in Hall.
    + split; [exact Ht|]. intros server Hin.
      destruct (Server.busy server) eqn:Hb; [|reflexivity].
      apply list_elem_of_lookup in Hin as [k Hk].
      destruct (Hall k server Hk Hb) as (e & _ & Hle & _).
      unfold etime_le in Hle; simpl in Hle; discriminate Hle.
    + simpl in Hj. exists server, e.
      split; [exact Hj|]. split; [exact Hb|]. split; [exact He|]. split; [exact Ht|].
      intros server' e' Hin Hb' He'.
      apply list_elem_of_lookup in Hin as [k Hk].
      destruct (Hall k server' Hk Hb') as (e2 & He2 & Hle & Htie).
      assert (e2 = e') by congruence. subst e2.
      split; [apply Z.leb_le in Hle; exact Hle|].
      intros ->. destruct (Htie eq_refl) as (j' & Hj' & Hkj).
      rewrite Hr in Hj'. injection Hj' as <-. simpl in Hkj.
      rewrite (ids_are_positions_lookup _ _ _ Hids' Hk),
              (ids_are_positions_lookup _ _ _ Hids' Hj). lia.
  - intros s1 s2 Hs2. unfold make_scheduling_decisions in Hs2.
    apply rbind_Ok in Hs2 as ([[[[r pol] queue] pool] g] & Hpick & Hs2).
    destruct r as [k|]; [|injection Hs2 as <-; left; split; reflexivity].
    apply rbind_Ok in Hs2 as (server & Hserver & Hs2). apply of_option_Ok in Hserver.
    apply rbind_Ok in Hs2 as (e & He & Hs2). apply of_option_Ok in He.
    apply rbind_Ok in Hs2 as (avail & Havail & Hs2).
    apply update_histogram_Ok in Hs2 as (old & Hold & ->); [|simpl; lia].
    cbn -[etime_ltb Z.quot Z.min Z.of_nat Z.to_nat] in *.
    destruct (etime_ltb (Fin e) (next_serv_end_time s1)) eqn:Hlt;
      cbn -[etime_ltb Z.quot Z.min Z.of_nat Z.to_nat] in *.
    + right. exists k, server, e. repeat split; assumption.
    + left. split; reflexivity.
Qed.

End WithPolicy.

(** *** The theorems on concrete runs

    Runs are evaluated on what is observed of a state, never on the state
    itself: the dictionaries of a state are large once normalised. *)

Import Scenario.

(** C1, counterexample. With the first-fit policy, a CPU core and a GPU:
    two GPU-only tasks and a CPU-only task arrive at 0, 1 and 2, the second
    GPU task waits at the head of the queue.  The fourth iteration handles
    the end of the first GPU task at time 10 and binds the second one; it
    leaves the CPU task in the queue although the policy, asked again in
    the state the iteration ends in, binds it to the idle CPU core: the
    policy was not asked until it returned none. *)
Lemma one_pick_per_iteration_counterexample :
  exists s3 s4,
    after 3 two_types_start = Some s3 /\
    iteration s3 = Ok s4 /\
    sim_time s4 = 10 /\
    Task.type <$> tasks s3 = ["cnn"; "fft"]%string /\
    Task.type <$> tasks s4 = ["fft"]%string /\
    Server.busy <$> servers s4 = [false; true] /\
    would_pick s4 = Ok (Some 0%nat).
Proof.
  assert (Hobs :
    (s3 ← after 3 two_types_start;
     s4 ← to_option (iteration s3);
     Some (sim_time s4, Task.type <$> tasks s3, Task.type <$> tasks s4,
           Server.busy <$> servers s4, would_pick s4))
    = Some (10, ["cnn"; "fft"]%string, ["fft"]%string, [false; true], Ok (Some 0%nat)))
    by (vm_compute; reflexivity).
  apply bind_Some in Hobs as (s3 & H3 & Hobs).
  apply bind_Some in Hobs as (s4 & H4 & Hobs).
  apply to_option_Some in H4.
  injection Hobs as Ht Hq3 Hq4 Hb Hp.
  exists s3, s4. repeat split; assumption.
Qed.

Lemma iteration_asks_policy_once_witness :
  exists s3 s4 s',
    after 3 two_types_start = Some s3 /\
    iteration s3 = Ok s4 /\
    handle_event E_SERVER_FINISHES s3 = Ok s' /\
    would_pick s' = Ok (Some 1%nat) /\
    Running_Tasks (stats s4) = Running_Tasks (stats s') + 1 /\
    Busy_Servers (stats s4) = Busy_Servers (stats s') + 1 /\
    last_size_change_time s4 = sim_time s'.
Proof.
  assert (Hobs :
    (s3 ← after 3 two_types_start;
     s4 ← to_option (iteration s3);
     s' ← to_option (handle_event E_SERVER_FINISHES s3);
     Some (next_event s3, would_pick s'))
    = Some (Ok E_SERVER_FINISHES, Ok (Some 1%nat)))
    by (vm_compute; reflexivity).
  apply bind_Some in Hobs as (s3 & H3 & Hobs).
  apply bind_Some in Hobs as (s4 & H4 & Hobs).
  apply bind_Some in Hobs as (s' & H' & Hobs).
  apply to_option_Some in H4, H'.
  injection Hobs as Hev Hp.
  destruct (iteration_asks_policy_once s3 s4 H4)
    as (ev & s1 & r & pol & queue & pool & g & Hev' & Hs1 & Hpick & _ & _ & _ & _ & Hr).
  assert (ev = E_SERVER_FINISHES) as -> by congruence.
  assert (s1 = s') as -> by congruence.
  assert (r = Some 1%nat) as ->
    by (unfold would_pick in Hp; rewrite Hpick in Hp; simpl in Hp; congruence).
  destruct Hr as (server & e & avail & old & _ & _ & _ & Hrun & Hbusy & _ & _ & Hlast & _).
  exists s3, s4, s'. repeat split; assumption.
Defined.

(** C4, counterexample. Three CPU cores, tasks arriving at 0, 1 and 2 with
    service times 5, 9 and 8: servers 1 and 2 both end at 10.  When server
    0 ends at 5, [release_server] caches server 2, not server 1. *)
Lemma lowest_id_tie_counterexample :
  exists s3 s4,
    after 3 three_cores_start = Some s3 /\
    next_event s3 = Ok E_SERVER_FINISHES /\
    iteration s3 = Ok s4 /\
    sim_time s4 = 5 /\
    (fun x => (Server.id x, Server.busy x, Server.curr_job_end_time x)) <$> servers s4
      = [(0, false, None); (1, true, Some 10); (2, true, Some 10)] /\
    next_serv_end_time s4 = Fin 10 /\
    next_serv_end s4 = Some 2%nat.
Proof.
  assert (Hobs :
    (s3 ← after 3 three_cores_start;
     s4 ← to_option (iteration s3);
     Some (next_event s3, sim_time s4,
           (fun x => (Server.id x, Server.busy x, Server.curr_job_end_time x))
             <$> servers s4,
           next_serv_end_time s4, next_serv_end s4))
    = Some (Ok E_SERVER_FINISHES, 5,
            [(0, false, None); (1, true, Some 10); (2, true, Some 10)],
            Fin 10, Some 2%nat))
    by (vm_compute; reflexivity).
  apply bind_Some in Hobs as (s3 & H3 & Hobs).
  apply bind_Some in Hobs as (s4 & H4 & Hobs).
  apply to_option_Some in H4.
  injection Hobs as Hev Ht Hsrv Hend Hcache.
  exists s3, s4. repeat split; assumption.
Qed.

Lemma release_server_caches_last_of_tied_witness :
  exists s3 s',
    after 3 three_cores_start = Some s3 /\
    ids_are_positions (servers (set_sim_time 5 s3)) /\
    release_server 0 (set_sim_time 5 s3) = Ok s' /\
    exists server e,
      servers s' !! 2%nat = Some server /\
      Server.busy server = true /\
      Server.curr_job_end_time server = Some e /\
      next_serv_end_time s' = Fin e /\
      forall server' e',
        server' ∈ servers s' ->
        Server.busy server' = true ->
        Server.curr_job_end_time server' = Some e' ->
        e <= e' /\ (e' = e -> Server.id server' <= Server.id server).
Proof.
  assert (Hobs :
    (s3 ← after 3 three_cores_start;
     s' ← to_option (release_server 0 (set_sim_time 5 s3));
     Some (Server.id <$> servers s3, length (servers s3), next_serv_end s'))
    = Some ([0; 1; 2], 3%nat, Some 2%nat))
    by (vm_compute; reflexivity).
  apply bind_Some in Hobs as (s3 & H3 & Hobs).
  apply bind_Some in Hobs as (s' & H' & Hobs).
  apply to_option_Some in H'.
  injection Hobs as Hids Hlen Hcache.
  assert (Hpos : ids_are_positions (servers (set_sim_time 5 s3)))
    by (unfold ids_are_positions; simpl; rewrite Hids, Hlen; reflexivity).
  exists s3, s'. split; [exact H3|]. split; [exact Hpos|]. split; [exact H'|].
  pose proof (release_server_caches_last_of_tied 0 _ _ Hpos H') as [Hsel _].
  rewrite Hcache in Hsel. exact Hsel.
Defined.



End StompSpec.

Module MetaSpec.
Import META.

(** *** Lists *)

Lemma filter_ext_in {A : Type} (P Q : A -> Prop)
    `{forall x, Decision (P x)} `{forall x, Decision (Q x)} (l : list A) :
  (forall x, x ∈ l -> P x <-> Q x) -> filter P l = filter Q l.
Proof.
  induction l as [|x l IH]; intros Hext; [reflexivity|].
  rewrite !filter_cons.
  assert (Hx : P x <-> Q x) by (apply Hext; left).
  rewrite IH by (intros y Hy; apply Hext; right; exact Hy).
  destruct (decide (P x)), (decide (Q x)); tauto.
Qed.

Lemma filter_all {A : Type} (P : A -> Prop) `{forall x, Decision (P x)} (l : list A) :
  Forall P l -> filter P l = l.
Proof.
  induction 1 as [|x l Hx _ IH]; [reflexivity|].
  rewrite filter_cons, IH. destruct (decide (P x)); tauto.
Qed.

Lemma py_remove_Permutation (x : Z) (l l' : list Z) :
  py_remove x l = Ok l' -> Permutation l (x :: l').
Proof.
  revert l'; induction l as [|y l IH]; intros l' Hrm; simpl in Hrm; [discriminate|].
  destruct (Z.eqb_spec x y) as [->|Hne].
  - injection Hrm as <-. reflexivity.
  - bind_inv Hrm. injection Hrm as <-.
    rewrite (IH _ Ha). apply perm_swap.
Qed.

Lemma py_remove_elem_of (x : Z) (l : list Z) :
  x ∈ l -> exists l', py_remove x l = Ok l'.
Proof.
  induction l as [|y l IH]; intros Hin; [apply elem_of_nil in Hin; contradiction|]. simpl.
  destruct (Z.eqb_spec x y) as [->|Hne]; [eauto|].
  apply elem_of_cons in Hin as [Heq|Hin]; [contradiction|].
  destruct (IH Hin) as [l' Hl']. rewrite Hl'. simpl. eauto.
Qed.

Lemma py_remove_NoDup (x : Z) (l l' : list Z) :
  NoDup l -> py_remove x l = Ok l' -> l' = filter (fun y => y ≠ x) l /\ NoDup l'.
Proof.
  intros Hnd; revert l'; induction Hnd as [|y l Hy Hnd IH]; intros l' Hrm;
    simpl in Hrm; [discriminate|].
  rewrite filter_cons.
  destruct (Z.eqb_spec x y) as [->|Hne].
  - injection Hrm as <-. destruct (decide (y ≠ y)) as [Hyy|_]; [congruence|].
    split; [|exact Hnd]. symmetry. apply filter_all.
    apply Forall_forall. intros z Hz ->. contradiction.
  - bind_inv Hrm. injection Hrm as <-. destruct (IH _ Ha) as [-> Hnd'].
    destruct (decide (y ≠ x)) as [_|Hyx]; [|exfalso; apply Hyx; congruence].
    split; [reflexivity|]. constructor; [|exact Hnd'].
    intros Hin. apply list_elem_of_filter in Hin as [_ Hin]. contradiction.
Qed.

(** *** Task nodes *)

Lemma remove_node_nodes (n : MetaTask.t) (g : DiGraph.t) :
  DiGraph.nodes (DiGraph.remove_node n g)
  = filter (fun m => MetaTask.tid m ≠ MetaTask.tid n) (DiGraph.nodes g).
Proof.
  unfold DiGraph.nodes, DiGraph.remove_node; simpl.
  apply filter_ext_in. intros m _. unfold MetaTask.eq.
  destruct (Z.eqb_spec (MetaTask.tid m) (MetaTask.tid n)); split; congruence.
Qed.

Lemma retire_node_nodes (c : completed) (dag : DAG.t) :
  DiGraph.nodes (DAG.graph (retire_node c dag))
  = filter (fun n => MetaTask.tid n ≠ tid c) (DiGraph.nodes (DAG.graph dag)).
Proof.
  unfold retire_node.
  destruct (list_find _ _) as [[k node]|] eqn:Hfind.
  - apply list_find_Some in Hfind as (_ & Htid & _). cbn [DAG.graph].
    rewrite remove_node_nodes, Htid. reflexivity.
  - apply list_find_None in Hfind. symmetry. apply filter_all. exact Hfind.
Qed.

(** C10. Two task nodes are equal exactly when their [tid]s are, their
    hashes agree when their [tid]s agree, [<] and [<=] are those of the
    [tid]s, whatever the other attributes hold; and the completion handler
    leaves in the graph exactly the nodes whose [tid] differs from the
    completed task's. *)
Theorem MetaTask_identity_is_tid (a b : MetaTask.t) (c : completed) (dag : DAG.t) :
  (MetaTask.eq a b = true <-> MetaTask.tid a = MetaTask.tid b) /\
  (MetaTask.tid a = MetaTask.tid b -> MetaTask.hash a = MetaTask.hash b) /\
  (MetaTask.lt a b = true <-> MetaTask.tid a < MetaTask.tid b) /\
  (MetaTask.le a b = true <-> MetaTask.tid a <= MetaTask.tid b) /\
  (forall rk pr st fi sch rk' pr' st' fi' sch',
     let a' := MetaTask.mk (MetaTask.tid a) rk pr st fi sch in
     let b' := MetaTask.mk (MetaTask.tid b) rk' pr' st' fi' sch' in
     MetaTask.eq a' b' = MetaTask.eq a b /\
     MetaTask.hash a' = MetaTask.hash a /\
     MetaTask.lt a' b' = MetaTask.lt a b /\
     MetaTask.le a' b' = MetaTask.le a b) /\
  DiGraph.nodes (DAG.graph (retire_node c dag))
  = filter (fun n => MetaTask.tid n ≠ tid c) (DiGraph.nodes (DAG.graph dag)).
Proof.
  unfold MetaTask.eq, MetaTask.hash, MetaTask.lt, MetaTask.le.
  split; [apply Z.eqb_eq|].
  split; [intros ->; reflexivity|].
  split; [apply Z.ltb_lt|].
  split; [apply Z.leb_le|].
  split; [intros; simpl; auto|].
  apply retire_node_nodes.
Qed.

(** *** Retiring a task *)

(** C2 (amended). For a completed task whose [dag_id] is in the dictionary
    and whose [tid] is that of a node of the DAG's graph, the manager sets
    [ready_time] to the task's arrival time plus its lifetime, [resp_time]
    to [ready_time] minus the DAG's arrival time, and removes the node.
    When the active list holds no [dag_id] twice and its values are the
    keys of the dictionary, both stay so: if the graph is now empty, one
    entry [(dag_id, dag_type, resp_time)] is appended to the results, the
    key is deleted and the [dag_id] leaves the list; otherwise only the
    DAG in the dictionary changes. *)
Theorem task_completed_retires (c : completed) (m : t) (dag : DAG.t) :
  dag_dict m !! dag_id c = Some dag ->
  tid c ∈ MetaTask.tid <$> DiGraph.nodes (DAG.graph dag) ->
  NoDup (dag_id_list m) ->
  dom (dag_dict m) = list_to_set (dag_id_list m) ->
  let ready_time := arrival_time c + task_lifetime c in
  let dag' := retire_node c dag in
  DAG.ready_time dag' = ready_time /\
  DAG.resp_time dag' = ready_time - DAG.arrival_time dag /\
  DiGraph.nodes (DAG.graph dag')
    = filter (fun n => MetaTask.tid n ≠ tid c) (DiGraph.nodes (DAG.graph dag)) /\
  exists m',
    task_completed c m = Ok m' /\
    NoDup (dag_id_list m') /\
    dom (dag_dict m') = list_to_set (dag_id_list m') /\
    if decide (DiGraph.nodes (DAG.graph dag') = []) then
      end_list m' = end_list m ++ [(dag_id c, DAG.dag_type dag, DAG.resp_time dag')] /\
      dags_completed m' = dags_completed m + 1 /\
      dag_dict m' = delete (dag_id c) (dag_dict m) /\
      dag_id_list m' = filter (fun d => d ≠ dag_id c) (dag_id_list m)
    else
      end_list m' = end_list m /\
      dags_completed m' = dags_completed m /\
      dag_dict m' = <[dag_id c := dag']> (dag_dict m) /\
      dag_id_list m' = dag_id_list m.
Proof.
  intros Hdag Htid Hnd Hdom ready_time dag'.
  assert (Hfields : DAG.ready_time dag' = ready_time /\
                    DAG.resp_time dag' = ready_time - DAG.arrival_time dag /\
                    DAG.dag_type dag' = DAG.dag_type dag).
  { subst dag'. unfold retire_node.
    destruct (list_find _ _) as [[k node]|] eqn:Hfind; [simpl; auto|].
    apply list_find_None in Hfind. apply list_elem_of_fmap in Htid as (n & Hn & Hin).
    rewrite Forall_forall in Hfind. exfalso. apply (Hfind n Hin). congruence. }
  destruct Hfields as (Hready & Hresp & Htype).
  split; [exact Hready|]. split; [exact Hresp|].
  split; [apply retire_node_nodes|].
  assert (Hin : dag_id c ∈ dag_id_list m).
  { apply (elem_of_list_to_set (C := gset Z)). rewrite <- Hdom.
    apply elem_of_dom. eauto. }
  unfold task_completed. rewrite Hdag. fold dag'.
  destruct (decide (DiGraph.nodes (DAG.graph dag') = [])) as [Hempty|Hnonempty].
  - rewrite Hempty. simpl.
    destruct (py_remove_elem_of _ _ Hin) as [l Hl]. rewrite Hl. simpl.
    destruct (py_remove_NoDup _ _ _ Hnd Hl) as [-> Hnd'].
    eexists; split; [reflexivity|]. simpl.
    split; [exact Hnd'|]. split.
    + rewrite dom_delete_L, Hdom. apply set_eq. intros d.
      rewrite elem_of_difference, !elem_of_list_to_set, list_elem_of_filter,
              elem_of_singleton. tauto.
    + rewrite Htype. auto.
  - destruct (DiGraph.nodes (DAG.graph dag')) as [|n l] eqn:Hnodes; [contradiction|].
    simpl. eexists; split; [reflexivity|]. simpl.
    split; [exact Hnd|]. split; [|auto].
    rewrite dom_insert_L, Hdom. apply set_eq. intros d.
    rewrite elem_of_union, elem_of_singleton, !elem_of_list_to_set.
    split; [intros [->|Hd]; assumption | auto].
Qed.

(** Closes a decidable goal on concrete data by evaluation. *)
Ltac by_evaluation := apply (bool_decide_unpack _); vm_compute; exact I.

Lemma task_completed_retires_witness :
  let m := load 1 MetaScenario.inputs MetaScenario.two_dags in
  let c := mk_completed 7 0 0 10 in
  exists dag m',
    dag_dict m !! 7 = Some dag /\
    task_completed c m = Ok m' /\
    DAG.ready_time (retire_node c dag) = 10 /\
    DAG.resp_time (retire_node c dag) = 10 /\
    dom (dag_dict m') = list_to_set (dag_id_list m') /\
    dag_id_list m' = [3] /\
    end_list m' = [(7, "a"%string, 10)].
Proof.
  intros m c.
  assert (Hobs : (dag ← dag_dict m !! 7;
                  Some (MetaTask.tid <$> DiGraph.nodes (DAG.graph dag),
                        DAG.arrival_time dag))
                 = Some ([0], 0))
    by (vm_compute; reflexivity).
  assert (Hres : (fun m' => (dag_id_list m', end_list m'))
                   <$> to_option (task_completed c m)
                 = Some ([3], [(7, "a"%string, 10)]))
    by (vm_compute; reflexivity).
  apply bind_Some in Hobs as (dag & Hdag & Hobs).
  injection Hobs as Hnodes Hat.
  assert (Htid : tid c ∈ MetaTask.tid <$> DiGraph.nodes (DAG.graph dag))
    by (rewrite Hnodes; left).
  assert (Hnd : NoDup (dag_id_list m)) by by_evaluation.
  assert (Hdom : dom (dag_dict m) = list_to_set (dag_id_list m)) by by_evaluation.
  destruct (task_completed_retires c m dag Hdag Htid Hnd Hdom)
    as (Hready & Hresp & _ & m' & Hm' & _ & Hdom' & _).
  rewrite Hm' in Hres. simpl in Hres. injection Hres as Hl He.
  exists dag, m'. rewrite Hresp, Hready, Hat.
  repeat split; try assumption; reflexivity.
Defined.

(** C2, counterexample. The trace names [dag_id] 5 on two lines.  After
    loading, the keys of the dictionary are the values of the list; the
    completion of the only task of DAG 5 deletes the key but leaves one 5
    in the list, and the pass that this completion belongs to ends in a
    [KeyError]. *)
Lemma retire_repeated_id_counterexample :
  let m := load 1 MetaScenario.inputs MetaScenario.same_id in
  let c := mk_completed 5 0 1 10 in
  dag_id_list m = [5; 5] /\
  dom (dag_dict m) = list_to_set (dag_id_list m) /\
  (exists dag, dag_dict m !! 5 = Some dag /\
               MetaTask.tid <$> DiGraph.nodes (DAG.graph dag) = [0]) /\
  (exists m', task_completed c m = Ok m' /\
              end_list m' = [(5, "a"%string, 10)] /\
              dag_id_list m' = [5] /\
              dag_dict m' !! 5 = None /\
              dom (dag_dict m') ≠ list_to_set (dag_id_list m')) /\
  iteration [c] m = Raise KeyError.
Proof.
  intros m c.
  split; [reflexivity|].
  split; [by_evaluation|].
  split; [eexists; split; vm_compute; reflexivity|].
  split; [|vm_compute; reflexivity].
  eexists. split; [vm_compute; reflexivity|].
  split; [reflexivity|]. split; [reflexivity|]. split; [reflexivity|].
  by_evaluation.
Qed.

(** *** The result file *)

Lemma load_lists (scale : Z) (inputs : string -> DiGraph.t * list (list string))
    (trace : list arrival) (m : t) :
  dag_id_list (foldl (read_dag scale inputs) m trace)
    = dag_id_list m ++ (trace_dag_id <$> trace) /\
  end_list (foldl (read_dag scale inputs) m trace) = end_list m.
Proof.
  revert m; induction trace as [|line trace IH]; intros m; simpl.
  - rewrite app_nil_r. auto.
  - destruct (IH (read_dag scale inputs m line)) as [-> ->].
    unfold read_dag. destruct (inputs (trace_dag_type line)) as [g comp]. simpl.
    rewrite <- app_assoc. auto.
Qed.

Lemma load_accounts_for (scale : Z) (inputs : string -> DiGraph.t * list (list string))
    (trace : list arrival) :
  accounts_for (trace_dag_id <$> trace) (load scale inputs trace).
Proof.
  unfold accounts_for, load.
  destruct (load_lists scale inputs trace initial) as [-> ->]. simpl.
  rewrite app_nil_r. reflexivity.
Qed.

Lemma task_completed_accounts_for (ids : list Z) (c : completed) (m m' : t) :
  task_completed c m = Ok m' -> accounts_for ids m -> accounts_for ids m'.
Proof.
  unfold task_completed, accounts_for. intros Hm' Hacc.
  unravel Hm'; injection Hm' as <-; simpl; try exact Hacc.
  apply py_remove_Permutation in Ha.
  rewrite !fmap_app. simpl.
  rewrite <- Hacc, Ha. simpl.
  rewrite (Permutation_app_comm _ [dag_id c]). simpl.
  rewrite Permutation_middle. reflexivity.
Qed.

Lemma update_completed_accounts_for (ids : list Z) (l : list completed) (m m' : t) :
  update_completed l m = Ok m' -> accounts_for ids m -> accounts_for ids m'.
Proof.
  revert m; induction l as [|c l IH]; intros m Hm' Hacc; simpl in Hm'.
  - injection Hm' as <-. exact Hacc.
  - bind_inv Hm'. eapply IH; [exact Hm'|].
    eapply task_completed_accounts_for; eassumption.
Qed.

Lemma iteration_accounts_for (ids : list Z) (l : list completed) (m m' : t)
    (temp : list task_entry) :
  iteration l m = Ok (m', temp) -> accounts_for ids m -> accounts_for ids m'.
Proof.
  unfold iteration. intros Hm' Hacc. unravel Hm'. injection Hm' as <- <-.
  eapply update_completed_accounts_for in Ha; [|exact Hacc]. exact Ha.
Qed.

Lemma manager_loop_accounts_for (ids : list Z) (batches : list (list completed))
    (m m' : t) (emitted emitted' : list (list task_entry)) :
  manager_loop batches m emitted = Finished m' emitted' ->
  accounts_for ids m ->
  dag_id_list m' = [] /\ accounts_for ids m'.
Proof.
  revert m emitted; induction batches as [|b batches IH]; intros m emitted; simpl.
  - destruct (dag_id_list m) eqn:Hl; [|discriminate].
    intros [= <- <-] Hacc. auto.
  - destruct (dag_id_list m) eqn:Hl; [intros [= <- <-] Hacc; auto|].
    destruct (iteration b m) as [[m1 temp]|e] eqn:Hit; [|discriminate].
    intros Hloop Hacc. eapply IH; [exact Hloop|].
    eapply iteration_accounts_for; eassumption.
Qed.

(** C7. When the manager loop ends, [out.csv] is the header line followed
    by the lines of the result entries in ascending order of DAG ID, and
    the DAG IDs of these entries are those of the lines of the arrival
    trace, each as many times as the trace has it; there are as many rows
    as DAGs were admitted. *)
Theorem out_csv_has_one_row_per_dag (scale : Z)
    (inputs : string -> DiGraph.t * list (list string))
    (trace : list arrival) (batches : list (list completed)) (lines : list string) :
  run scale inputs trace batches = Ok (Some lines) ->
  exists rows : list (Z * string * Z),
    lines = "DAG ID,DAG Type,Response Time"%string :: (row <$> rows) /\
    StronglySorted (fun a b => a.1.1 <= b.1.1) rows /\
    Permutation (rows.*1.*1) (trace_dag_id <$> trace) /\
    length rows = length trace.
Proof.
  unfold run. intros Hrun.
  destruct (manager_loop batches (load scale inputs trace) []) as [m emitted|e|m emitted]
    eqn:Hloop; try discriminate.
  injection Hrun as <-.
  apply (manager_loop_accounts_for (trace_dag_id <$> trace)) in Hloop
    as [Hempty Hacc]; [|apply load_accounts_for].
  unfold accounts_for in Hacc. rewrite Hempty in Hacc. simpl in Hacc.
  exists (py_sort (fun end_entry => end_entry.1.1) (end_list m)).
  split; [reflexivity|].
  split; [apply (py_sort_sorted (fun end_entry : Z * string * Z => end_entry.1.1))|].
  assert (Hperm : Permutation
            (py_sort (fun end_entry : Z * string * Z => end_entry.1.1) (end_list m)).*1.*1
            (trace_dag_id <$> trace)).
  { rewrite <- Hacc. do 2 apply fmap_Permutation. apply py_sort_Permutation. }
  split; [exact Hperm|].
  apply Permutation_length in Hperm. rewrite !length_fmap in Hperm. exact Hperm.
Qed.

Lemma out_csv_has_one_row_per_dag_witness :
  run 1 MetaScenario.inputs MetaScenario.two_dags MetaScenario.two_dags_batches
    = Ok (Some ["DAG ID,DAG Type,Response Time"; "3,b,10"; "7,a,10"]%string) /\
  exists rows : list (Z * string * Z),
    row <$> rows = ["3,b,10"; "7,a,10"]%string /\
    Permutation (rows.*1.*1) [7; 3] /\
    length rows = 2%nat.
Proof.
  assert (Hrun : run 1 MetaScenario.inputs MetaScenario.two_dags MetaScenario.two_dags_batches
                 = Ok (Some ["DAG ID,DAG Type,Response Time"; "3,b,10"; "7,a,10"]%string))
    by (vm_compute; reflexivity).
  split; [exact Hrun|].
  destruct (out_csv_has_one_row_per_dag _ _ _ _ _ Hrun) as (rows & Hlines & _ & Hperm & Hlen).
  exists rows. injection Hlines as Hrows. auto.
Defined.

(** *** The ready queue *)

Lemma append_and_sort_sorted (temp queue : list task_entry) :
  StronglySorted (key_le entry_atime) queue ->
  StronglySorted (key_le entry_atime) (append_and_sort temp queue).
Proof.
  revert queue; induction temp as [|e temp IH]; intros queue Hq; simpl; [exact Hq|].
  apply IH, py_sort_sorted.
Qed.

Lemma append_and_sort_Permutation (temp queue : list task_entry) :
  Permutation (append_and_sort temp queue) (queue ++ temp).
Proof.
  revert queue; induction temp as [|e temp IH]; intros queue; simpl.
  - rewrite app_nil_r. reflexivity.
  - rewrite IH, py_sort_Permutation, <- app_assoc. reflexivity.
Qed.

Lemma append_and_sort_stable (t : Z) (temp queue : list task_entry) :
  filter (fun e => entry_atime e = t) (append_and_sort temp queue)
  = filter (fun e => entry_atime e = t) (queue ++ temp).
Proof.
  revert queue; induction temp as [|e temp IH]; intros queue; simpl.
  - rewrite app_nil_r. reflexivity.
  - rewrite IH, !filter_app, (py_sort_stable entry_atime), filter_app, <- app_assoc.
    f_equal. change (e :: temp) with ([e] ++ temp). symmetry. apply filter_app.
Qed.

(** Taking an entry out of a sorted queue leaves it sorted. *)
Lemma delete_sorted (i : nat) (queue : list task_entry) :
  StronglySorted (key_le entry_atime) queue ->
  StronglySorted (key_le entry_atime) (delete i queue).
Proof.
  intros Hq; revert i; induction Hq as [|e queue Hq IH He]; intros [|i]; simpl;
    try constructor; auto.
  eapply Forall_forall. intros x Hx. rewrite Forall_forall in He. apply He.
  eapply elem_of_sublist; [exact Hx | apply sublist_delete].
Qed.

(** C5. After the manager's critical section the ready queue holds its
    former entries and the whole batch, it is sorted by effective arrival
    time (whenever the batch is not empty, and also for an empty batch if
    it was sorted before), entries with the same time are in the order
    "former queue, then batch" they were inserted in, and
    [next_cust_arrival_time] is the time of the head of the queue (it is
    left alone while the queue is empty). *)
Theorem submit_keeps_ready_queue_sorted (temp_task_trace : list task_entry) (b : bridge) :
  let queue := global_task_trace b in
  let queue' := global_task_trace (submit temp_task_trace b) in
  let next' := next_cust_arrival_time (submit temp_task_trace b) in
  (StronglySorted (key_le entry_atime) queue -> StronglySorted (key_le entry_atime) queue') /\
  (temp_task_trace <> [] -> StronglySorted (key_le entry_atime) queue') /\
  Permutation queue' (queue ++ temp_task_trace) /\
  (forall t, filter (fun e => entry_atime e = t) queue'
             = filter (fun e => entry_atime e = t) (queue ++ temp_task_trace)) /\
  (forall e rest, queue' = e :: rest -> next' = Fin (entry_atime e)) /\
  (queue' = [] -> next' = next_cust_arrival_time b).
Proof.
  intros queue queue' next'. subst queue queue' next'. unfold submit; simpl.
  split; [apply append_and_sort_sorted|].
  split.
  { destruct temp_task_trace as [|e temp]; [congruence|]. intros _. simpl.
    apply append_and_sort_sorted, py_sort_sorted. }
  split; [apply append_and_sort_Permutation|].
  split; [intros t; apply append_and_sort_stable|].
  split.
  - intros e rest ->. case_bool_decide as Hne; [reflexivity|].
    destruct (decide (next_cust_arrival_time b = Fin (entry_atime e))); [assumption|contradiction].
  - intros ->. reflexivity.
Qed.

Lemma submit_keeps_ready_queue_sorted_witness :
  let e1 := mk_task_entry 4 "fft" 7 0 [] in
  let e2 := mk_task_entry 2 "fft" 3 0 [] in
  let e3 := mk_task_entry 4 "decoder" 3 1 [] in
  let b := mk_bridge [] [e1] (Fin 4) 0 0 0 0 in
  global_task_trace (submit [e2; e3] b) = [e2; e1; e3] /\
  next_cust_arrival_time (submit [e2; e3] b) = Fin 2 /\
  StronglySorted (key_le entry_atime) (global_task_trace (submit [e2; e3] b)).
Proof.
  intros e1 e2 e3 b.
  split; [reflexivity|]. split; [reflexivity|].
  destruct (submit_keeps_ready_queue_sorted [e2; e3] b) as (Hsorted & _).
  apply Hsorted. subst b. simpl. constructor; constructor.
Defined.

(** *** Ready nodes *)

Lemma comp_times_zip (row : list string) :
  (length row <= 5)%nat ->
  comp_times row 0 = Ok (zip server_types (drop 2 row)).
Proof.
  intros Hlen.
  destruct row as [|c0 [|c1 [|c2 [|c3 [|c4 [|c5 row]]]]]]; simpl in *;
    try reflexivity; lia.
Qed.

Lemma comp_times_Ok (row : list string) (stimes : list (string * string)) :
  comp_times row 0 = Ok stimes ->
  (length row <= 5)%nat /\ stimes = zip server_types (drop 2 row).
Proof.
  intros Hrow.
  destruct (le_lt_dec (length row) 5) as [Hle|Hgt].
  - rewrite (comp_times_zip row Hle) in Hrow. injection Hrow as <-. auto.
  - exfalso.
    destruct row as [|c0 [|c1 [|c2 [|c3 [|c4 [|c5 row]]]]]]; simpl in Hgt; try lia.
    simpl in Hrow. destruct (comp_times row (0 + 1 + 1 + 1 + 1 + 1 + 1)); discriminate.
Qed.

Lemma ready_entry_Ok (dag_id : Z) (dag : DAG.t) (node : MetaTask.t) (e : task_entry) :
  ready_entry dag_id dag node = Ok e -> describes dag_id dag node e.
Proof.
  unfold ready_entry, process_comp_time. intros He.
  apply rbind_Ok in He as (row & Hrow & He). apply of_option_Ok in Hrow.
  apply rbind_Ok in He as (task & Htask & He). apply of_option_Ok in Htask.
  apply rbind_Ok in He as (stimes & Hstimes & He).
  rewrite Hrow in Hstimes. simpl in Hstimes.
  apply comp_times_Ok in Hstimes as [_ ->].
  injection He as <-. repeat split. exists row. auto.
Qed.

Lemma ready_entry_total (dag_id : Z) (dag : DAG.t) (node : MetaTask.t) (row : list string) :
  py_index (DAG.comp dag) (MetaTask.tid node) = Some row ->
  (1 <= length row <= 5)%nat ->
  exists e, ready_entry dag_id dag node = Ok e.
Proof.
  intros Hrow [Hlo Hhi]. unfold ready_entry, process_comp_time.
  rewrite Hrow. simpl.
  destruct row as [|task row]; [simpl in Hlo; lia|].
  change (py_index (task :: row) 0) with (Some task). simpl of_option. cbn [mbind result_bind rbind].
  rewrite (comp_times_zip _ Hhi). simpl. eauto.
Qed.

Lemma push_ready_nodes_Ok (dag_id : Z) (dag : DAG.t) (l l' : list MetaTask.t)
    (entries : list task_entry) :
  push_ready_nodes dag_id dag l = Ok (entries, l') ->
  l' = mark (DAG.graph dag) <$> l /\
  Forall2 (describes dag_id dag)
          (filter (fun n => is_ready (DAG.graph dag) n = true) l) entries.
Proof.
  revert l' entries; induction l as [|node l IH]; intros l' entries Hl; simpl in Hl.
  - injection Hl as <- <-. split; [reflexivity | constructor].
  - rewrite filter_cons. unfold mark at 1. simpl.
    destruct (is_ready (DAG.graph dag) node) eqn:Hready.
    + apply rbind_Ok in Hl as (e & He & Hl).
      apply rbind_Ok in Hl as ([entries0 l0] & Hl0 & Hl). injection Hl as <- <-.
      destruct (IH _ _ Hl0) as [-> Hall].
      destruct (decide (true = true)); [|congruence].
      split; [reflexivity|]. constructor; [apply ready_entry_Ok; assumption | exact Hall].
    + apply rbind_Ok in Hl as ([entries0 l0] & Hl0 & Hl). injection Hl as <- <-.
      destruct (IH _ _ Hl0) as [-> Hall].
      destruct (decide (false = true)); [discriminate|].
      split; [reflexivity | exact Hall].
Qed.

Lemma push_ready_nodes_total (dag_id : Z) (dag : DAG.t) (l : list MetaTask.t) :
  (forall node, node ∈ l -> is_ready (DAG.graph dag) node = true ->
     exists row, py_index (DAG.comp dag) (MetaTask.tid node) = Some row /\
                 (1 <= length row <= 5)%nat) ->
  exists entries l', push_ready_nodes dag_id dag l = Ok (entries, l').
Proof.
  induction l as [|node l IH]; intros Hrows; simpl; [eauto|].
  destruct IH as (entries & l' & Hl); [intros n Hn; apply Hrows; right; exact Hn|].
  rewrite Hl. destruct (is_ready (DAG.graph dag) node) eqn:Hready; simpl; [|eauto].
  destruct (Hrows node ltac:(left) Hready) as (row & Hrow & Hlen).
  destruct (ready_entry_total dag_id dag node row Hrow Hlen) as [e ->]. simpl. eauto.
Qed.

Lemma is_ready_mark (g : DiGraph.t) (edges : list (Z * Z)) (node : MetaTask.t) (l : list MetaTask.t) :
  edges = DiGraph.edge_list g ->
  is_ready {| DiGraph.node_list := l; DiGraph.edge_list := edges |} (mark g node) = false.
Proof.
  intros ->. unfold mark.
  destruct (is_ready g node) eqn:Hready.
  - unfold is_ready. simpl. apply andb_false_r.
  - unfold is_ready, DiGraph.in_degree_of in *. simpl. exact Hready.
Qed.

Lemma push_ready_nodes_none (dag_id : Z) (dag : DAG.t) (l : list MetaTask.t) :
  Forall (fun n => is_ready (DAG.graph dag) n = false) l ->
  push_ready_nodes dag_id dag l = Ok ([], l).
Proof.
  induction 1 as [|node l Hn _ IH]; simpl; [reflexivity|].
  rewrite Hn, IH. reflexivity.
Qed.

Lemma push_ready_dag_Ok (dag_id : Z) (dag dag' : DAG.t) (entries : list task_entry) :
  push_ready_dag dag_id dag = Ok (entries, dag') ->
  Forall2 (describes dag_id dag)
          (filter (fun n => is_ready (DAG.graph dag) n = true) (DiGraph.nodes (DAG.graph dag)))
          entries /\
  dag' = DAG.set_graph
           {| DiGraph.node_list := mark (DAG.graph dag) <$> DiGraph.nodes (DAG.graph dag);
              DiGraph.edge_list := DiGraph.edge_list (DAG.graph dag) |} dag /\
  push_ready_dag dag_id dag' = Ok ([], dag').
Proof.
  unfold push_ready_dag at 1. intros Hdag. unravel Hdag. injection Hdag as <- <-.
  apply push_ready_nodes_Ok in Ha as [-> Hall].
  split; [exact Hall|]. split; [reflexivity|].
  unfold push_ready_dag. simpl.
  rewrite push_ready_nodes_none; [reflexivity|].
  apply Forall_forall. intros n Hn. apply list_elem_of_fmap in Hn as (n0 & -> & _).
  apply is_ready_mark. reflexivity.
Qed.

(** *** A node is emitted once in a run *)

Lemma describes_keys (dag_id : Z) (dag : DAG.t) (l : list MetaTask.t)
    (entries : list task_entry) :
  Forall2 (describes dag_id dag) l entries ->
  entry_key <$> entries = (fun n => (dag_id, MetaTask.tid n)) <$> l.
Proof.
  induction 1 as [|n e l entries (_ & Hid & Htid & _) _ IH]; [reflexivity|].
  rewrite !fmap_cons, IH. unfold entry_key. rewrite Hid, Htid. reflexivity.
Qed.

Lemma wf_tid_inj (g : DiGraph.t) (a b : MetaTask.t) :
  DiGraph.wf g -> a ∈ DiGraph.nodes g -> b ∈ DiGraph.nodes g ->
  MetaTask.tid a = MetaTask.tid b -> a = b.
Proof.
  unfold DiGraph.wf, DiGraph.nodes. induction (DiGraph.node_list g) as [|n l IH];
    intros Hnd Ha Hb Heq; [apply elem_of_nil in Ha; contradiction|].
  rewrite fmap_cons in Hnd. apply NoDup_cons in Hnd as [Hn Hnd].
  apply elem_of_cons in Ha as [->|Ha], Hb as [->|Hb]; auto.
  - exfalso. apply Hn. rewrite Heq. apply list_elem_of_fmap. eauto.
  - exfalso. apply Hn. rewrite <- Heq. apply list_elem_of_fmap. eauto.
Qed.

Lemma push_ready_dag_emitted (d : gmap Z DAG.t) (keys : list (Z * Z)) (dag_id : Z)
    (dag dag' : DAG.t) (entries : list task_entry) :
  d !! dag_id = Some dag ->
  push_ready_dag dag_id dag = Ok (entries, dag') ->
  emitted_inv d keys ->
  emitted_inv (<[dag_id := dag']> d) (keys ++ (entry_key <$> entries)).
Proof.
  intros Hdag Hpush (Hnd & Hwf & Hflag).
  apply push_ready_dag_Ok in Hpush as (Hall & -> & _).
  rewrite (describes_keys _ _ _ _ Hall).
  set (g := DAG.graph dag) in *.
  set (ready := filter (fun n => is_ready g n = true) (DiGraph.nodes g)).
  assert (Hg : DiGraph.wf g) by (eapply Hwf; exact Hdag).
  split; [|split].
  - apply NoDup_app. split; [exact Hnd|]. split.
    + intros [id t] Hin Hin'.
      apply list_elem_of_fmap in Hin' as (n & [= -> ->] & Hn).
      apply list_elem_of_filter in Hn as [Hready Hn].
      apply (Hflag _ _ _ Hdag Hn) in Hin.
      unfold is_ready in Hready. apply andb_true_iff in Hready as [_ Hs].
      apply Z.eqb_eq in Hs. contradiction.
    + apply NoDup_fmap_2_strong.
      * intros a b Ha Hb [= Heq].
        apply list_elem_of_filter in Ha as [_ Ha], Hb as [_ Hb].
        eapply wf_tid_inj; eassumption.
      * apply (NoDup_fmap_1 MetaTask.tid).
        eapply sublist_NoDup; [exact Hg|]. apply fmap_sublist, sublist_filter.
  - intros id dag0 Hd. apply lookup_insert_Some in Hd as [[<- <-]|[_ Hd]]; [|eauto].
    unfold DiGraph.wf in *. simpl. rewrite <- list_fmap_compose.
    erewrite list_fmap_ext; [exact Hg|].
    intros _ n _. simpl. unfold mark. destruct (is_ready g n); reflexivity.
  - intros id dag0 node Hd Hnode Hin.
    apply lookup_insert_Some in Hd as [[<- <-]|[Hne Hd]].
    + simpl in Hnode. unfold DiGraph.nodes in Hnode. simpl in Hnode.
      apply list_elem_of_fmap in Hnode as (n & -> & Hn).
      assert (Htid : MetaTask.tid (mark g n) = MetaTask.tid n)
        by (unfold mark; destruct (is_ready g n); reflexivity).
      rewrite Htid in Hin.
      unfold mark. destruct (is_ready g n) eqn:Hready; [simpl; discriminate|].
      apply elem_of_app in Hin as [Hin|Hin]; [eapply Hflag; eassumption|].
      apply list_elem_of_fmap in Hin as (n' & [= Heq] & Hn').
      apply list_elem_of_filter in Hn' as [Hready' Hn'].
      assert (n = n') by (eapply wf_tid_inj; eassumption). subst n'. congruence.
    + apply elem_of_app in Hin as [Hin|Hin]; [eapply Hflag; eassumption|].
      apply list_elem_of_fmap in Hin as (n' & Heq & _). injection Heq as Heq _.
      congruence.
Qed.

Lemma push_ready_emitted (ids : list Z) (d d' : gmap Z DAG.t) (keys : list (Z * Z))
    (entries : list task_entry) :
  push_ready ids d = Ok (entries, d') ->
  emitted_inv d keys ->
  emitted_inv d' (keys ++ (entry_key <$> entries)).
Proof.
  revert d keys entries; induction ids as [|dag_id ids IH]; intros d keys entries Hpush Hinv;
    simpl in Hpush.
  - injection Hpush as <- <-. simpl. rewrite app_nil_r. exact Hinv.
  - apply rbind_Ok in Hpush as (dag & Hdag & Hpush). apply of_option_Ok in Hdag.
    apply rbind_Ok in Hpush as ([entries1 dag1] & Hdag1 & Hpush).
    apply rbind_Ok in Hpush as ([entries2 d2] & Hrest & Hpush).
    injection Hpush as <- <-.
    rewrite fmap_app, app_assoc. eapply IH; [exact Hrest|].
    eapply push_ready_dag_emitted; eassumption.
Qed.

Lemma retire_node_sub (c : completed) (dag : DAG.t) :
  DiGraph.nodes (DAG.graph (retire_node c dag)) `sublist_of` DiGraph.nodes (DAG.graph dag).
Proof. rewrite retire_node_nodes. apply sublist_filter. Qed.

Lemma task_completed_emitted (c : completed) (m m' : t) (keys : list (Z * Z)) :
  task_completed c m = Ok m' ->
  emitted_inv (dag_dict m) keys -> emitted_inv (dag_dict m') keys.
Proof.
  unfold task_completed. intros Hm' (Hnd & Hwf & Hflag).
  destruct (dag_dict m !! dag_id c) as [dag|] eqn:Hdag;
    [|injection Hm' as <-; repeat split; assumption].
  unravel Hm'; injection Hm' as <-; simpl; (split; [exact Hnd|]); split.
  - intros id dag0 Hd. apply lookup_delete_Some in Hd as [_ Hd]. eauto.
  - intros id dag0 node Hd. apply lookup_delete_Some in Hd as [_ Hd]. eauto.
  - intros id dag0 Hd. apply lookup_insert_Some in Hd as [[<- <-]|[_ Hd]]; [|eauto].
    unfold DiGraph.wf. eapply sublist_NoDup; [eapply Hwf; exact Hdag|].
    apply fmap_sublist, retire_node_sub.
  - intros id dag0 node Hd Hnode.
    apply lookup_insert_Some in Hd as [[<- <-]|[_ Hd]]; [|eauto].
    eapply Hflag; [exact Hdag|]. eapply elem_of_sublist; [exact Hnode | apply retire_node_sub].
Qed.

Lemma update_completed_emitted (l : list completed) (m m' : t) (keys : list (Z * Z)) :
  update_completed l m = Ok m' ->
  emitted_inv (dag_dict m) keys -> emitted_inv (dag_dict m') keys.
Proof.
  revert m; induction l as [|c l IH]; intros m Hm' Hinv; simpl in Hm'.
  - injection Hm' as <-. exact Hinv.
  - bind_inv Hm'. eapply IH; [exact Hm'|]. eapply task_completed_emitted; eassumption.
Qed.

Lemma iteration_emitted (l : list completed) (m m' : t) (temp : list task_entry)
    (keys : list (Z * Z)) :
  iteration l m = Ok (m', temp) ->
  emitted_inv (dag_dict m) keys ->
  emitted_inv (dag_dict m') (keys ++ (entry_key <$> temp)).
Proof.
  unfold iteration. intros Hm' Hinv.
  apply rbind_Ok in Hm' as (m1 & Hm1 & Hm').
  apply rbind_Ok in Hm' as ([temp1 d] & Hpush & Hm'). injection Hm' as <- <-. simpl.
  eapply push_ready_emitted; [exact Hpush|].
  eapply update_completed_emitted; eassumption.
Qed.

Lemma manager_loop_emitted (batches : list (list completed)) (m : t)
    (emitted : list (list task_entry)) :
  emitted_inv (dag_dict m) (entry_key <$> concat emitted) ->
  NoDup (entry_key <$> emitted_by (manager_loop batches m emitted)).
Proof.
  revert m emitted; induction batches as [|b batches IH]; intros m emitted Hinv; simpl.
  - destruct (dag_id_list m); simpl; apply Hinv.
  - destruct (dag_id_list m); simpl; [apply Hinv|].
    destruct (iteration b m) as [[m1 temp]|e] eqn:Hit; [|simpl; constructor].
    apply IH. rewrite concat_app, fmap_app. simpl. rewrite app_nil_r.
    eapply iteration_emitted; eassumption.
Qed.

Lemma load_wf (scale : Z) (inputs : string -> DiGraph.t * list (list string))
    (trace : list arrival) (m : t) :
  (forall dag_type, DiGraph.wf (inputs dag_type).1) ->
  (forall id dag, dag_dict m !! id = Some dag -> DiGraph.wf (DAG.graph dag)) ->
  forall id dag, dag_dict (foldl (read_dag scale inputs) m trace) !! id = Some dag ->
                 DiGraph.wf (DAG.graph dag).
Proof.
  intros Hin. revert m; induction trace as [|line trace IH]; intros m Hm; simpl; [exact Hm|].
  apply IH. intros id dag. unfold read_dag.
  pose proof (Hin (trace_dag_type line)) as Hg.
  destruct (inputs (trace_dag_type line)) as [g comp]. simpl.
  intros Hd. apply lookup_insert_Some in Hd as [[_ <-]|[_ Hd]]; [exact Hg | eauto].
Qed.

Lemma add_node_wf (n : MetaTask.t) (g : DiGraph.t) :
  DiGraph.wf g -> DiGraph.wf (DiGraph.add_node n g).
Proof.
  unfold DiGraph.wf, DiGraph.add_node. intros Hg.
  case_bool_decide as Hin; [exact Hg|]. simpl.
  rewrite fmap_app. apply NoDup_app. split; [exact Hg|]. split.
  - intros t Ht Ht'. apply list_elem_of_singleton in Ht'. subst t. contradiction.
  - apply NoDup_singleton.
Qed.

Lemma add_edge_wf (u v : Z) (g : DiGraph.t) :
  DiGraph.wf g -> DiGraph.wf (DiGraph.add_edge u v g).
Proof.
  intros Hg. unfold DiGraph.add_edge.
  assert (Hg' : DiGraph.wf (DiGraph.add_node (MetaTask.init v)
                              (DiGraph.add_node (MetaTask.init u) g)))
    by (do 2 apply add_node_wf; exact Hg).
  case_bool_decide; exact Hg'.
Qed.


End MetaSpec.

(** ** Further properties of the simulator *)

Module StompExtra.
Import STOMP StompSpec StompRun.

Section WithPolicy.
Context `{SchedulingPolicy}.

(** *** What each step does to the state *)

Lemma release_server_Ok (i : nat) (s s' : t) :
  release_server i s = Ok s' ->
  exists server task total count avail file,
    servers s !! i = Some server /\
    Server.task server = Some task /\
    Avg_Resp_Time_per_Type (stats s) !! Task.type task = Some total /\
    Tasks_Serviced_per_Type (stats s) !! Task.type task = Some count /\
    Available_Servers (stats s) !! Server.type server = Some avail /\
    task_trace_files s !! Task.type task = Some file /\
    let resp_time := sim_time s - Task.arrival_time task in
    stats s' =
      {| Running_Tasks := Running_Tasks (stats s);
         Busy_Servers := Busy_Servers (stats s) - 1;
         Available_Servers := <[Server.type server := avail + 1]> (Available_Servers (stats s));
         Tasks_Generated := Tasks_Generated (stats s);
         Tasks_Serviced := Tasks_Serviced (stats s) + 1;
         Tasks_Serviced_per_Type :=
           <[Task.type task := count + 1]> (Tasks_Serviced_per_Type (stats s));
         Avg_Resp_Time := Avg_Resp_Time (stats s) + resp_time;
         Avg_Resp_Time_per_Type :=
           <[Task.type task := total + resp_time]> (Avg_Resp_Time_per_Type (stats s));
         Queue_Size_Histogram := Queue_Size_Histogram (stats s) |} /\
    task_trace_file s' =
      task_trace_file s
      ++ [(sim_time s, Avg_Resp_Time (stats s) + resp_time, Tasks_Serviced (stats s) + 1)] /\
    task_trace_files s' =
      <[Task.type task := file ++ [(sim_time s, total + resp_time, count + 1)]]>
        (task_trace_files s) /\
    servers s' = <[i := Server.set_last_stopped_at (sim_time s) (Server.reset server)]>
                   (servers s) /\
    sched_policy s' = remove_task_from_server (sched_policy s) (sim_time s) server /\
    params s' = params s /\ tasks s' = tasks s /\ sim_time s' = sim_time s /\
    random s' = random s /\ log s' = log s /\
    next_cust_arrival_time s' = next_cust_arrival_time s /\
    next_power_mgmt_time s' = next_power_mgmt_time s /\
    scan_servers (servers s') 0 Inf None = Ok (next_serv_end_time s', next_serv_end s').
Proof.
  intros Hs. unfold release_server in Hs.
  unravel Hs. injection Hs as <-. simpl in *.
  do 6 eexists. repeat split; try eassumption; reflexivity.
Qed.

Lemma generate_n_enqueue_new_task_Ok (s s' : t) (enqueued : bool) :
  generate_n_enqueue_new_task s = Ok (enqueued, s') ->
  (enqueued = false /\
   Z.of_nat (length (tasks s)) = max_queue_size (params s) /\
   s' = add_log (Info_no_empty_queue_slot (sim_time s)) s) \/
  (enqueued = true /\
   Z.of_nat (length (tasks s)) <> max_queue_size (params s) /\
   exists s1 task_params,
     update_histogram (Z.of_nat (length (tasks s))) s = Ok s1 /\
     let task := (choice (random s) (tasks_params (params s)).*1).1 in
     let known := bool_decide (is_Some (Avg_Resp_Time_per_Type (stats s) !! task)) in
     assoc task (tasks_params (params s)) = Some task_params /\
     tasks s' = tasks s ++ [Task.init (sim_time s) task task_params] /\
     random s' = (choice (random s) (tasks_params (params s)).*1).2 /\
     Tasks_Generated (stats s') = Tasks_Generated (stats s) + 1 /\
     Running_Tasks (stats s') = Running_Tasks (stats s) /\
     Busy_Servers (stats s') = Busy_Servers (stats s) /\
     Available_Servers (stats s') = Available_Servers (stats s) /\
     Tasks_Serviced (stats s') = Tasks_Serviced (stats s) /\
     Avg_Resp_Time (stats s') = Avg_Resp_Time (stats s) /\
     Avg_Resp_Time_per_Type (stats s') =
       (if known then Avg_Resp_Time_per_Type (stats s)
        else <[task := 0]> (Avg_Resp_Time_per_Type (stats s))) /\
     Tasks_Serviced_per_Type (stats s') =
       (if known then Tasks_Serviced_per_Type (stats s)
        else <[task := 0]> (Tasks_Serviced_per_Type (stats s))) /\
     task_trace_files s' =
       (if known then task_trace_files s else <[task := []]> (task_trace_files s)) /\
     Queue_Size_Histogram (stats s') = Queue_Size_Histogram (stats s1) /\
     last_size_change_time s' = sim_time s /\
     task_trace_file s' = task_trace_file s /\
     params s' = params s /\ servers s' = servers s /\ sim_time s' = sim_time s /\
     sched_policy s' = sched_policy s /\ log s' = log s /\
     next_cust_arrival_time s' = next_cust_arrival_time s /\
     next_power_mgmt_time s' = next_power_mgmt_time s /\
     next_serv_end_time s' = next_serv_end_time s /\
     next_serv_end s' = next_serv_end s).
Proof.
  intros Hs. unfold generate_n_enqueue_new_task in Hs.
  destruct (Z.eqb_spec (Z.of_nat (length (tasks s))) (max_queue_size (params s)))
    as [Hfull|Hroom].
  - injection Hs as <- <-. left. auto.
  - right.
    apply rbind_Ok in Hs as (s1 & Hs1 & Hs).
    pose proof Hs1 as Hup.
    apply update_histogram_Ok in Hup as (old & _ & Hup); [|lia].
    case_bool_decide as Hnames; [discriminate|].
    assert (Hfields : random s1 = random s /\ tasks s1 = tasks s /\ params s1 = params s /\
                      sim_time s1 = sim_time s /\ servers s1 = servers s /\
                      task_trace_files s1 = task_trace_files s /\
                      task_trace_file s1 = task_trace_file s /\
                      sched_policy s1 = sched_policy s /\ log s1 = log s /\
                      last_size_change_time s1 = sim_time s /\
                      next_cust_arrival_time s1 = next_cust_arrival_time s /\
                      next_power_mgmt_time s1 = next_power_mgmt_time s /\
                      next_serv_end_time s1 = next_serv_end_time s /\
                      next_serv_end s1 = next_serv_end s /\
                      Tasks_Generated (stats s1) = Tasks_Generated (stats s) /\
                      Running_Tasks (stats s1) = Running_Tasks (stats s) /\
                      Busy_Servers (stats s1) = Busy_Servers (stats s) /\
                      Available_Servers (stats s1) = Available_Servers (stats s) /\
                      Tasks_Serviced (stats s1) = Tasks_Serviced (stats s) /\
                      Avg_Resp_Time (stats s1) = Avg_Resp_Time (stats s) /\
                      Avg_Resp_Time_per_Type (stats s1) = Avg_Resp_Time_per_Type (stats s) /\
                      Tasks_Serviced_per_Type (stats s1) = Tasks_Serviced_per_Type (stats s))
      by (rewrite Hup; simpl; repeat split; reflexivity).
    destruct Hfields as (Hr & Hq & Hp & Ht & Hsv & Hfs & Hf & Hpol & Hlog & Hlast & Hnc & Hnp &
                         Hnt & Hne & Hg & Hrun & Hb & Hav & Hts & Havg & Havgp & Htsp).
    rewrite Hr in Hs.
    destruct (choice (random s) (tasks_params (params s)).*1) as [task g] eqn:Hchoice.
    apply rbind_Ok in Hs as (task_params & Htp & Hs). apply of_option_Ok in Htp.
    cbn [set_stats set_tasks set_random set_task_trace_files tasks stats random
         Tasks_Generated set_Tasks_Generated Avg_Resp_Time_per_Type] in Hs.
    rewrite Havgp in Hs.
    destruct (Avg_Resp_Time_per_Type (stats s) !! task) eqn:Hknown;
      injection Hs as <- <-;
      (split; [reflexivity|]); (split; [exact Hroom|]);
      exists s1, task_params; (split; [exact Hs1|]); simpl; rewrite Hknown;
      [rewrite bool_decide_eq_true_2 by eauto
      |rewrite bool_decide_eq_false_2 by (intros [? ?]; discriminate)];
      rewrite ?Hq, ?Ht, ?Hg, ?Hrun, ?Hb, ?Hav, ?Hts, ?Havg, ?Havgp, ?Htsp, ?Hfs, ?Hf, ?Hp,
              ?Hsv, ?Hpol, ?Hlog, ?Hlast, ?Hnc, ?Hnp, ?Hnt, ?Hne;
      repeat split; (exact Htp || reflexivity).
Qed.

Lemma make_scheduling_decisions_Ok (s s' : t) :
  make_scheduling_decisions s = Ok s' ->
  exists r pol queue pool g,
    assign_task_to_server (sched_policy s) (sim_time s) (tasks s) (servers s) (random s)
      = Ok (r, pol, queue, pool, g) /\
    sched_policy s' = pol /\ tasks s' = queue /\ servers s' = pool /\ random s' = g /\
    params s' = params s /\ sim_time s' = sim_time s /\ log s' = log s /\
    task_trace_file s' = task_trace_file s /\ task_trace_files s' = task_trace_files s /\
    next_cust_arrival_time s' = next_cust_arrival_time s /\
    next_power_mgmt_time s' = next_power_mgmt_time s /\
    Tasks_Generated (stats s') = Tasks_Generated (stats s) /\
    Tasks_Serviced (stats s') = Tasks_Serviced (stats s) /\
    Tasks_Serviced_per_Type (stats s') = Tasks_Serviced_per_Type (stats s) /\
    Avg_Resp_Time (stats s') = Avg_Resp_Time (stats s) /\
    Avg_Resp_Time_per_Type (stats s') = Avg_Resp_Time_per_Type (stats s) /\
    match r with
    | None =>
        stats s' = stats s /\
        next_serv_end_time s' = next_serv_end_time s /\ next_serv_end s' = next_serv_end s
    | Some i =>
        exists server e avail,
          pool !! i = Some server /\
          Server.curr_job_end_time server = Some e /\
          Available_Servers (stats s) !! Server.type server = Some avail /\
          Running_Tasks (stats s') = Running_Tasks (stats s) + 1 /\
          Busy_Servers (stats s') = Busy_Servers (stats s) + 1 /\
          Available_Servers (stats s') =
            <[Server.type server := avail - 1]> (Available_Servers (stats s)) /\
          (next_serv_end_time s', next_serv_end s') =
            (if etime_ltb (Fin e) (next_serv_end_time s)
             then (Fin e, Some i)
             else (next_serv_end_time s, next_serv_end s))
    end.
Proof.
  intros Hs. unfold make_scheduling_decisions in Hs.
  apply rbind_Ok in Hs as ([[[[r pol] queue] pool] g] & Hpick & Hs).
  exists r, pol, queue, pool, g. split; [exact Hpick|].
  destruct r as [i|].
  - apply rbind_Ok in Hs as (server & Hserver & Hs). apply of_option_Ok in Hserver.
    apply rbind_Ok in Hs as (e & He & Hs). apply of_option_Ok in He.
    apply rbind_Ok in Hs as (avail & Havail & Hs). apply of_option_Ok in Havail.
    apply update_histogram_Ok in Hs as (old & Hold & ->); [|simpl; lia].
    cbn -[etime_ltb Z.quot Z.min Z.of_nat Z.to_nat] in *.
    destruct (etime_ltb (Fin e) (next_serv_end_time s)) eqn:Hlt;
      cbn -[etime_ltb Z.quot Z.min Z.of_nat Z.to_nat] in *;
      (repeat split; try reflexivity);
      exists server, e, avail; rewrite Hlt; repeat split; assumption.
  - injection Hs as <-. simpl. repeat split; reflexivity.
Qed.

Lemma select_event_arrival (pm_enabled : bool) (generated max_simulated : Z)
    (pm arrival serv_end : etime) :
  select_event pm_enabled generated max_simulated pm arrival serv_end = Ok E_TASK_ARRIVAL ->
  generated < max_simulated.
Proof.
  unfold select_event.
  destruct (Z.ltb_spec generated max_simulated) as [Hlt|Hge]; [auto|].
  simpl. destruct (_ && _); [discriminate|].
  repeat (destruct (negb _); try discriminate).
Qed.

(** *** What a run keeps *)

Lemma handle_event_stats_inv (ev : event) (s s' : t) :
  next_event s = Ok ev -> handle_event ev s = Ok s' ->
  stats_inv s -> cache_inv s ->
  params s' = params s /\
  Running_Tasks (stats s') = Busy_Servers (stats s') /\
  0 <= Tasks_Generated (stats s') <= Z.max 0 (max_tasks_simulated (params s)) /\
  Tasks_Serviced (stats s') = Z.of_nat (length (task_trace_file s')) /\
  dom (Tasks_Serviced_per_Type (stats s')) = dom (Avg_Resp_Time_per_Type (stats s')) /\
  dom (task_trace_files s') = dom (Avg_Resp_Time_per_Type (stats s')) /\
  cache_inv s'.
Proof.
  intros Hev Hs' (Hrun & Hgen & Htrace & Hdom1 & Hdom2) Hcache.
  destruct ev; simpl in Hs'.
  - destruct (next_power_mgmt_time s); [|discriminate]. injection Hs' as <-. simpl.
    repeat split; try assumption; apply Hgen.
  - unfold next_event in Hev. apply select_event_arrival in Hev.
    apply rbind_Ok in Hs' as ([enqueued s1] & Hgenq & Hs').
    apply generate_n_enqueue_new_task_Ok in Hgenq
      as [(-> & _ & ->)|(-> & _ & s0 & tp & _ & Hq)].
    + injection Hs' as <-. simpl. repeat split; try assumption; apply Hgen.
    + simpl in Hq.
      destruct Hq as (_ & _ & _ & Hg & Hr & Hb & _ & Hts & _ & Havgp & Htsp & Hfs & _ & _ &
                      Hf & Hp & _ & _ & _ & _ & _ & _ & Hnt & Hne).
      destruct (exponential_arrival _ _ _) as [next g]. injection Hs' as <-. simpl.
      rewrite Hp, Hg, Hr, Hb, Hts, Hf, Havgp, Htsp, Hfs.
      split; [reflexivity|]. split; [exact Hrun|]. split; [lia|].
      split; [exact Htrace|].
      assert (Hc : cache_inv s1)
        by (unfold cache_inv; rewrite Hnt, Hne; exact Hcache).
      case_bool_decide as Hknown.
      * repeat split; assumption.
      * rewrite !dom_insert_L, Hdom1, Hdom2. repeat split; (reflexivity || exact Hc).
  - destruct (next_serv_end_time s) as [now|] eqn:Hnt, (next_serv_end s) as [i|] eqn:Hne;
      try discriminate.
    apply rbind_Ok in Hs' as (s1 & Hrel & Hs'). injection Hs' as <-.
    apply release_server_Ok in Hrel
      as (server & task & total & count & avail & file & _ & _ & Htot & Hcnt & _ & Hfile &
          Hst & Hf & Hfs & _ & _ & Hp & _ & _ & _ & _ & _ & _ & Hscan).
    simpl in *. rewrite Hst, Hf, Hfs, Hp. simpl.
    split; [reflexivity|]. split; [lia|]. split; [exact Hgen|].
    split; [rewrite length_app; simpl; lia|].
    rewrite !dom_insert_L, Hdom1, Hdom2.
    split; [reflexivity|]. split; [reflexivity|].
    apply scan_servers_spec in Hscan as (_ & _ & [[Ht Hr]|(k & sv & e & _ & _ & _ & Ht & Hr)]).
    + left. auto.
    + right. eauto.
  - injection Hs' as <-. repeat split; try assumption; apply Hgen.
Qed.

Lemma iteration_stats_inv (s s' : t) :
  iteration s = Ok s' -> stats_inv s /\ cache_inv s -> stats_inv s' /\ cache_inv s'.
Proof.
  intros Hit [Hst Hc]. unfold iteration in Hit.
  apply rbind_Ok in Hit as (ev & Hev & Hit).
  apply rbind_Ok in Hit as (s1 & Hs1 & Hit).
  destruct (handle_event_stats_inv _ _ _ Hev Hs1 Hst Hc)
    as (Hp & Hrun & Hgen & Htrace & Hdom1 & Hdom2 & Hc1).
  apply make_scheduling_decisions_Ok in Hit
    as (r & pol & queue & pool & g & _ & _ & _ & _ & _ & Hp' & _ & _ & Hf & Hfs & _ & _ &
        Hg & Hts & Htsp & _ & Havgp & Hr).
  unfold stats_inv, cache_inv.
  rewrite Hp', Hp, Hg, Hts, Htsp, Havgp, Hf, Hfs.
  destruct r as [i|].
  - destruct Hr as (server & e & avail & _ & _ & _ & Hrun' & Hbusy' & _ & Hcache').
    rewrite Hrun', Hbusy'.
    split; [repeat split; try assumption; lia|].
    destruct (etime_ltb (Fin e) (next_serv_end_time s1)); injection Hcache' as -> ->;
      [right; eauto | exact Hc1].
  - destruct Hr as (-> & -> & ->). repeat split; try assumption; lia.
Qed.

Lemma reaches_inv (P : t -> Prop) (s s' : t) :
  (forall a b, keep_running a = true -> iteration a = Ok b -> P a -> P b) ->
  reaches s s' -> P s -> P s'.
Proof. intros Hstep. induction 1; eauto. Qed.

Lemma reaches_params (s s' : t) : reaches s s' -> params s' = params s.
Proof.
  induction 1 as [|s s1 s2 _ Hit _ IH]; [reflexivity|]. rewrite IH.
  unfold iteration in Hit.
  apply rbind_Ok in Hit as (ev & Hev & Hit).
  apply rbind_Ok in Hit as (s0 & Hs0 & Hit).
  apply make_scheduling_decisions_Ok in Hit
    as (r & pol & queue & pool & g & _ & _ & _ & _ & _ & -> & _).
  destruct ev; simpl in Hs0.
  - destruct (next_power_mgmt_time s); [|discriminate]. injection Hs0 as <-. reflexivity.
  - apply rbind_Ok in Hs0 as ([enqueued s3] & Hgenq & Hs0).
    apply generate_n_enqueue_new_task_Ok in Hgenq
      as [(-> & _ & ->)|(-> & _ & s4 & tp & _ & Hq)].
    + injection Hs0 as <-. reflexivity.
    + simpl in Hq. destruct (exponential_arrival _ _ _) as [next g']. injection Hs0 as <-.
      simpl. apply Hq.
  - destruct (next_serv_end_time s), (next_serv_end s); try discriminate.
    apply rbind_Ok in Hs0 as (s3 & Hrel & Hs0). injection Hs0 as <-.
    apply release_server_Ok in Hrel
      as (server & task & total & count & avail & file & _ & _ & _ & _ & _ & _ &
          _ & _ & _ & _ & _ & Hp & _).
    exact Hp.
  - injection Hs0 as <-. reflexivity.
Qed.

Lemma main_loop_reaches (fuel : nat) (s s' : t) :
  main_loop fuel s = Finished s' \/ main_loop fuel s = Unfinished s' -> reaches s s'.
Proof.
  revert s; induction fuel as [|fuel IH]; intros s; simpl.
  - destruct (keep_running s); intros [Hm|Hm]; try discriminate;
      injection Hm as <-; constructor.
  - destruct (keep_running s) eqn:Hk.
    + destruct (iteration s) as [s1|e] eqn:Hit; [|intros [Hm|Hm]; discriminate].
      intros Hm. eapply reaches_next; eauto.
    + intros [Hm|Hm]; try discriminate. injection Hm as <-. constructor.
Qed.

Lemma main_loop_Finished (fuel : nat) (s s' : t) :
  main_loop fuel s = Finished s' -> keep_running s' = false.
Proof.
  revert s; induction fuel as [|fuel IH]; intros s; simpl.
  - destruct (keep_running s) eqn:Hk; [discriminate|]. intros [= <-]. exact Hk.
  - destruct (keep_running s) eqn:Hk; [|intros [= <-]; exact Hk].
    destruct (iteration s) as [s1|e]; [apply IH | discriminate].
Qed.

Lemma run_setup_inv (p : Params) (pol : policy) (g : rng) :
  stats_inv (run_setup (init p pol g)) /\ cache_inv (run_setup (init p pol g)).
Proof.
  unfold init. destruct (init_servers (servers_count p) 0 ∅ []) as [avail srv].
  unfold stats_inv, cache_inv. simpl.
  split; [repeat split; try reflexivity; lia | left; auto].
Qed.

Lemma reaches_stats_inv (p : Params) (pol : policy) (g : rng) (s : t) :
  reaches (run_setup (init p pol g)) s -> stats_inv s /\ cache_inv s.
Proof.
  intros Hreach.
  eapply (reaches_inv (fun s => stats_inv s /\ cache_inv s)); [|exact Hreach|].
  - intros a b _ Hit Ha. eapply iteration_stats_inv; eassumption.
  - apply run_setup_inv.
Qed.

(** *** The pool *)

Lemma new_servers_types (n : nat) (id : Z) (ty : string) :
  Server.type <$> new_servers n id ty = replicate n ty.
Proof.
  revert id; induction n as [|n IH]; intros id; simpl; [reflexivity|].
  rewrite IH. reflexivity.
Qed.

Lemma new_servers_fresh (n : nat) (id : Z) (ty : string) :
  Forall (fun sv => sv = Server.init (Server.id sv) (Server.type sv)) (new_servers n id ty).
Proof.
  revert id; induction n as [|n IH]; intros id; simpl; constructor; [reflexivity | apply IH].
Qed.

Lemma init_servers_spec (cfg : list (string * Z)) (id : Z) (avail : gmap string Z)
    (acc : list Server.t) :
  let r := init_servers cfg id avail acc in
  Server.type <$> r.2
    = (Server.type <$> acc) ++ flat_map (fun c => replicate (Z.to_nat c.2) c.1) cfg /\
  (Forall (fun sv => sv = Server.init (Server.id sv) (Server.type sv)) acc ->
   Forall (fun sv => sv = Server.init (Server.id sv) (Server.type sv)) r.2) /\
  forall ty, r.1 !! ty = match avail !! ty with
                         | Some v => Some v
                         | None => assoc ty cfg
                         end.
Proof.
  revert id avail acc; induction cfg as [|[ty n] cfg IH]; intros id avail acc; simpl.
  - rewrite app_nil_r. split; [reflexivity|]. split; [auto|].
    intros ty. destruct (avail !! ty); reflexivity.
  - destruct (IH (id + Z.of_nat (Z.to_nat n))
                 (match avail !! ty with Some _ => avail | None => <[ty := n]> avail end)
                 (acc ++ new_servers (Z.to_nat n) id ty)) as (Hty & Hfresh & Hav).
    split; [|split].
    + rewrite Hty, fmap_app, new_servers_types, <- app_assoc. reflexivity.
    + intros Hacc. apply Hfresh. apply Forall_app. split; [exact Hacc | apply new_servers_fresh].
    + intros ty'. rewrite Hav.
      destruct (avail !! ty) eqn:Hty'.
      * destruct (avail !! ty') eqn:Hty''; [reflexivity|].
        destruct (decide (ty' = ty)) as [->|Hne]; [congruence | reflexivity].
      * destruct (decide (ty' = ty)) as [->|Hne].
        -- rewrite lookup_insert_eq, Hty'. reflexivity.
        -- rewrite lookup_insert_ne by congruence. reflexivity.
Qed.

(** X1. The pool that the constructor builds: the servers come type by
    type in the order of the configuration, [count] of each (none for a
    negative count), numbered from 0 in this order and all as [Server(id,
    type)] leaves them (idle, no task, counters 0); and [Available Servers]
    holds the configured count of every type. *)
Theorem init_builds_the_pool (p : Params) (pol : policy) (g : rng) :
  let s := init p pol g in
  ids_are_positions (servers s) /\
  Server.type <$> servers s
    = flat_map (fun c => replicate (Z.to_nat c.2) c.1) (servers_count p) /\
  Forall (fun sv => sv = Server.init (Server.id sv) (Server.type sv)) (servers s) /\
  (forall ty, Available_Servers (stats s) !! ty = assoc ty (servers_count p)) /\
  tasks s = [] /\ sim_time s = 0.
Proof.
  intros s. subst s. split; [apply init_ids|].
  unfold init.
  destruct (init_servers_spec (servers_count p) 0 ∅ []) as (Hty & Hfresh & Hav).
  destruct (init_servers (servers_count p) 0 ∅ []) as [avail srv]. simpl in *.
  split; [exact Hty|]. split; [apply Hfresh; constructor|].
  split; [|auto]. intros ty. rewrite Hav, lookup_empty. reflexivity.
Qed.

(** *** Releasing a server *)

(** X2. [release_server] on a server that holds a task whose type is
    registered: the server becomes idle with [last_stopped_at] the current
    time and keeps its identifier, type, request count and busy time, the
    other servers and the queue are untouched; [Tasks Serviced] grows and
    [Busy Servers] shrinks by 1, [Available Servers] of the server's type
    grows by 1, and the response time [sim_time - arrival_time] of the task
    is added to the global and to the per-type total. *)
Theorem release_server_frees_the_server (i : nat) (s s' : t) :
  release_server i s = Ok s' ->
  exists server task avail total,
    servers s !! i = Some server /\
    Server.task server = Some task /\
    Available_Servers (stats s) !! Server.type server = Some avail /\
    Avg_Resp_Time_per_Type (stats s) !! Task.type task = Some total /\
    servers s' !! i
      = Some (Server.set_last_stopped_at (sim_time s) (Server.reset server)) /\
    (forall j, j <> i -> servers s' !! j = servers s !! j) /\
    length (servers s') = length (servers s) /\
    tasks s' = tasks s /\
    Tasks_Serviced (stats s') = Tasks_Serviced (stats s) + 1 /\
    Busy_Servers (stats s') = Busy_Servers (stats s) - 1 /\
    Available_Servers (stats s')
      = <[Server.type server := avail + 1]> (Available_Servers (stats s)) /\
    Avg_Resp_Time (stats s')
      = Avg_Resp_Time (stats s) + (sim_time s - Task.arrival_time task) /\
    Avg_Resp_Time_per_Type (stats s') !! Task.type task
      = Some (total + (sim_time s - Task.arrival_time task)).
Proof.
  intros Hrel. apply release_server_Ok in Hrel
    as (server & task & total & count & avail & file & Hi & Htask & Htot & _ & Hav & _ &
        Hst & _ & _ & Hsrv & _ & _ & Hq & _).
  exists server, task, avail, total. rewrite Hst, Hsrv. simpl.
  split; [exact Hi|]. split; [exact Htask|]. split; [exact Hav|]. split; [exact Htot|].
  split; [apply list_lookup_insert_eq; eapply lookup_lt_Some; exact Hi|].
  split; [intros j Hj; apply list_lookup_insert_ne; congruence|].
  split; [apply length_insert|].
  split; [exact Hq|]. repeat split. apply lookup_insert_eq.
Qed.

(** *** Task arrival *)

(** X3. When [generate_n_enqueue_new_task] enqueues, the queue was not
    at [max_queue_size]; the new task goes to the end of the queue, with the
    type that the generator chose among the configured task types and the
    current time as its arrival time; [Tasks Generated] grows by 1; a type
    seen for the first time gets 0 in both per-type tables and an empty
    trace file, a type seen before keeps what it has; the servers and the
    other counters are untouched. *)
Theorem new_task_joins_the_queue_end (s s' : t) :
  generate_n_enqueue_new_task s = Ok (true, s') ->
  let task := (choice (random s) (tasks_params (params s)).*1).1 in
  Z.of_nat (length (tasks s)) <> max_queue_size (params s) /\
  (exists task_params,
     assoc task (tasks_params (params s)) = Some task_params /\
     tasks s' = tasks s ++ [Task.init (sim_time s) task task_params]) /\
  Tasks_Generated (stats s') = Tasks_Generated (stats s) + 1 /\
  (forall total, Avg_Resp_Time_per_Type (stats s) !! task = Some total ->
     Avg_Resp_Time_per_Type (stats s') = Avg_Resp_Time_per_Type (stats s) /\
     Tasks_Serviced_per_Type (stats s') = Tasks_Serviced_per_Type (stats s) /\
     task_trace_files s' = task_trace_files s) /\
  (Avg_Resp_Time_per_Type (stats s) !! task = None ->
     Avg_Resp_Time_per_Type (stats s') = <[task := 0]> (Avg_Resp_Time_per_Type (stats s)) /\
     Tasks_Serviced_per_Type (stats s') = <[task := 0]> (Tasks_Serviced_per_Type (stats s)) /\
     task_trace_files s' = <[task := []]> (task_trace_files s)) /\
  servers s' = servers s /\ sim_time s' = sim_time s /\
  Running_Tasks (stats s') = Running_Tasks (stats s) /\
  Busy_Servers (stats s') = Busy_Servers (stats s) /\
  Tasks_Serviced (stats s') = Tasks_Serviced (stats s) /\
  Available_Servers (stats s') = Available_Servers (stats s).
Proof.
  intros Hgen task.
  apply generate_n_enqueue_new_task_Ok in Hgen
    as [(Hf & _)|(_ & Hroom & s1 & tp & _ & Hrest)]; [discriminate|].
  cbv zeta in Hrest. fold task in Hrest.
  destruct Hrest as (Htp & Hq & _ & Hg & Hrun & Hbusy & Hav & Hts & _ & Hart & Htspt & Hfiles &
                     _ & _ & _ & _ & Hsrv & Htime & _).
  split; [exact Hroom|]. split; [exists tp; auto|]. split; [exact Hg|].
  split; [|split].
  - intros total Hknown.
    rewrite bool_decide_eq_true_2 in Hart, Htspt, Hfiles by eauto. auto.
  - intros Hnew.
    rewrite bool_decide_eq_false_2 in Hart, Htspt, Hfiles
      by (rewrite Hnew; intros [? ?]; discriminate).
    auto.
  - repeat split; assumption.
Qed.

(** *** Invariants of a run *)

(** X4. At the top of the main loop, in every run, [Running Tasks] equals
    [Busy Servers]. *)
Theorem running_tasks_are_busy_servers (p : Params) (pol : policy) (g : rng) (s : t) :
  reaches (run_setup (init p pol g)) s ->
  Running_Tasks (stats s) = Busy_Servers (stats s).
Proof. intros Hreach. apply (reaches_stats_inv _ _ _ _ Hreach). Qed.


(** X6. In every run the global trace file has one line per serviced
    task: [Tasks Serviced] is the number of the lines written to it after
    the heading of the constructor (which [task_trace_file] leaves out). *)
Theorem one_trace_line_per_serviced_task (p : Params) (pol : policy) (g : rng) (s : t) :
  reaches (run_setup (init p pol g)) s ->
  Tasks_Serviced (stats s) = Z.of_nat (length (task_trace_file s)).
Proof. intros Hreach. apply (reaches_stats_inv _ _ _ _ Hreach). Qed.

(** X7. In every run the three tables kept per task type (total response
    time, serviced count, trace file) have the same keys. *)
Theorem per_type_tables_share_keys (p : Params) (pol : policy) (g : rng) (s : t) :
  reaches (run_setup (init p pol g)) s ->
  dom (Tasks_Serviced_per_Type (stats s)) = dom (Avg_Resp_Time_per_Type (stats s)) /\
  dom (task_trace_files s) = dom (Avg_Resp_Time_per_Type (stats s)).
Proof.
  intros Hreach. destruct (reaches_stats_inv _ _ _ _ Hreach) as [(_ & _ & _ & H1 & H2) _].
  auto.
Qed.

(** X8. In every run the cached earliest end time is infinite exactly
    when no server is cached.  When all tasks have been generated, power
    management is off and no server is cached, the next iteration selects
    SERVER_FINISH and stops on its [assert]: a run with work left and
    nothing running raises [AssertionError]. *)
Theorem nothing_running_raises (p : Params) (pol : policy) (g : rng) (s : t) :
  reaches (run_setup (init p pol g)) s ->
  (next_serv_end_time s = Inf <-> next_serv_end s = None) /\
  (power_mgmt_enabled (params s) = false ->
   max_tasks_simulated (params s) <= Tasks_Generated (stats s) ->
   next_serv_end s = None ->
   next_event s = Ok E_SERVER_FINISHES /\ iteration s = Raise AssertionError).
Proof.
  intros Hreach. destruct (reaches_stats_inv _ _ _ _ Hreach) as [_ Hc].
  split.
  - destruct Hc as [[-> ->]|(e & i & -> & ->)]; split; (reflexivity || discriminate).
  - intros Hpm Hgen Hnone.
    assert (Hinf : next_serv_end_time s = Inf)
      by (destruct Hc as [[Ht _]|(e & i & _ & Hi)]; [exact Ht | congruence]).
    assert (Hev : next_event s = Ok E_SERVER_FINISHES).
    { unfold next_event, select_event. rewrite Hpm, Hinf.
      rewrite (proj2 (Z.ltb_ge _ _) Hgen), (proj2 (Z.leb_le _ _) Hgen). simpl.
      destruct (next_power_mgmt_time s); reflexivity. }
    split; [exact Hev|].
    unfold iteration. rewrite Hev. simpl. rewrite Hinf, Hnone. reflexivity.
Qed.

(** X9. With [max_tasks_simulated] at most 0 the main loop does not
    iterate, whatever the policy: [run] leaves the state as set up, and
    [print_stats] then raises [ZeroDivisionError] on its first line. *)
Theorem empty_run_breaks_print_stats (p : Params) (pol : policy) (g : rng) (fuel : nat) :
  max_tasks_simulated p <= 0 ->
  run fuel (init p pol g) = Finished (run_setup (init p pol g)) /\
  print_stats (run_setup (init p pol g)) = Raise ZeroDivisionError.
Proof.
  intros Hmax. unfold run.
  assert (Hstop : keep_running (run_setup (init p pol g)) = false).
  { unfold init. destruct (init_servers (servers_count p) 0 ∅ []) as [avail srv].
    unfold keep_running. simpl. rewrite (proj2 (Z.ltb_ge _ _) Hmax). reflexivity. }
  split.
  - destruct fuel; simpl; rewrite Hstop; reflexivity.
  - unfold init. destruct (init_servers (servers_count p) 0 ∅ []) as [avail srv].
    reflexivity.
Qed.

End WithPolicy.

Import Scenario EdgeScenario.

Lemma release_server_frees_the_server_witness :
  exists s3 s',
    after 3 three_cores_start = Some s3 /\
    release_server 0 (set_sim_time 5 s3) = Ok s' /\
    (Server.busy <$> servers s3) = [true; true; true] /\
    (Server.busy <$> servers s') = [false; true; true] /\
    Tasks_Serviced (stats s') = Tasks_Serviced (stats s3) + 1 /\
    Busy_Servers (stats s') = Busy_Servers (stats s3) - 1.
Proof.
  assert (Hobs :
    (s3 ← after 3 three_cores_start;
     s' ← to_option (release_server 0 (set_sim_time 5 s3));
     Some (Server.busy <$> servers s3, Server.busy <$> servers s'))
    = Some ([true; true; true], [false; true; true]))
    by (vm_compute; reflexivity).
  apply bind_Some in Hobs as (s3 & H3 & Hobs).
  apply bind_Some in Hobs as (s' & H' & Hobs).
  apply to_option_Some in H'.
  injection Hobs as Hb3 Hb'.
  exists s3, s'. split; [exact H3|]. split; [exact H'|].
  split; [exact Hb3|]. split; [exact Hb'|].
  destruct (@release_server_frees_the_server Scripted.random_source
              FirstFit.scheduling_policy 0 _ _ H')
    as (server & task & avail & total & _ & _ & _ & _ & _ & _ & _ & _ & Hts & Hbs & _).
  split; [exact Hts | exact Hbs].
Defined.

Lemma new_task_joins_the_queue_end_witness :
  exists s' task_params,
    generate_n_enqueue_new_task three_cores_start = Ok (true, s') /\
    tasks s' = [Task.init 0 "fft" task_params] /\
    Tasks_Generated (stats s') = 1.
Proof.
  assert (Hobs :
    ('(enqueued, s') ← to_option (generate_n_enqueue_new_task three_cores_start);
     Some enqueued) = Some true)
    by (vm_compute; reflexivity).
  apply bind_Some in Hobs as ([enqueued s'] & H' & Hobs).
  apply to_option_Some in H'.
  injection Hobs as ->.
  destruct (@new_task_joins_the_queue_end Scripted.random_source
              FirstFit.scheduling_policy _ _ H')
    as (_ & (tp & _ & Hq) & Hg & _).
  exists s', tp. split; [exact H'|]. split; [exact Hq | exact Hg].
Defined.

Lemma after_reaches (n : nat) (s s' : STOMP.t) : after n s = Some s' -> reaches s s'.
Proof.
  unfold after. intros Hafter. apply main_loop_reaches with (fuel := n). right.
  destruct (main_loop n s); try discriminate. injection Hafter as ->. reflexivity.
Qed.

Lemma running_tasks_are_busy_servers_witness :
  exists s3,
    after 3 three_cores_start = Some s3 /\
    Running_Tasks (stats s3) = 3 /\ Busy_Servers (stats s3) = 3.
Proof.
  assert (Hobs : (s3 ← after 3 three_cores_start; Some (Running_Tasks (stats s3))) = Some 3)
    by (vm_compute; reflexivity).
  apply bind_Some in Hobs as (s3 & H3 & Hobs). injection Hobs as Hrun.
  exists s3. split; [exact H3|]. split; [exact Hrun|].
  rewrite <- Hrun. symmetry.
  exact (@running_tasks_are_busy_servers Scripted.random_source FirstFit.scheduling_policy
           three_cores tt three_cores_script s3 (after_reaches _ _ _ H3)).
Defined.


Lemma one_trace_line_per_serviced_task_witness :
  exists s5,
    after 5 three_cores_start = Some s5 /\
    Tasks_Serviced (stats s5) = 2 /\ length (task_trace_file s5) = 2%nat.
Proof.
  assert (Hobs : (s5 ← after 5 three_cores_start; Some (Tasks_Serviced (stats s5))) = Some 2)
    by (vm_compute; reflexivity).
  apply bind_Some in Hobs as (s5 & H5 & Hobs). injection Hobs as Hserv.
  exists s5. split; [exact H5|]. split; [exact Hserv|].
  pose proof (@one_trace_line_per_serviced_task Scripted.random_source
                FirstFit.scheduling_policy three_cores tt three_cores_script s5
                (after_reaches _ _ _ H5)) as Hlines.
  rewrite Hserv in Hlines. lia.
Defined.

Lemma per_type_tables_share_keys_witness :
  exists s5,
    after 5 three_cores_start = Some s5 /\
    dom (Avg_Resp_Time_per_Type (stats s5)) = {["fft"%string]} /\
    dom (Tasks_Serviced_per_Type (stats s5)) = {["fft"%string]} /\
    dom (task_trace_files s5) = {["fft"%string]}.
Proof.
  assert (Hobs : (s5 ← after 5 three_cores_start;
                  Some (map_to_list (Avg_Resp_Time_per_Type (stats s5))).*1)
                 = Some ["fft"%string])
    by (vm_compute; reflexivity).
  apply bind_Some in Hobs as (s5 & H5 & Hobs). injection Hobs as Hkeys.
  assert (Hdom : dom (Avg_Resp_Time_per_Type (stats s5)) = {["fft"%string]}).
  { apply set_eq. intros k. rewrite elem_of_dom, elem_of_singleton. split.
    - intros [v Hv]. apply elem_of_map_to_list in Hv.
      assert (Hk : k ∈ (map_to_list (Avg_Resp_Time_per_Type (stats s5))).*1)
        by (apply list_elem_of_fmap; exists (k, v); auto).
      rewrite Hkeys in Hk. apply list_elem_of_singleton in Hk. exact Hk.
    - intros ->.
      assert (Hk : "fft"%string ∈ (map_to_list (Avg_Resp_Time_per_Type (stats s5))).*1)
        by (rewrite Hkeys; apply list_elem_of_singleton; reflexivity).
      apply list_elem_of_fmap in Hk as ([k v] & -> & Hv).
      apply elem_of_map_to_list in Hv. eauto. }
  exists s5. split; [exact H5|]. split; [exact Hdom|].
  destruct (@per_type_tables_share_keys Scripted.random_source
              FirstFit.scheduling_policy three_cores tt three_cores_script s5
              (after_reaches _ _ _ H5)) as [H1 H2].
  rewrite H1, H2. split; exact Hdom.
Defined.

Lemma nothing_running_raises_witness :
  exists s1,
    after 1 no_server_start = Some s1 /\
    keep_running s1 = true /\
    next_event s1 = Ok E_SERVER_FINISHES /\
    iteration s1 = Raise AssertionError /\
    main_loop 5 no_server_start = Raised AssertionError.
Proof.
  assert (Hobs : (s1 ← after 1 no_server_start;
                  Some (power_mgmt_enabled (params s1),
                        max_tasks_simulated (params s1) <=? Tasks_Generated (stats s1),
                        next_serv_end s1, keep_running s1))
                 = Some (false, true, None, true))
    by (vm_compute; reflexivity).
  apply bind_Some in Hobs as (s1 & H1 & Hobs). injection Hobs as Hpm Hgen Hnone Hkeep.
  apply Z.leb_le in Hgen.
  destruct (@nothing_running_raises Scripted.random_source FirstFit.scheduling_policy
              no_server tt no_server_script s1 (after_reaches _ _ _ H1)) as [_ Hraise].
  destruct (Hraise Hpm Hgen Hnone) as [Hev Hit].
  exists s1. split; [exact H1|]. split; [exact Hkeep|]. split; [exact Hev|].
  split; [exact Hit|]. vm_compute. reflexivity.
Defined.

Lemma empty_run_breaks_print_stats_witness :
  run 20 (init no_task tt three_cores_script)
    = Finished (run_setup (init no_task tt three_cores_script)) /\
  print_stats (run_setup (init no_task tt three_cores_script)) = Raise ZeroDivisionError.
Proof.
  apply (@empty_run_breaks_print_stats Scripted.random_source FirstFit.scheduling_policy
           no_task tt three_cores_script 20).
  simpl. lia.
Defined.

End StompExtra.

(** ** Further properties of the DAG manager *)

Module MetaExtra.
Import META MetaSpec MetaRun.

(** *** Loading *)

Lemma read_dag_dag_of_line (scale : Z) (inputs : string -> DiGraph.t * list (list string))
    (m : t) (line : arrival) :
  read_dag scale inputs m line
  = {| dag_dict := <[trace_dag_id line := dag_of_line scale inputs line]> (dag_dict m);
       dag_id_list := dag_id_list m ++ [trace_dag_id line];
       end_list := end_list m;
       dags_completed := dags_completed m |}.
Proof.
  unfold read_dag, dag_of_line. destruct (inputs (trace_dag_type line)). reflexivity.
Qed.

Lemma load_spec (scale : Z)
    (inputs : string -> DiGraph.t * list (list string)) (trace : list arrival) :
  let m := load scale inputs trace in
  dag_id_list m = trace_dag_id <$> trace /\
  dom (dag_dict m) = list_to_set (dag_id_list m) /\
  (forall d, dag_dict m !! d
             = dag_of_line scale inputs
                 <$> last (filter (fun line => trace_dag_id line = d) trace)) /\
  (forall d dag, dag_dict m !! d = Some dag ->
                 DAG.id dag = d /\ DAG.ready_time dag = DAG.arrival_time dag /\
                 DAG.resp_time dag = 0) /\
  end_list m = [] /\ dags_completed m = 0.
Proof.
  intros m. subst m. unfold load.
  induction trace as [|line trace IH] using rev_ind.
  - simpl. rewrite dom_empty_L.
    split; [reflexivity|]. split; [reflexivity|].
    split; [intros d; rewrite lookup_empty; reflexivity|].
    split; [intros d dag Hd; rewrite lookup_empty in Hd; discriminate | auto].
  - destruct IH as (Hl & Hdom & Hlook & Hdag & He & Hc).
    rewrite foldl_app. simpl. rewrite read_dag_dag_of_line. simpl.
    rewrite Hl, fmap_app. split; [reflexivity|].
    split.
    { rewrite dom_insert_L, Hdom, Hl, list_to_set_app_L. simpl.
      rewrite (right_id_L ∅ (∪)). apply (comm_L (∪)). }
    assert (Hlook' : forall d,
              <[trace_dag_id line := dag_of_line scale inputs line]>
                (dag_dict (foldl (read_dag scale inputs) initial trace)) !! d
              = dag_of_line scale inputs
                  <$> last (filter (fun line => trace_dag_id line = d) (trace ++ [line]))).
    { intros d. rewrite filter_app, filter_cons, filter_nil.
      destruct (decide (trace_dag_id line = d)) as [<-|Hne].
      - rewrite lookup_insert_eq, last_snoc. reflexivity.
      - rewrite lookup_insert_ne, app_nil_r by exact Hne. apply Hlook. }
    split; [exact Hlook'|].
    split; [|auto].
    intros d dag Hd. rewrite Hlook' in Hd.
    destruct (last _) as [l0|] eqn:Hlast; [|discriminate]. injection Hd as <-.
    apply last_Some_elem_of, list_elem_of_filter in Hlast as [<- _].
    unfold dag_of_line. simpl. auto.
Qed.

(** X10. After loading, the active list holds the [dag_id]s of the trace
    in order (repeated ones included), the keys of the dictionary are the
    values of the list, and under each [dag_id] the dictionary holds the
    DAG of the last line of the trace with this [dag_id], with its ready
    time at its arrival time [atime * scale] and response time 0; nothing
    is retired yet. *)
Theorem load_fills_the_registry (scale : Z)
    (inputs : string -> DiGraph.t * list (list string)) (trace : list arrival) :
  let m := load scale inputs trace in
  dag_id_list m = trace_dag_id <$> trace /\
  dom (dag_dict m) = list_to_set (dag_id_list m) /\
  (forall d, dag_dict m !! d
             = dag_of_line scale inputs
                 <$> last (filter (fun line => trace_dag_id line = d) trace)) /\
  (forall d dag, dag_dict m !! d = Some dag ->
                 DAG.id dag = d /\ DAG.ready_time dag = DAG.arrival_time dag /\
                 DAG.resp_time dag = 0) /\
  end_list m = [] /\ dags_completed m = 0.
Proof. apply load_spec. Qed.

(** *** Completions that name nothing *)

(** X11. A completed task whose [dag_id] is not in the dictionary, or
    whose [tid] is that of no node of its (non-empty) graph, changes
    nothing in the manager's state and raises nothing. *)
Theorem stray_completion_is_ignored (c : completed) (m : t) :
  (dag_dict m !! dag_id c = None \/
   exists dag, dag_dict m !! dag_id c = Some dag /\
               DiGraph.nodes (DAG.graph dag) <> [] /\
               tid c ∉ MetaTask.tid <$> DiGraph.nodes (DAG.graph dag)) ->
  task_completed c m = Ok m.
Proof.
  intros [Hnone|(dag & Hdag & Hnodes & Htid)]; unfold task_completed.
  - rewrite Hnone. reflexivity.
  - rewrite Hdag.
    assert (Hsame : retire_node c dag = dag).
    { unfold retire_node.
      destruct (list_find _ _) as [[k node]|] eqn:Hfind; [|reflexivity].
      apply list_find_Some in Hfind as (Hk & Heq & _).
      exfalso. apply Htid. apply list_elem_of_fmap. exists node.
      split; [congruence | eapply list_elem_of_lookup_2; exact Hk]. }
    rewrite Hsame.
    destruct (DiGraph.nodes (DAG.graph dag)) as [|n l]; [contradiction|]. simpl.
    rewrite insert_id by exact Hdag. destruct m; reflexivity.
Qed.

Lemma stray_completion_is_ignored_witness :
  let m := load 1 MetaScenario.inputs MetaScenario.two_dags in
  task_completed (mk_completed 99 0 0 1) m = Ok m /\
  task_completed (mk_completed 3 5 0 1) m = Ok m.
Proof.
  intros m. split.
  - apply (stray_completion_is_ignored (mk_completed 99 0 0 1) m).
    left. vm_compute. reflexivity.
  - apply (stray_completion_is_ignored (mk_completed 3 5 0 1) m).
    right. eexists. split; [vm_compute; reflexivity|].
    split; [discriminate|]. by_evaluation.
Defined.

(** *** One sort for a batch *)

Lemma sorted_stable_unique {A : Type} (key : A -> Z) (l1 l2 : list A) :
  StronglySorted (key_le key) l1 -> StronglySorted (key_le key) l2 ->
  (forall t, filter (fun x => key x = t) l1 = filter (fun x => key x = t) l2) ->
  l1 = l2.
Proof.
  intros H1; revert l2; induction H1 as [|x l1 Hs1 IH Hx]; intros l2 H2 Heq.
  - destruct l2 as [|y l2]; [reflexivity|].
    specialize (Heq (key y)). rewrite filter_nil, filter_cons in Heq.
    destruct (decide (key y = key y)); [discriminate | congruence].
  - destruct H2 as [|y l2 Hs2 Hy].
    + specialize (Heq (key x)). rewrite filter_nil, filter_cons in Heq.
      destruct (decide (key x = key x)); [discriminate | congruence].
    + assert (Hxin : x ∈ y :: l2).
      { pose proof (Heq (key x)) as Hk. rewrite filter_cons in Hk.
        destruct (decide (key x = key x)); [|congruence].
        assert (Hin : x ∈ filter (fun z => key z = key x) (y :: l2))
          by (rewrite <- Hk; left).
        apply list_elem_of_filter in Hin as [_ Hin]. exact Hin. }
      assert (Hyin : y ∈ x :: l1).
      { pose proof (Heq (key y)) as Hk. rewrite (filter_cons _ y) in Hk.
        destruct (decide (key y = key y)); [|congruence].
        assert (Hin : y ∈ filter (fun z => key z = key y) (x :: l1))
          by (rewrite Hk; left).
        apply list_elem_of_filter in Hin as [_ Hin]. exact Hin. }
      assert (Hk : key x = key y).
      { rewrite Forall_forall in Hx, Hy. unfold key_le in *.
        apply elem_of_cons in Hxin as [->|Hxin]; [reflexivity|].
        apply elem_of_cons in Hyin as [->|Hyin]; [reflexivity|].
        specialize (Hx _ Hyin). specialize (Hy _ Hxin). lia. }
      pose proof (Heq (key x)) as Hhead. rewrite !filter_cons in Hhead.
      destruct (decide (key x = key x)); [|congruence].
      destruct (decide (key y = key x)); [|congruence].
      injection Hhead as -> Htail. f_equal.
      apply IH; [exact Hs2|].
      intros t. specialize (Heq t). rewrite !filter_cons in Heq.
      destruct (decide (key y = t)); [injection Heq as Heq|]; exact Heq.
Qed.

(** X12. Sorting the queue after every appended entry gives the same
    queue as appending the whole batch and sorting once; an empty batch
    leaves the queue as it is, sorted or not. *)
Theorem append_and_sort_is_one_sort (temp_task_trace queue : list task_entry) :
  append_and_sort temp_task_trace queue
  = match temp_task_trace with
    | [] => queue
    | _ :: _ => py_sort entry_atime (queue ++ temp_task_trace)
    end.
Proof.
  destruct temp_task_trace as [|e temp]; [reflexivity|].
  apply (sorted_stable_unique entry_atime).
  - simpl. apply append_and_sort_sorted, py_sort_sorted.
  - apply py_sort_sorted.
  - intros t. rewrite append_and_sort_stable, (py_sort_stable entry_atime). reflexivity.
Qed.

(** *** A repeated identifier *)

Lemma py_remove_leaves_duplicate (x : Z) (l l' : list Z) :
  py_remove x l = Ok l' -> ~ NoDup l -> NoDup l' -> x ∈ l'.
Proof.
  intros Hrm Hdup Hnd. apply py_remove_Permutation in Hrm.
  destruct (decide (x ∈ l')) as [Hin|Hnin]; [exact Hin|].
  exfalso. apply Hdup. rewrite Hrm. constructor; assumption.
Qed.

Lemma py_remove_other (x y : Z) (l l' : list Z) :
  py_remove x l = Ok l' -> y ∈ l -> y <> x -> y ∈ l'.
Proof.
  intros Hrm Hin Hne. apply py_remove_Permutation in Hrm. rewrite Hrm in Hin.
  apply elem_of_cons in Hin as [->|Hin]; [contradiction | exact Hin].
Qed.

Lemma task_completed_stuck (c : completed) (m m' : t) :
  task_completed c m = Ok m' -> stuck m -> stuck m'.
Proof.
  unfold task_completed, stuck. intros Hm' Hstuck.
  destruct (dag_dict m !! dag_id c) as [dag|] eqn:Hdag; [|injection Hm' as <-; exact Hstuck].
  destruct (Z.of_nat (length (DiGraph.nodes (DAG.graph (retire_node c dag)))) =? 0).
  - apply rbind_Ok in Hm' as (l & Hl & Hm'). injection Hm' as <-. simpl.
    destruct Hstuck as [Hdup|(d & Hd & Hnone)].
    + destruct (decide (NoDup l)) as [Hnd|Hnd]; [|left; exact Hnd].
      right. exists (dag_id c). split; [eapply py_remove_leaves_duplicate; eassumption|].
      apply lookup_delete_eq.
    + right. exists d. assert (Hne : d <> dag_id c) by congruence.
      split; [eapply py_remove_other; eassumption|].
      rewrite lookup_delete_ne by congruence. exact Hnone.
  - injection Hm' as <-. simpl.
    destruct Hstuck as [Hdup|(d & Hd & Hnone)]; [left; exact Hdup|].
    right. exists d. split; [exact Hd|].
    rewrite lookup_insert_ne by congruence. exact Hnone.
Qed.

Lemma update_completed_stuck (l : list completed) (m m' : t) :
  update_completed l m = Ok m' -> stuck m -> stuck m'.
Proof.
  revert m; induction l as [|c l IH]; intros m Hm' Hs; simpl in Hm'.
  - injection Hm' as <-. exact Hs.
  - bind_inv Hm'. eapply IH; [exact Hm'|]. eapply task_completed_stuck; eassumption.
Qed.

Lemma push_ready_keys (ids : list Z) (d d' : gmap Z DAG.t) (entries : list task_entry) :
  push_ready ids d = Ok (entries, d') -> forall k, d' !! k = None <-> d !! k = None.
Proof.
  revert d entries; induction ids as [|id ids IH]; intros d entries Hpush k; simpl in Hpush.
  - injection Hpush as <- <-. reflexivity.
  - apply rbind_Ok in Hpush as (dag & Hdag & Hpush). apply of_option_Ok in Hdag.
    apply rbind_Ok in Hpush as ([entries1 dag1] & _ & Hpush).
    apply rbind_Ok in Hpush as ([entries2 d2] & Hrest & Hpush). injection Hpush as <- <-.
    rewrite (IH _ _ Hrest k).
    destruct (decide (id = k)) as [->|Hne].
    + rewrite lookup_insert_eq, Hdag. split; discriminate.
    + rewrite lookup_insert_ne by exact Hne. reflexivity.
Qed.

Lemma iteration_stuck (l : list completed) (m m' : t) (temp : list task_entry) :
  iteration l m = Ok (m', temp) -> stuck m -> stuck m'.
Proof.
  unfold iteration. intros Hm' Hs.
  apply rbind_Ok in Hm' as (m1 & Hm1 & Hm').
  apply rbind_Ok in Hm' as ([temp1 d] & Hpush & Hm'). injection Hm' as <- <-.
  apply (update_completed_stuck _ _ _ Hm1) in Hs.
  destruct Hs as [Hdup|(k & Hk & Hnone)]; [left; exact Hdup|].
  right. exists k. split; [exact Hk|]. simpl. apply (push_ready_keys _ _ _ _ Hpush). exact Hnone.
Qed.

Lemma stuck_never_finishes (batches : list (list completed)) (m m' : t)
    (emitted emitted' : list (list task_entry)) :
  stuck m -> manager_loop batches m emitted <> Finished m' emitted'.
Proof.
  revert m emitted; induction batches as [|b batches IH]; intros m emitted Hs; simpl.
  - destruct (dag_id_list m) eqn:Hl; [|discriminate].
    exfalso. destruct Hs as [Hdup|(d & Hd & _)]; rewrite Hl in *.
    + apply Hdup. constructor.
    + apply elem_of_nil in Hd. exact Hd.
  - destruct (dag_id_list m) eqn:Hl.
    + exfalso. destruct Hs as [Hdup|(d & Hd & _)]; rewrite Hl in *.
      * apply Hdup. constructor.
      * apply elem_of_nil in Hd. exact Hd.
    + destruct (iteration b m) as [[m1 temp]|e] eqn:Hit; [|discriminate].
      apply IH. eapply iteration_stuck; eassumption.
Qed.

(** X13. When the arrival trace names a [dag_id] on two lines, the
    manager loop never ends, whatever completions arrive: [run] raises or
    is still looping, and [out.csv] is not written.  So a run that writes
    [out.csv] had pairwise different [dag_id]s. *)
Theorem repeated_dag_id_never_finishes (scale : Z)
    (inputs : string -> DiGraph.t * list (list string))
    (trace : list arrival) (batches : list (list completed)) :
  ~ NoDup (trace_dag_id <$> trace) ->
  (forall m emitted, manager_loop batches (load scale inputs trace) [] <> Finished m emitted) /\
  (run scale inputs trace batches = Ok None \/
   exists e, run scale inputs trace batches = Raise e).
Proof.
  intros Hdup.
  assert (Hstuck : stuck (load scale inputs trace)).
  { left. unfold load. destruct (load_lists scale inputs trace initial) as [-> _]. exact Hdup. }
  assert (Hnever : forall m emitted,
            manager_loop batches (load scale inputs trace) [] <> Finished m emitted)
    by (intros m emitted; apply stuck_never_finishes; exact Hstuck).
  split; [exact Hnever|].
  unfold run. destruct (manager_loop batches (load scale inputs trace) []) as [m e|e|m e];
    [exfalso; eapply Hnever; reflexivity | right; eauto | left; reflexivity].
Qed.

Lemma repeated_dag_id_never_finishes_witness :
  let batches := [[]; [mk_completed 5 0 0 10]; []] in
  ~ NoDup (trace_dag_id <$> MetaScenario.same_id) /\
  (forall m emitted,
     manager_loop batches (load 1 MetaScenario.inputs MetaScenario.same_id) []
     <> Finished m emitted) /\
  (run 1 MetaScenario.inputs MetaScenario.same_id batches = Ok None \/
   exists e, run 1 MetaScenario.inputs MetaScenario.same_id batches = Raise e).
Proof.
  intros batches.
  assert (Hdup : ~ NoDup (trace_dag_id <$> MetaScenario.same_id)) by by_evaluation.
  split; [exact Hdup|].
  exact (repeated_dag_id_never_finishes 1 MetaScenario.inputs MetaScenario.same_id
           batches Hdup).
Defined.

(** *** Service times of a ready task *)

(** X14. [process_comp_time] pairs the columns of the task's row of the
    matrix from the third on with [cpu_core], [gpu] and [accel], in this
    order (a row of fewer than three columns gives no pair); a row of more
    than five columns, or a [tid] outside the matrix, raises
    [IndexError]. *)
Theorem process_comp_time_pairs_the_columns (dag : DAG.t) (tid : Z) :
  process_comp_time dag tid
  = match py_index (DAG.comp dag) tid with
    | Some row =>
        if bool_decide (length row <= 5)%nat then Ok (zip server_types (drop 2 row))
        else Raise IndexError
    | None => Raise IndexError
    end.
Proof.
  unfold process_comp_time. destruct (py_index (DAG.comp dag) tid) as [row|]; [|reflexivity].
  simpl. case_bool_decide as Hlen; [apply comp_times_zip; exact Hlen|].
  destruct row as [|c0 [|c1 [|c2 [|c3 [|c4 [|c5 row]]]]]]; simpl in Hlen; try lia.
  reflexivity.
Qed.

(** *** What a DAG keeps while the manager runs *)

Lemma tids_remove_node (n : MetaTask.t) (g : DiGraph.t) :
  tids (DiGraph.remove_node n g) = filter (fun t => t ≠ MetaTask.tid n) (tids g).
Proof.
  unfold tids. rewrite remove_node_nodes. unfold DiGraph.nodes.
  induction (DiGraph.node_list g) as [|m l IH]; [reflexivity|].
  rewrite fmap_cons, !filter_cons.
  destruct (decide (MetaTask.tid m ≠ MetaTask.tid n)); rewrite ?fmap_cons, IH; reflexivity.
Qed.

Lemma retire_node_dag_inv (scale : Z) (inputs : string -> DiGraph.t * list (list string))
    (trace : list arrival) (d : Z) (c : completed) (dag : DAG.t) :
  dag_inv scale inputs trace d dag -> dag_inv scale inputs trace d (retire_node c dag).
Proof.
  intros (line & Hin & Hid & Hd & Hty & Hcomp & Hat & Hresp & Hsub & Hedges).
  unfold retire_node.
  destruct (list_find _ _) as [[k node]|] eqn:Hfind;
    [|exists line; repeat split; assumption].
  exists line. simpl.
  split; [exact Hin|]. split; [exact Hid|]. split; [exact Hd|]. split; [exact Hty|].
  split; [exact Hcomp|]. split; [exact Hat|]. split; [rewrite Hat; reflexivity|].
  rewrite tids_remove_node.
  split; [etransitivity; [apply sublist_filter | exact Hsub]|].
  intros Hclosed. cbn [DiGraph.remove_node DiGraph.edge_list].
  rewrite (Hedges Hclosed), list_filter_filter.
  apply filter_ext_in. intros e _.
  rewrite !list_elem_of_filter. tauto.
Qed.

Lemma push_ready_dag_dag_inv (scale : Z) (inputs : string -> DiGraph.t * list (list string))
    (trace : list arrival) (d dag_id : Z) (dag dag' : DAG.t) (entries : list task_entry) :
  push_ready_dag dag_id dag = Ok (entries, dag') ->
  tids (DAG.graph dag') = tids (DAG.graph dag) /\
  DiGraph.edge_list (DAG.graph dag') = DiGraph.edge_list (DAG.graph dag) /\
  (dag_inv scale inputs trace d dag -> dag_inv scale inputs trace d dag').
Proof.
  intros Hpush. apply push_ready_dag_Ok in Hpush as (_ & -> & _).
  assert (Htids : tids (DAG.graph (DAG.set_graph
            {| DiGraph.node_list := mark (DAG.graph dag) <$> DiGraph.nodes (DAG.graph dag);
               DiGraph.edge_list := DiGraph.edge_list (DAG.graph dag) |} dag))
          = tids (DAG.graph dag)).
  { unfold tids, DiGraph.nodes. simpl. rewrite <- list_fmap_compose.
    apply list_fmap_ext. intros _ n _. simpl. unfold mark.
    destruct (is_ready (DAG.graph dag) n); reflexivity. }
  split; [exact Htids|]. split; [reflexivity|].
  intros (line & Hin & Hid & Hd & Hty & Hcomp & Hat & Hresp & Hsub & Hedges).
  exists line. rewrite Htids. simpl. repeat split; assumption.
Qed.

Lemma push_ready_dict (ids : list Z) (d d' : gmap Z DAG.t) (entries : list task_entry)
    (P : Z -> DAG.t -> Prop) :
  (forall id dag es dag', push_ready_dag id dag = Ok (es, dag') -> P id dag -> P id dag') ->
  push_ready ids d = Ok (entries, d') ->
  (forall k dag, d !! k = Some dag -> P k dag) ->
  forall k dag, d' !! k = Some dag -> P k dag.
Proof.
  intros Hstep. revert d entries; induction ids as [|id ids IH]; intros d entries Hpush HP;
    simpl in Hpush.
  - injection Hpush as <- <-. exact HP.
  - apply rbind_Ok in Hpush as (dag & Hdag & Hpush). apply of_option_Ok in Hdag.
    apply rbind_Ok in Hpush as ([entries1 dag1] & Hdag1 & Hpush).
    apply rbind_Ok in Hpush as ([entries2 d2] & Hrest & Hpush). injection Hpush as <- <-.
    eapply IH; [exact Hrest|].
    intros k dag0 Hk. apply lookup_insert_Some in Hk as [[<- <-]|[_ Hk]]; [|eauto].
    eapply Hstep; eauto.
Qed.

Lemma task_completed_registry_inv (scale : Z)
    (inputs : string -> DiGraph.t * list (list string)) (trace : list arrival)
    (c : completed) (m m' : t) :
  task_completed c m = Ok m' ->
  registry_inv scale inputs trace m -> registry_inv scale inputs trace m'.
Proof.
  unfold task_completed. intros Hm' (Hdags & Hrows & Hcount).
  destruct (dag_dict m !! dag_id c) as [dag|] eqn:Hdag;
    [|injection Hm' as <-; repeat split; assumption].
  pose proof (retire_node_dag_inv _ _ _ _ c _ (Hdags _ _ Hdag)) as Hinv.
  destruct (Z.of_nat (length (DiGraph.nodes (DAG.graph (retire_node c dag)))) =? 0).
  - apply rbind_Ok in Hm' as (l & Hl & Hm'). injection Hm' as <-.
    split; [|split]; simpl.
    + intros d dag0 Hd. apply lookup_delete_Some in Hd as [_ Hd]. eauto.
    + intros entry Hentry. apply elem_of_app in Hentry as [Hentry|Hentry]; [eauto|].
      apply list_elem_of_singleton in Hentry as ->. simpl.
      destruct Hinv as (line & Hin & Hid & _ & Hty & _). eauto.
    + rewrite length_app. simpl. lia.
  - injection Hm' as <-. split; [|split]; simpl; try assumption.
    intros d dag0 Hd. apply lookup_insert_Some in Hd as [[<- <-]|[_ Hd]]; eauto.
Qed.

Lemma update_completed_registry_inv (scale : Z)
    (inputs : string -> DiGraph.t * list (list string)) (trace : list arrival)
    (l : list completed) (m m' : t) :
  update_completed l m = Ok m' ->
  registry_inv scale inputs trace m -> registry_inv scale inputs trace m'.
Proof.
  revert m; induction l as [|c l IH]; intros m Hm' Hinv; simpl in Hm'.
  - injection Hm' as <-. exact Hinv.
  - bind_inv Hm'. eapply IH; [exact Hm'|].
    eapply task_completed_registry_inv; eassumption.
Qed.

Lemma iteration_registry_inv (scale : Z)
    (inputs : string -> DiGraph.t * list (list string)) (trace : list arrival)
    (l : list completed) (m m' : t) (temp : list task_entry) :
  iteration l m = Ok (m', temp) ->
  registry_inv scale inputs trace m -> registry_inv scale inputs trace m'.
Proof.
  unfold iteration. intros Hm' Hinv.
  apply rbind_Ok in Hm' as (m1 & Hm1 & Hm').
  apply rbind_Ok in Hm' as ([temp1 d] & Hpush & Hm'). injection Hm' as <- <-.
  apply (update_completed_registry_inv _ _ _ _ _ _ Hm1) in Hinv.
  destruct Hinv as (Hdags & Hrows & Hcount).
  split; [|split]; simpl; try assumption.
  eapply (push_ready_dict _ _ _ _ (dag_inv scale inputs trace)); [|exact Hpush|exact Hdags].
  intros id dag es dag' Hes. eapply push_ready_dag_dag_inv. exact Hes.
Qed.

Lemma load_registry_inv (scale : Z) (inputs : string -> DiGraph.t * list (list string))
    (trace : list arrival) :
  registry_inv scale inputs trace (load scale inputs trace).
Proof.
  destruct (load_spec scale inputs trace) as (_ & _ & Hlook & _ & He & Hc).
  split; [|split]; [|rewrite He; intros entry Hentry; apply elem_of_nil in Hentry; contradiction
                    |rewrite He, Hc; reflexivity].
  intros d dag Hd. rewrite Hlook in Hd.
  destruct (last _) as [line|] eqn:Hlast; [|discriminate]. injection Hd as <-.
  apply last_Some_elem_of, list_elem_of_filter in Hlast as [Hid Hin].
  exists line. unfold dag_of_line. simpl.
  split; [exact Hin|]. split; [exact Hid|]. split; [exact Hid|].
  split; [reflexivity|]. split; [reflexivity|]. split; [reflexivity|].
  split; [lia|]. split; [reflexivity|].
  intros Hclosed. symmetry. apply filter_all. exact Hclosed.
Qed.

Lemma manager_loop_registry_inv (scale : Z)
    (inputs : string -> DiGraph.t * list (list string)) (trace : list arrival)
    (batches : list (list completed)) (m m' : t) (emitted emitted' : list (list task_entry)) :
  manager_loop batches m emitted = Finished m' emitted' \/
  manager_loop batches m emitted = Unfinished m' emitted' ->
  registry_inv scale inputs trace m -> registry_inv scale inputs trace m'.
Proof.
  revert m emitted; induction batches as [|b batches IH]; intros m emitted; simpl.
  - destruct (dag_id_list m); intros [Hm|Hm] Hinv; try discriminate;
      injection Hm as <- _; exact Hinv.
  - destruct (dag_id_list m).
    + intros [Hm|Hm] Hinv; try discriminate. injection Hm as <- _. exact Hinv.
    + destruct (iteration b m) as [[m1 temp]|e] eqn:Hit; [|intros [Hm|Hm]; discriminate].
      intros Hm Hinv. eapply IH; [exact Hm|]. eapply iteration_registry_inv; eassumption.
Qed.

(** X15. While the manager runs, a DAG of the dictionary stays the DAG of
    a line of the trace with its key as [dag_id]: its [id], type, matrix
    and arrival time [atime * scale] are those of this line, and its
    response time is its ready time minus its arrival time.  Every result
    entry has the [dag_id] and the type of a line of the trace, and
    [dags_completed] counts the result entries. *)
Theorem dags_keep_their_trace_line (scale : Z)
    (inputs : string -> DiGraph.t * list (list string))
    (trace : list arrival) (batches : list (list completed))
    (m : t) (emitted : list (list task_entry)) :
  manager_loop batches (load scale inputs trace) [] = Finished m emitted \/
  manager_loop batches (load scale inputs trace) [] = Unfinished m emitted ->
  (forall d dag, dag_dict m !! d = Some dag ->
     exists line,
       line ∈ trace /\ trace_dag_id line = d /\ DAG.id dag = d /\
       DAG.dag_type dag = trace_dag_type line /\
       DAG.comp dag = (inputs (trace_dag_type line)).2 /\
       DAG.arrival_time dag = trace_atime line * scale /\
       DAG.resp_time dag = DAG.ready_time dag - DAG.arrival_time dag) /\
  (forall entry, entry ∈ end_list m ->
     exists line, line ∈ trace /\ trace_dag_id line = entry.1.1 /\
                  trace_dag_type line = entry.1.2) /\
  dags_completed m = Z.of_nat (length (end_list m)).
Proof.
  intros Hloop.
  destruct (manager_loop_registry_inv scale inputs trace _ _ _ _ _ Hloop
              (load_registry_inv scale inputs trace)) as (Hdags & Hrows & Hcount).
  split; [|auto].
  intros d dag Hd.
  destruct (Hdags d dag Hd) as (line & Hin & Hid & Hd' & Hty & Hcomp & Hat & Hresp & _).
  exists line. repeat split; assumption.
Qed.

Lemma dags_keep_their_trace_line_witness :
  exists m emitted,
    manager_loop (take 2 MetaScenario.two_dags_batches)
                 (load 1 MetaScenario.inputs MetaScenario.two_dags) []
      = Unfinished m emitted /\
    (exists dag, dag_dict m !! 3 = Some dag /\ DAG.dag_type dag = "b"%string /\
                 DAG.arrival_time dag = 2) /\
    (forall entry, entry ∈ end_list m -> entry.1.1 = 7 \/ entry.1.1 = 3) /\
    dags_completed m = Z.of_nat (length (end_list m)).
Proof.
  assert (Hobs : match manager_loop (take 2 MetaScenario.two_dags_batches)
                         (load 1 MetaScenario.inputs MetaScenario.two_dags) [] with
                 | Unfinished m _ => is_Some (dag_dict m !! 3)
                 | _ => False
                 end) by (vm_compute; eexists; reflexivity).
  destruct (manager_loop _ _ _) as [|?|m emitted] eqn:Hloop; try contradiction.
  destruct Hobs as [dag Hdag].
  destruct (dags_keep_their_trace_line 1 MetaScenario.inputs MetaScenario.two_dags
              _ m emitted (or_intror Hloop)) as (Hdags & Hrows & Hcount).
  exists m, emitted. split; [reflexivity|].
  split; [|split; [|exact Hcount]].
  - exists dag. split; [exact Hdag|].
    destruct (Hdags 3 dag Hdag) as (line & Hin & Hid & _ & Hty & _ & Hat & _).
    rewrite Hty, Hat.
    apply elem_of_cons in Hin as [->|Hin];
      [discriminate Hid | apply list_elem_of_singleton in Hin as ->].
    split; reflexivity.
  - intros entry Hentry. destruct (Hrows entry Hentry) as (line & Hin & <- & _).
    apply elem_of_cons in Hin as [->|Hin];
      [left | apply list_elem_of_singleton in Hin as ->; right]; reflexivity.
Defined.

(** *** A node is emitted after its predecessors *)

Lemma in_degree_of_zero (g : DiGraph.t) (n : MetaTask.t) (u : Z) :
  DiGraph.in_degree_of g n = 0 -> (u, MetaTask.tid n) ∉ DiGraph.edge_list g.
Proof.
  unfold DiGraph.in_degree_of. intros Hdeg Hin.
  assert (Hu : u ∈ remove_dups
                 (filter (fun e : Z * Z => e.2 = MetaTask.tid n) (DiGraph.edge_list g)).*1).
  { apply elem_of_remove_dups, list_elem_of_fmap. exists (u, MetaTask.tid n).
    split; [reflexivity|]. apply list_elem_of_filter. split; [reflexivity | exact Hin]. }
  destruct (remove_dups _); [apply elem_of_nil in Hu; contradiction | simpl in Hdeg; lia].
Qed.

Lemma retired_by_app (inputs : string -> DiGraph.t * list (list string))
    (done l : list completed) (d : Z) (dag : DAG.t) :
  retired_by inputs done d dag -> retired_by inputs (done ++ l) d dag.
Proof.
  intros Hret u Hu Hgone. destruct (Hret u Hu Hgone) as (c & Hc & Hrest).
  exists c. split; [apply elem_of_app; left; exact Hc | exact Hrest].
Qed.

Lemma retire_node_retired_by (inputs : string -> DiGraph.t * list (list string))
    (done : list completed) (c : completed) (dag : DAG.t) :
  retired_by inputs done (dag_id c) dag ->
  retired_by inputs (done ++ [c]) (dag_id c) (retire_node c dag).
Proof.
  intros Hret. unfold retire_node.
  destruct (list_find _ _) as [[k node]|] eqn:Hfind; [|apply retired_by_app; exact Hret].
  apply list_find_Some in Hfind as (_ & Hnode & _).
  intros u Hu Hgone. simpl in Hu, Hgone. rewrite tids_remove_node in Hgone.
  destruct (decide (u = tid c)) as [->|Hne].
  - exists c. split; [apply elem_of_app; right; apply list_elem_of_singleton; reflexivity|].
    split; reflexivity.
  - destruct (Hret u Hu) as (c0 & Hc0 & Hrest).
    + intros Hin. apply Hgone, list_elem_of_filter. split; [congruence | exact Hin].
    + exists c0. split; [apply elem_of_app; left; exact Hc0 | exact Hrest].
Qed.

Lemma task_completed_retired_by (inputs : string -> DiGraph.t * list (list string))
    (done : list completed) (c : completed) (m m' : t) :
  task_completed c m = Ok m' ->
  (forall d dag, dag_dict m !! d = Some dag -> retired_by inputs done d dag) ->
  forall d dag, dag_dict m' !! d = Some dag -> retired_by inputs (done ++ [c]) d dag.
Proof.
  unfold task_completed. intros Hm' Hret.
  destruct (dag_dict m !! dag_id c) as [dag0|] eqn:Hdag;
    [|injection Hm' as <-; intros d dag Hd; apply retired_by_app; eauto].
  destruct (Z.of_nat (length (DiGraph.nodes (DAG.graph (retire_node c dag0)))) =? 0).
  - apply rbind_Ok in Hm' as (l & Hl & Hm'). injection Hm' as <-. simpl.
    intros d dag Hd. apply lookup_delete_Some in Hd as [_ Hd]. apply retired_by_app; eauto.
  - injection Hm' as <-. simpl.
    intros d dag Hd. apply lookup_insert_Some in Hd as [[<- <-]|[_ Hd]].
    + apply retire_node_retired_by; eauto.
    + apply retired_by_app; eauto.
Qed.

Lemma update_completed_retired_by (inputs : string -> DiGraph.t * list (list string))
    (l done : list completed) (m m' : t) :
  update_completed l m = Ok m' ->
  (forall d dag, dag_dict m !! d = Some dag -> retired_by inputs done d dag) ->
  forall d dag, dag_dict m' !! d = Some dag -> retired_by inputs (done ++ l) d dag.
Proof.
  revert done m; induction l as [|c l IH]; intros done m Hm' Hret; simpl in Hm'.
  - injection Hm' as <-. rewrite app_nil_r. exact Hret.
  - bind_inv Hm'. replace (done ++ c :: l) with ((done ++ [c]) ++ l)
      by (rewrite <- app_assoc; reflexivity).
    eapply IH; [exact Hm'|]. eapply task_completed_retired_by; eassumption.
Qed.

Lemma push_ready_dag_after_predecessors (scale : Z)
    (inputs : string -> DiGraph.t * list (list string)) (trace : list arrival)
    (done : list completed) (d : Z) (dag dag' : DAG.t) (entries : list task_entry) :
  (forall dag_type, closed (inputs dag_type).1) ->
  dag_inv scale inputs trace d dag -> retired_by inputs done d dag ->
  push_ready_dag d dag = Ok (entries, dag') ->
  Forall (after_predecessors inputs trace done) entries.
Proof.
  intros Hclosed (line & Hin & Hid & _ & Hty & _ & _ & _ & _ & Hedges) Hret Hpush.
  apply push_ready_dag_Ok in Hpush as (Hall & _ & _).
  specialize (Hedges (Hclosed _)). unfold retired_by in Hret. rewrite Hty in Hret.
  remember (filter _ (DiGraph.nodes (DAG.graph dag))) as ready eqn:Hready.
  assert (Hsub : forall n, n ∈ ready ->
            n ∈ DiGraph.nodes (DAG.graph dag) /\ is_ready (DAG.graph dag) n = true)
    by (intros n Hn; subst ready; apply list_elem_of_filter in Hn; tauto).
  clear Hready. induction Hall as [|n e ready entries (_ & Hd & Htid & _) _ IH];
    constructor.
  - destruct (Hsub n) as [Hn Hr]; [left|].
    apply andb_true_iff in Hr as [Hdeg _]. apply Z.eqb_eq in Hdeg.
    exists line. split; [exact Hin|]. split; [congruence|].
    rewrite Htid, Hd. intros u Hu.
    apply Hret.
    + pose proof (Hclosed (trace_dag_type line)) as Hcl.
      unfold closed in Hcl. rewrite Forall_forall in Hcl. apply (Hcl _ Hu).
    + intros Hstill. apply (in_degree_of_zero _ _ u Hdeg).
      rewrite Hedges. apply list_elem_of_filter. split; [|exact Hu].
      split; [exact Hstill|]. apply list_elem_of_fmap. eauto.
  - apply IH. intros n0 Hn0. apply Hsub. right. exact Hn0.
Qed.

Lemma push_ready_dag_retired_by (inputs : string -> DiGraph.t * list (list string))
    (done : list completed) (d : Z) (dag dag' : DAG.t) (entries : list task_entry) :
  push_ready_dag d dag = Ok (entries, dag') ->
  retired_by inputs done d dag -> retired_by inputs done d dag'.
Proof.
  intros Hpush Hret.
  destruct (push_ready_dag_dag_inv 0 inputs [] d d dag dag' entries Hpush) as (Htids & _ & _).
  apply push_ready_dag_Ok in Hpush as (_ & Hdag' & _).
  intros u Hu Hgone. rewrite Htids in Hgone. apply Hret; [|exact Hgone].
  rewrite Hdag' in Hu. exact Hu.
Qed.

Lemma push_ready_after_predecessors (scale : Z)
    (inputs : string -> DiGraph.t * list (list string)) (trace : list arrival)
    (done : list completed) (ids : list Z) (d d' : gmap Z DAG.t)
    (entries : list task_entry) :
  (forall dag_type, closed (inputs dag_type).1) ->
  push_ready ids d = Ok (entries, d') ->
  (forall k dag, d !! k = Some dag ->
     dag_inv scale inputs trace k dag /\ retired_by inputs done k dag) ->
  Forall (after_predecessors inputs trace done) entries.
Proof.
  intros Hclosed. revert d entries; induction ids as [|id ids IH];
    intros d entries Hpush Hinv; simpl in Hpush.
  - injection Hpush as <- <-. constructor.
  - apply rbind_Ok in Hpush as (dag & Hdag & Hpush). apply of_option_Ok in Hdag.
    apply rbind_Ok in Hpush as ([entries1 dag1] & Hdag1 & Hpush).
    apply rbind_Ok in Hpush as ([entries2 d2] & Hrest & Hpush). injection Hpush as <- <-.
    destruct (Hinv _ _ Hdag) as [Hdi Hret].
    apply Forall_app. split.
    + eapply push_ready_dag_after_predecessors; eassumption.
    + eapply IH; [exact Hrest|].
      intros k dag0 Hk. apply lookup_insert_Some in Hk as [[<- <-]|[_ Hk]]; [|eauto].
      split.
      * eapply push_ready_dag_dag_inv; eassumption.
      * eapply push_ready_dag_retired_by; eassumption.
Qed.

Lemma iteration_after_predecessors (scale : Z)
    (inputs : string -> DiGraph.t * list (list string)) (trace : list arrival)
    (done l : list completed) (m m' : t) (temp : list task_entry) :
  (forall dag_type, closed (inputs dag_type).1) ->
  iteration l m = Ok (m', temp) ->
  registry_inv scale inputs trace m ->
  (forall d dag, dag_dict m !! d = Some dag -> retired_by inputs done d dag) ->
  Forall (after_predecessors inputs trace (done ++ l)) temp /\
  (forall d dag, dag_dict m' !! d = Some dag -> retired_by inputs (done ++ l) d dag).
Proof.
  intros Hclosed Hit Hinv Hret. unfold iteration in Hit.
  apply rbind_Ok in Hit as (m1 & Hm1 & Hit).
  apply rbind_Ok in Hit as ([temp1 d1] & Hpush & Hit). injection Hit as <- <-.
  pose proof (update_completed_retired_by _ _ _ _ _ Hm1 Hret) as Hret1.
  destruct (update_completed_registry_inv _ _ _ _ _ _ Hm1 Hinv) as (Hdags & _).
  split.
  - eapply push_ready_after_predecessors; [exact Hclosed | exact Hpush |].
    intros k dag Hk. split; eauto.
  - simpl.
    eapply (push_ready_dict _ _ _ _ (retired_by inputs (done ++ l))); [|exact Hpush|exact Hret1].
    intros id dag es dag' Hes. eapply push_ready_dag_retired_by. exact Hes.
Qed.

Lemma manager_loop_after_predecessors (scale : Z)
    (inputs : string -> DiGraph.t * list (list string)) (trace : list arrival)
    (batches processed : list (list completed)) (m m' : t)
    (emitted emitted' : list (list task_entry)) :
  (forall dag_type, closed (inputs dag_type).1) ->
  length emitted = length processed ->
  registry_inv scale inputs trace m ->
  (forall d dag, dag_dict m !! d = Some dag -> retired_by inputs (concat processed) d dag) ->
  (forall i temp, emitted !! i = Some temp ->
     Forall (after_predecessors inputs trace (concat (take (S i) (processed ++ batches))))
            temp) ->
  manager_loop batches m emitted = Finished m' emitted' \/
  manager_loop batches m emitted = Unfinished m' emitted' ->
  forall i temp, emitted' !! i = Some temp ->
    Forall (after_predecessors inputs trace (concat (take (S i) (processed ++ batches))))
           temp.
Proof.
  intros Hclosed.
  revert processed m emitted; induction batches as [|b batches IH];
    intros processed m emitted Hlen Hinv Hret Hold; simpl.
  - destruct (dag_id_list m); intros [Hm|Hm]; try discriminate;
      injection Hm as _ <-; exact Hold.
  - destruct (dag_id_list m).
    + intros [Hm|Hm]; try discriminate. injection Hm as _ <-. exact Hold.
    + destruct (iteration b m) as [[m1 temp1]|e] eqn:Hit; [|intros [Hm|Hm]; discriminate].
      intros Hm.
      destruct (iteration_after_predecessors _ _ _ _ _ _ _ _ Hclosed Hit Hinv Hret)
        as [Htemp Hret1].
      replace (processed ++ b :: batches) with ((processed ++ [b]) ++ batches)
        by (rewrite <- app_assoc; reflexivity).
      apply (IH (processed ++ [b]) m1 (emitted ++ [temp1])); [| | | |exact Hm].
      * rewrite !length_app, Hlen. reflexivity.
      * eapply iteration_registry_inv; eassumption.
      * rewrite concat_app. simpl. rewrite app_nil_r. exact Hret1.
      * intros i temp Hi. rewrite <- app_assoc. simpl.
        apply lookup_app_Some in Hi as [Hi|[Hge Hi]]; [apply Hold; exact Hi|].
        apply list_lookup_singleton_Some in Hi as [Hi <-].
        replace i with (length processed) by lia.
        replace (take (S (length processed)) (processed ++ b :: batches))
          with (processed ++ [b]).
        { rewrite concat_app. simpl. rewrite app_nil_r. exact Htemp. }
        replace (processed ++ b :: batches) with ((processed ++ [b]) ++ batches)
          by (rewrite <- app_assoc; reflexivity).
        rewrite take_app_length'; [reflexivity|]. rewrite length_app. simpl. lia.
Qed.

(** X16. The manager respects precedence.  When every edge of the loaded
    graphs joins two of their nodes, an entry that the [i]-th pass of a
    run puts on the ready queue stands for a node of a DAG of the trace
    all of whose predecessors in the loaded graph were named, with the
    DAG's [dag_id], by completed tasks drained in the passes [0] to [i]. *)
Theorem ready_node_follows_its_predecessors (scale : Z)
    (inputs : string -> DiGraph.t * list (list string))
    (trace : list arrival) (batches : list (list completed))
    (m : t) (emitted : list (list task_entry)) :
  (forall dag_type, closed (inputs dag_type).1) ->
  manager_loop batches (load scale inputs trace) [] = Finished m emitted \/
  manager_loop batches (load scale inputs trace) [] = Unfinished m emitted ->
  forall i temp e, emitted !! i = Some temp -> e ∈ temp ->
    exists line,
      line ∈ trace /\ trace_dag_id line = entry_dag_id e /\
      forall u, (u, entry_tid e) ∈ DiGraph.edge_list (inputs (trace_dag_type line)).1 ->
        exists c, c ∈ concat (take (S i) batches) /\
                  dag_id c = entry_dag_id e /\ tid c = u.
Proof.
  intros Hclosed Hloop i temp e Hi He.
  pose proof (manager_loop_after_predecessors scale inputs trace batches []
                (load scale inputs trace) m [] emitted
                Hclosed eq_refl (load_registry_inv scale inputs trace)) as Hall.
  simpl in Hall.
  assert (Hprec : Forall (after_predecessors inputs trace (concat (take (S i) batches))) temp).
  { eapply Hall; [| |exact Hloop|exact Hi].
    - intros d dag Hd u Hu Hgone. exfalso. apply Hgone.
      destruct (load_spec scale inputs trace) as (_ & _ & Hlook & _).
      rewrite Hlook in Hd. destruct (last _) as [line|]; [|discriminate].
      injection Hd as <-. exact Hu.
    - intros j temp0 Hj. discriminate. }
  rewrite Forall_forall in Hprec. exact (Hprec e He).
Qed.

Lemma ready_node_follows_its_predecessors_witness :
  (forall dag_type, closed (MetaScenario.inputs dag_type).1) /\
  exists m emitted,
    manager_loop MetaScenario.two_dags_batches
                 (load 1 MetaScenario.inputs MetaScenario.two_dags) []
      = Finished m emitted /\
    (entry_key <$> concat emitted) = [(7, 0); (3, 0); (3, 1)] /\
    forall i temp e, emitted !! i = Some temp -> e ∈ temp -> entry_key e = (3, 1) ->
      exists c, c ∈ concat (take (S i) MetaScenario.two_dags_batches) /\
                dag_id c = 3 /\ tid c = 0.
Proof.
  assert (Hclosed : forall dag_type, closed (MetaScenario.inputs dag_type).1).
  { intros dag_type. unfold MetaScenario.inputs, closed.
    destruct (decide _); by_evaluation. }
  split; [exact Hclosed|].
  assert (Hobs : match manager_loop MetaScenario.two_dags_batches
                         (load 1 MetaScenario.inputs MetaScenario.two_dags) [] with
                 | Finished _ emitted =>
                     (entry_key <$> concat emitted) = [(7, 0); (3, 0); (3, 1)]
                 | _ => False
                 end) by (vm_compute; reflexivity).
  destruct (manager_loop _ _ _) as [m emitted|?|] eqn:Hloop; try contradiction.
  exists m, emitted. split; [reflexivity|]. split; [exact Hobs|].
  intros i temp e Hi He Hkey.
  destruct (ready_node_follows_its_predecessors 1 MetaScenario.inputs MetaScenario.two_dags
              _ m emitted Hclosed (or_introl Hloop) i temp e Hi He)
    as (line & Hin & Hid & Hpred).
  injection Hkey as Hd Ht. rewrite Hd, Ht in *.
  apply Hpred.
  apply elem_of_cons in Hin as [->|Hin];
    [discriminate Hid | apply list_elem_of_singleton in Hin as ->].
  by_evaluation.
Defined.

End MetaExtra.
